(** * dashboard-atendimento: data validation and metric derivation

    A shallow embedding of the data-frame code of the dashboard
    (package [src/processamento] and [src/visualizacao/dashboards]) and the
    properties the specification states about it.

    Conventions of the embedding.
    - A data frame of ticket events is a list of rows, in row order.
    - A timestamp is a number of seconds on the (time-zone free) time line,
      so that [dt.date] is the day number and [dt.hour] the hour of the day.
    - Durations ([tpatend], [tpesper]) are whole seconds.
    - float64 results are read in exact rational arithmetic, extended with
      the values [inf], [-inf] and [NaN] that a division by zero produces.
    - The chart and streamlit calls have no effect on the computed tables and
      are left out. *)

From Stdlib Require Import ZArith QArith Qround List String Ascii Bool Lia.
From Stdlib Require Import Permutation Sorted DecimalString.
From Stdlib Require Import Reals Qreals Lra.
Import ListNotations.

Local Open Scope R_scope.
Local Open Scope Q_scope.
Local Open Scope string_scope.
Local Open Scope Z_scope.

(** * Part I: the program *)

(** ** Timestamps *)

Module Tempo.

(** [Series.dt.date]: the calendar day a timestamp falls in. *)
Definition date (t : Z) : Z := t / 86400.

(** [Series.dt.hour] / [Timestamp.hour]: the hour of the day, 0..23. *)
Definition hour (t : Z) : Z := (t mod 86400) / 3600.

(** [Series.dt.floor('15T')]: start of the 15-minute window. *)
Definition floor15 (t : Z) : Z := t - t mod 900.

End Tempo.

(** ** Rows *)

(** One row of the uploaded base sheet.  Every column the metrics read is
    populated in each row. *)
Record registro_base : Type := mkBase {
  id : Z;
  status : string;
  guiche : Z;
  usuario : string;
  retirada : Z;
  inicio : Z;
  fim : Z;
  tpatend : Z;
  tpesper : Z;
  prefixo : string
}.

(** One row of [dados['base']]: the base row, the two columns the left join
    with the code table adds ([None] is pandas' NaN) and the derived
    [tempo_permanencia]. *)
Record registro : Type := mkRegistro {
  base :> registro_base;
  CLIENTE : option string;
  OPERACAO : option string;
  tempo_permanencia : Z
}.

Definition DataFrame := list registro.

(** ** float64 values in exact arithmetic *)

Inductive float64 : Type :=
| Fin (q : Q)
| Inf
| NegInf
| NaN.

Module Float.

(** The infinity carrying the sign of [a]; [NaN] for zero (0 * inf, 0 / 0). *)
Definition inf_sinal (a : Q) : float64 :=
  if Qlt_le_dec 0 a then Inf
  else if Qlt_le_dec a 0 then NegInf
  else NaN.

Definition neg (x : float64) : float64 :=
  match x with
  | Fin q => Fin (- q)
  | Inf => NegInf
  | NegInf => Inf
  | NaN => NaN
  end.

Definition add (x y : float64) : float64 :=
  match x, y with
  | NaN, _ | _, NaN => NaN
  | Fin a, Fin b => Fin (a + b)
  | Inf, NegInf | NegInf, Inf => NaN
  | Inf, _ | _, Inf => Inf
  | NegInf, _ | _, NegInf => NegInf
  end.

Definition sub (x y : float64) : float64 := add x (neg y).

Definition mul (x y : float64) : float64 :=
  match x, y with
  | NaN, _ | _, NaN => NaN
  | Fin a, Fin b => Fin (a * b)
  | Fin a, Inf | Inf, Fin a => inf_sinal a
  | Fin a, NegInf | NegInf, Fin a => inf_sinal (- a)
  | Inf, Inf | NegInf, NegInf => Inf
  | Inf, NegInf | NegInf, Inf => NegInf
  end.

(** Division as numpy performs it on float64 columns: a finite value
    divided by zero is an infinity of its sign, and 0 / 0 is [NaN]. *)
Definition div (x y : float64) : float64 :=
  match x, y with
  | NaN, _ | _, NaN => NaN
  | Fin a, Fin b => if Qeq_bool b 0 then inf_sinal a else Fin (a / b)
  | Fin _, _ => Fin 0
  | Inf, Fin b => if Qlt_le_dec b 0 then NegInf else Inf
  | NegInf, Fin b => if Qlt_le_dec b 0 then Inf else NegInf
  | _, _ => NaN
  end.

(** [Series.fillna(v)]. *)
Definition fillna (v : Q) (x : float64) : float64 :=
  match x with NaN => Fin v | _ => x end.

(** [Series.replace([float('inf')], v)]. *)
Definition replace_inf (v : Q) (x : float64) : float64 :=
  match x with Inf => Fin v | _ => x end.

Definition of_Z (n : Z) : float64 := Fin (inject_Z n).

End Float.

(** ** Data-frame primitives *)

Module Pandas.

(** [Series.isin(values)] on a string column. *)
Definition isin (s : string) (values : list string) : bool :=
  existsb (String.eqb s) values.

(** [isin] on a column with missing values: NaN is in no list of names. *)
Definition isin_opt (s : option string) (values : list string) : bool :=
  match s with Some s => isin s values | None => false end.

(** [column == value] on a column with missing values. *)
Definition eq_opt (s : option string) (value : string) : bool :=
  match s with Some s => String.eqb s value | None => false end.

(** Equality of two lists of names, for tests like [filtros['cliente'] != ['Todos']]. *)
Definition lista_eqb (l1 l2 : list string) : bool :=
  if list_eq_dec string_dec l1 l2 then true else false.

Section Generic.
Context {A K : Type}.
Variable eqb : K -> K -> bool.
Variable leb : K -> K -> bool.

(** [Series.unique()]: the distinct values in order of first appearance. *)
Fixpoint unique (l : list K) : list K :=
  match l with
  | [] => []
  | x :: t => x :: filter (fun y => negb (eqb x y)) (unique t)
  end.

(** Insertion of a row behind the rows whose key is not larger. *)
Fixpoint insere (key : A -> K) (x : A) (l : list A) : list A :=
  match l with
  | [] => [x]
  | y :: t => if leb (key y) (key x) then y :: insere key x t else x :: y :: t
  end.

(** [DataFrame.sort_values(key)].  Rows with different keys come out in key
    order.  Rows with equal keys are left here in the order they had; pandas
    sorts with quicksort by default, which may leave them in another order,
    so a statement that depends on the order of rows with equal keys
    carries the hypothesis that there are none. *)
Definition sort_values (key : A -> K) (l : list A) : list A :=
  fold_right (insere key) [] (rev l).

(** The rows of one group. *)
Definition grupo_de (key : A -> option K) (k : K) (df : list A) : list A :=
  filter (fun r => match key r with Some k' => eqb k k' | None => false end) df.

(** The values of a column that are present. *)
Definition presentes (key : A -> option K) (df : list A) : list K :=
  flat_map (fun r => match key r with Some k => [k] | None => [] end) df.

End Generic.

(** Sorting a list of keys. *)
Definition sorted {K} (leb : K -> K -> bool) (l : list K) : list K :=
  sort_values leb (fun k => k) l.

(** [DataFrame.groupby(key)]: one group per distinct key that is present,
    in increasing key order; rows with a missing key belong to no group. *)
Definition groupby {A K} (eqb leb : K -> K -> bool) (key : A -> option K)
    (df : list A) : list (K * list A) :=
  map (fun k => (k, grupo_de eqb key k df))
      (sorted leb (unique eqb (presentes key df))).

(** Sum and mean of a numeric column.  [mean] is used on groups and on
    series already known to be non-empty. *)
Definition sumZ (l : list Z) : Z := fold_right Z.add 0 l.

Definition sumQ (l : list Q) : Q := fold_right Qplus (0 # 1)%Q l.

Definition mean (l : list Q) : Q :=
  (sumQ l / inject_Z (Z.of_nat (List.length l)))%Q.

Definition meanZ (l : list Z) : Q := mean (map inject_Z l).

Section Merge.
Context {V1 V2 : Type}.

(** The rows of a keyed frame with key [k]. *)
Definition com_chave {V} (k : string) (df : list (string * V)) : list V :=
  map snd (filter (fun kv => String.eqb (fst kv) k) df).

(** [pd.merge(left, right, on=key)]: inner join, in the order of the left
    rows. *)
Definition merge_inner (left : list (string * V1)) (right : list (string * V2))
    : list (string * (V1 * V2)) :=
  flat_map (fun l => map (fun v2 => (fst l, (snd l, v2))) (com_chave (fst l) right)) left.

(** [pd.merge(left, right, on=key, how='left')]: every left row is kept; a
    left row without a partner gets missing right columns. *)
Definition merge_left (left : list (string * V1)) (right : list (string * V2))
    : list (string * (V1 * option V2)) :=
  flat_map (fun l =>
              match com_chave (fst l) right with
              | [] => [(fst l, (snd l, None))]
              | vs => map (fun v2 => (fst l, (snd l, Some v2))) vs
              end) left.

(** [pd.merge(left, right, on=key, how='outer')]: the union of the keys, in
    increasing key order; the side that lacks a key is missing. *)
Definition merge_outer (left : list (string * V1)) (right : list (string * V2))
    : list (string * (option V1 * option V2)) :=
  flat_map (fun k =>
              match com_chave k left, com_chave k right with
              | [], vs2 => map (fun v2 => (k, (None, Some v2))) vs2
              | vs1, [] => map (fun v1 => (k, (Some v1, None))) vs1
              | vs1, vs2 =>
                  flat_map (fun v1 => map (fun v2 => (k, (Some v1, Some v2))) vs2) vs1
              end)
           (sorted String.leb (unique String.eqb (map fst left ++ map fst right))).

End Merge.

End Pandas.

(** ** The filter dictionary of the dashboards *)

Module Filtros.

(** [filtros['periodo1']], [filtros['periodo2']]: two calendar days. *)
Record periodo : Type := mkPeriodo { inicio : Z; fim : Z }.

Inductive nome_periodo : Type := periodo1 | periodo2.

Record t : Type := mkFiltros {
  p1 : periodo;
  p2 : periodo;
  cliente : list string;
  operacao : list string;
  turno : list string;
  colaborador : option string;
  data_especifica : option Z
}.

(** [filtros[periodo]]. *)
Definition get (f : t) (p : nome_periodo) : periodo :=
  match p with periodo1 => p1 f | periodo2 => p2 f end.

(** The date mask every dashboard starts with:
    [(retirada.dt.date >= inicio) & (retirada.dt.date <= fim)]. *)
Definition mask_periodo (f : t) (p : nome_periodo) (r : registro) : bool :=
  (inicio (get f p) <=? Tempo.date (retirada r))
  && (Tempo.date (retirada r) <=? fim (get f p)).

End Filtros.

(** ** processamento/carregar_dados.py *)

Module CarregarDados.

(** A sheet as read by [pd.read_excel]: its column labels and its rows. *)
Record tabela (L : Type) : Type := mkTabela {
  columns : list string;
  linhas : list L
}.
Arguments mkTabela {L} _ _.
Arguments columns {L} _.
Arguments linhas {L} _.

Inductive resultado (A : Type) : Type :=
| Ok (a : A)
| ValueError (msg : string).
Arguments Ok {A} _.
Arguments ValueError {A} _.

(** The boolean mask of [validar_dados]. *)
Definition mascara_valida (r : registro_base) : bool :=
  (60 <=? tpatend r) && (tpatend r <=? 1800) && (tpesper r <=? 14400)
  && Pandas.isin (status r) ["ATENDIDO"; "TRANSFERIDA"].

(** [validar_dados(df)] on the rows of a frame that has one column per
    field.  The three [pd.to_datetime] conversions leave timestamps as they
    are; [None] is the value of the [except] branch, which such a frame
    never reaches.  [validar_dados_tabela] below is the function on a sheet
    with its labels, where the branch is reached. *)
Definition validar_dados (df : list registro_base) : option (list registro_base) :=
  Some (filter mascara_valida df).

(** The columns [validar_dados] reads. *)
Definition colunas_lidas : list string :=
  [ "retirada"; "inicio"; "fim"; "tpatend"; "tpesper"; "status" ].

(** The columns [carregar_dados] takes from the code sheet. *)
Definition colunas_codigo : list string := [ "prefixo"; "CLIENTE"; "OPERAÇÃO" ].

(** [df[col]] is a single column when exactly one label is [col]: it is a
    [KeyError] when there is none and a frame of several columns when there
    are more. *)
Definition coluna_unica (cols : list string) (col : string) : bool :=
  Nat.eqb (count_occ string_dec cols col) 1.

(** [mapa_colunas], in the order of the dict literal. *)
Definition mapa_colunas : list (string * string) :=
  [ ("status_descricao", "status"); ("status descrição", "status");
    ("Status Descrição", "status"); ("Status", "status"); ("STATUS", "status");
    ("guiche", "guichê"); ("guichê", "guichê"); ("Guichê", "guichê");
    ("Guiche", "guichê"); ("GUICHE", "guichê");
    ("usuario", "usuário"); ("usuário", "usuário"); ("Usuário", "usuário");
    ("Usuario", "usuário"); ("USUARIO", "usuário");
    ("retirada", "retirada"); ("inicio", "inicio"); ("fim", "fim");
    ("tpatend", "tpatend"); ("tpesper", "tpesper") ].

Definition colunas_obrigatorias : list string :=
  [ "status"; "guichê"; "usuário"; "retirada"; "inicio"; "fim";
    "tpatend"; "tpesper"; "prefixo" ].

(** [df.rename(columns={old: new})]: every column labelled [old] is
    relabelled. *)
Definition rename (old new : string) (cols : list string) : list string :=
  map (fun c => if String.eqb c old then new else c) cols.

(** The code table: [df_codigo[['prefixo', 'CLIENTE', 'OPERAÇÃO']]]. *)
Record codigo : Type := mkCodigo {
  cod_prefixo : string;
  cod_CLIENTE : option string;
  cod_OPERACAO : option string
}.

(** The dictionary [carregar_dados] returns, with the flag of the sidebar
    warning about rows without a code. *)
Record dados (M : Type) : Type := mkDados {
  d_base : DataFrame;
  d_medias : M;
  d_codigo : tabela codigo;
  aviso_sem_codigo : bool
}.
Arguments mkDados {M} _ _ _ _.
Arguments d_base {M} _.
Arguments d_medias {M} _.
Arguments d_codigo {M} _.
Arguments aviso_sem_codigo {M} _.

(** One row of [df_final]: the left row, the code columns of its partner
    and [tempo_permanencia = tpatend + tpesper]. *)
Definition linha_final (l : string * (registro_base * option codigo)) : registro :=
  let b := fst (snd l) in
  match snd (snd l) with
  | Some c => mkRegistro b (cod_CLIENTE c) (cod_OPERACAO c) (tpatend b + tpesper b)
  | None => mkRegistro b None None (tpatend b + tpesper b)
  end.

(** [df['CLIENTE'].isna().any() or df['OPERAÇÃO'].isna().any()]. *)
Definition algum_sem_codigo (df : DataFrame) : bool :=
  existsb (fun r => match CLIENTE r with None => true | Some _ => false end) df
  || existsb (fun r => match OPERACAO r with None => true | Some _ => false end) df.

(** [validar_dados(df)] on a sheet with its labels.  When one of the
    columns it reads is labelled twice (the renaming gives ['Status'] and
    ['STATUS'] the same label), [df[col]] is a frame: [pd.to_datetime]
    rejects it and the mask cannot be aligned with it, so the [except]
    branch returns [None]. *)
Definition validar_dados_tabela (df : tabela registro_base)
    : option (tabela registro_base) :=
  if forallb (coluna_unica (columns df)) colunas_lidas
  then option_map (mkTabela (columns df)) (validar_dados (linhas df))
  else None.

(** What [pd.read_excel] makes of an upload: a sheet, or an exception. *)
Inductive leitura (A : Type) : Type :=
| Planilha (df : A)
| Ilegivel.
Arguments Planilha {A} _.
Arguments Ilegivel {A}.

(** [pd.merge(df_base, df_codigo[['prefixo', 'CLIENTE', 'OPERAÇÃO']],
    on='prefixo', how='left')] with the test of the warning and the new
    column.  [None] stands for an exception: the selection from the code
    sheet needs the three labels and the join a single ['prefixo'] on both
    sides; a label of the code sheet that occurs twice makes the test of
    the warning ambiguous; a ['CLIENTE'] or ['OPERAÇÃO'] column of the base
    makes the join suffix both columns, and [df_final['CLIENTE']] is then a
    [KeyError].  In two corners the test short-circuits on a row without
    CLIENTE before it reaches the offending ['OPERAÇÃO'], and the code goes
    on with a frame that has no single ['OPERAÇÃO'] column; such a frame is
    none of the frames described here, and [None] covers it as well. *)
Definition juntar_codigos (df_base : tabela registro_base) (df_codigo : tabela codigo)
    : option DataFrame :=
  if forallb (coluna_unica (columns df_codigo)) colunas_codigo
     && coluna_unica (columns df_base) "prefixo"
     && negb (existsb (fun col => Pandas.isin col ["CLIENTE"; "OPERAÇÃO"])
                      (columns df_base))
  then Some (map linha_final
               (Pandas.merge_left
                  (map (fun b => (prefixo b, b)) (linhas df_base))
                  (map (fun c => (cod_prefixo c, c)) (linhas df_codigo))))
  else None.

Section Colunas.

(** Python's [str.lower] and [str.strip]. *)
Variable lower : string -> string.
Variable strip : string -> string.

(** The inner loop of the renaming: the value of the first entry of
    [mapa_colunas] whose lowered key is the lowered, stripped label. *)
Definition nome_padrao (col_atual : string) : option string :=
  let col_lower := strip (lower col_atual) in
  option_map snd
    (find (fun kv => String.eqb col_lower (lower (fst kv))) mapa_colunas).

(** The outer loop: it runs over the labels the sheet had on entry and
    relabels the current frame. *)
Definition renomear (cols : list string) : list string :=
  fold_left (fun atuais col_atual =>
               match nome_padrao col_atual with
               | Some value => rename col_atual value atuais
               | None => atuais
               end) cols cols.

Definition colunas_faltantes (cols : list string) : list string :=
  filter (fun col => negb (existsb (String.eqb col) cols)) colunas_obrigatorias.

(** [validar_colunas(df)]. *)
Definition validar_colunas {L} (df : tabela L) : resultado (tabela L) :=
  let df := mkTabela (renomear (columns df)) (linhas df) in
  match colunas_faltantes (columns df) with
  | [] => Ok df
  | _ :: _ => ValueError "Estrutura do arquivo inválida"
  end.

(** [carregar_dados()], from the three uploads on: [None] when no file was
    chosen, otherwise what [pd.read_excel] made of it.  Every exception
    ends in an [except] that returns [None]: a sheet that cannot be read,
    the [ValueError] of [validar_colunas], a failed [validar_dados], a
    failed join. *)
Definition carregar_dados {M}
    (arquivo_base : option (leitura (tabela registro_base)))
    (arquivo_codigo : option (leitura (tabela codigo)))
    (arquivo_medias : option (leitura M))
    : option (dados M) :=
  match arquivo_base, arquivo_codigo, arquivo_medias with
  | Some (Planilha df_base), Some (Planilha df_codigo), Some (Planilha df_medias) =>
      match validar_colunas df_base with
      | ValueError _ => None
      | Ok df_base =>
          match validar_dados_tabela df_base with
          | None => None
          | Some df_base =>
              match juntar_codigos df_base df_codigo with
              | None => None
              | Some df_final =>
                  Some (mkDados df_final df_medias df_codigo
                                (algum_sem_codigo df_final))
              end
          end
      end
  | _, _, _ => None
  end.

End Colunas.

End CarregarDados.

(** ** Grouping columns shared by the wait-time and service-time tabs *)

(** The [grupo] argument: ['CLIENTE'] or ['OPERAÇÃO']. *)
Inductive grupo : Type := G_CLIENTE | G_OPERACAO.

Definition coluna_grupo (g : grupo) (r : registro) : option string :=
  match g with G_CLIENTE => CLIENTE r | G_OPERACAO => OPERACAO r end.

(** One row of [calcular_tempos_por_periodo]: [media] (minutes) and
    [contagem] of a group. *)
Record tempos : Type := mkTempos { media : Q; contagem : Z }.

(** One row of [df_comp] in the wait-time and service-time comparisons. *)
Record comp_tempos : Type := mkCompTempos {
  ct_chave : string;
  media_p1 : Q;
  contagem_p1 : Z;
  media_p2 : Q;
  contagem_p2 : Z;
  META : option (option Q);
  ct_variacao : float64;
  ct_total : Q
}.

(** [(p2 - p1) / p1 * 100] on float64 columns. *)
Definition variacao_pct (v1 v2 : Q) : float64 :=
  Float.mul (Float.div (Float.sub (Fin v2) (Fin v1)) (Fin v1)) (Fin (100 # 1)).

(** Decreasing order on a rational column ([ascending=False]). *)
Definition Qgeb (a b : Q) : bool := Qle_bool b a.

(** ** dashboards/operacoes_clientes/espera.py *)

Module Espera.

(** The argument of [determinar_turno]: a [pd.Timestamp] or a bare hour. *)
Inductive hora_arg : Type :=
| Timestamp (t : Z)
| Hora (h : Z).

(** [determinar_turno(hora)]. *)
Definition determinar_turno (hora : hora_arg) : string :=
  let hora := match hora with Timestamp t => Tempo.hour t | Hora h => h end in
  if (7 <=? hora) && (hora <? 15) then "TURNO A"
  else if (15 <=? hora) && (hora <? 23) then "TURNO B"
  else "TURNO C".

(** The [TURNO] column: [df_filtrado['retirada'].apply(determinar_turno)]. *)
Definition TURNO (r : registro) : string :=
  determinar_turno (Timestamp (retirada r)).

(** The rows [calcular_tempos_por_periodo] aggregates. *)
Definition filtrar (df : DataFrame) (filtros : Filtros.t)
    (periodo : Filtros.nome_periodo) : DataFrame :=
  let df_filtrado := filter (Filtros.mask_periodo filtros periodo) df in
  let df_filtrado :=
    if negb (Pandas.lista_eqb (Filtros.cliente filtros) ["Todos"])
    then filter (fun r => Pandas.isin_opt (CLIENTE r) (Filtros.cliente filtros)) df_filtrado
    else df_filtrado in
  let df_filtrado :=
    if negb (Pandas.lista_eqb (Filtros.operacao filtros) ["Todas"])
    then filter (fun r => Pandas.isin_opt (OPERACAO r) (Filtros.operacao filtros)) df_filtrado
    else df_filtrado in
  if negb (Pandas.lista_eqb (Filtros.turno filtros) ["Todos"])
  then filter (fun r => Pandas.isin (TURNO r) (Filtros.turno filtros)) df_filtrado
  else df_filtrado.

(** [calcular_tempos_por_periodo(dados, filtros, periodo, grupo)]: mean of
    [tpesper] per group, in minutes, and the group size.  Without rows the
    function returns an empty frame. *)
Definition calcular_tempos_por_periodo (df : DataFrame) (filtros : Filtros.t)
    (periodo : Filtros.nome_periodo) (g : grupo) : list (string * tempos) :=
  let df_filtrado := filtrar df filtros periodo in
  if (List.length df_filtrado =? 0)%nat then []
  else
    map (fun kg =>
           (fst kg,
            mkTempos (Pandas.meanZ (map (fun r : registro => tpesper r) (snd kg)) / (60 # 1))%Q
                     (Z.of_nat (List.length (snd kg)))))
        (Pandas.groupby String.eqb String.leb (coluna_grupo g) df_filtrado).

(** [criar_grafico_comparativo]: the table [df_comp] behind the chart.  The
    preparation of the target sheet does not touch [df_comp]. *)
Definition criar_grafico_comparativo (dados_p1 dados_p2 : list (string * tempos))
    : list comp_tempos :=
  let df_comp :=
    map (fun row =>
           let a := fst (snd row) in
           let b := snd (snd row) in
           mkCompTempos (fst row) (media a) (contagem a) (media b) (contagem b) None
                        (variacao_pct (media a) (media b))
                        (media a + media b)%Q)
        (Pandas.merge_inner dados_p1 dados_p2) in
  Pandas.sort_values Qgeb ct_total df_comp.

End Espera.

(** ** dashboards/operacoes_clientes/tempo_atend.py *)

Module TempoAtend.

(** [calcular_tempos_por_periodo]: mean of [tpatend] per group, in minutes.
    The client filter applies only when grouping by operation. *)
Definition calcular_tempos_por_periodo (df : DataFrame) (filtros : Filtros.t)
    (periodo : Filtros.nome_periodo) (g : grupo) : list (string * tempos) :=
  let df_filtrado := filter (Filtros.mask_periodo filtros periodo) df in
  let df_filtrado :=
    if negb (Pandas.lista_eqb (Filtros.cliente filtros) ["Todos"])
       && match g with G_OPERACAO => true | G_CLIENTE => false end
    then filter (fun r => Pandas.isin_opt (CLIENTE r) (Filtros.cliente filtros)) df_filtrado
    else df_filtrado in
  map (fun kg =>
         (fst kg,
          mkTempos (Pandas.meanZ (map (fun r : registro => tpatend r) (snd kg)) / (60 # 1))%Q
                   (Z.of_nat (List.length (snd kg)))))
      (Pandas.groupby String.eqb String.leb (coluna_grupo g) df_filtrado).

(** [criar_grafico_comparativo]: inner join of the two periods, then, when a
    target frame is given, a left join with its [META] column. *)
Definition criar_grafico_comparativo (dados_p1 dados_p2 : list (string * tempos))
    (dados_medias : option (list (string * option Q))) : list comp_tempos :=
  let df_comp := Pandas.merge_inner dados_p1 dados_p2 in
  let df_comp : list (string * ((tempos * tempos) * option (option Q))) :=
    match dados_medias with
    | Some metas => Pandas.merge_left df_comp metas
    | None => map (fun row => (fst row, (snd row, None))) df_comp
    end in
  let df_comp :=
    map (fun row =>
           let a := fst (fst (snd row)) in
           let b := snd (fst (snd row)) in
           mkCompTempos (fst row) (media a) (contagem a) (media b) (contagem b)
                        (snd (snd row))
                        (variacao_pct (media a) (media b))
                        (media a + media b)%Q)
        df_comp in
  Pandas.sort_values Qgeb ct_total df_comp.

End TempoAtend.

(** ** dashboards/operacoes_clientes/mov_cliente.py *)

Module MovCliente.

(** One row of [df_comp]. *)
Record comp : Type := mkComp {
  cliente : string;
  quantidade_p1 : Z;
  quantidade_p2 : Z;
  total : Z;
  variacao : float64
}.

(** [calcular_movimentacao_por_periodo]: the number of tickets of each
    client in the period ([groupby('CLIENTE')['id'].count()]). *)
Definition calcular_movimentacao_por_periodo (df : DataFrame) (filtros : Filtros.t)
    (periodo : Filtros.nome_periodo) : list (string * Z) :=
  let df_filtrado := filter (Filtros.mask_periodo filtros periodo) df in
  map (fun kg => (fst kg, Z.of_nat (List.length (map (fun r : registro => id r) (snd kg)))))
      (Pandas.groupby String.eqb String.leb CLIENTE df_filtrado).

(** [criar_grafico_comparativo]: the table [df_comp] behind the chart. *)
Definition criar_grafico_comparativo (dados_p1 dados_p2 : list (string * Z))
    : list comp :=
  let df_comp :=
    map (fun row =>
           let q1 := fst (snd row) in
           let q2 := snd (snd row) in
           mkComp (fst row) q1 q2 (q1 + q2)
                  (variacao_pct (inject_Z q1) (inject_Z q2)))
        (Pandas.merge_inner dados_p1 dados_p2) in
  Pandas.sort_values Z.leb total df_comp.

End MovCliente.

(** ** dashboards/operacoes_clientes/mov_operacao.py *)

Module MovOperacao.

(** The local [get_turno(hour)] of [calcular_movimentacao_por_periodo]. *)
Definition get_turno (hour : Z) : string :=
  if (7 <=? hour) && (hour <? 15) then "TURNO A"
  else if (15 <=? hour) && (hour <? 23) then "TURNO B"
  else "TURNO C".

(** [df_filtrado['retirada'].dt.hour.apply(get_turno)]. *)
Definition turno_de (r : registro) : string := get_turno (Tempo.hour (retirada r)).

End MovOperacao.

(** ** dashboards/desenvolvimento_pessoas/ociosidade.py *)

Module Ociosidade.

(** The local [get_turno(hour)] of [calcular_ociosidade_por_periodo]. *)
Definition get_turno (hour : Z) : string :=
  if (7 <=? hour) && (hour <? 15) then "TURNO A"
  else if (15 <=? hour) && (hour <? 23) then "TURNO B"
  else "TURNO C".

(** [df_filtrado['retirada'].dt.hour.apply(get_turno)]. *)
Definition turno_de (r : registro) : string := get_turno (Tempo.hour (retirada r)).

(** The filters of [calcular_ociosidade_por_periodo], in the order applied. *)
Definition filtrar (df : DataFrame) (filtros : Filtros.t)
    (periodo : Filtros.nome_periodo) : DataFrame :=
  let mask (r : registro) :=
    Filtros.mask_periodo filtros periodo r
    && match Filtros.data_especifica filtros with
       | Some d => Tempo.date (retirada r) =? d
       | None => true
       end in
  let df_filtrado := filter mask df in
  let df_filtrado :=
    match Filtros.colaborador filtros with
    | Some c =>
        if negb (String.eqb c "") && negb (String.eqb c "Todos")
        then filter (fun r : registro => String.eqb (usuario r) c) df_filtrado
        else df_filtrado
    | None => df_filtrado
    end in
  let df_filtrado :=
    if negb (Pandas.lista_eqb (Filtros.cliente filtros) ["Todos"])
    then filter (fun r => Pandas.isin_opt (CLIENTE r) (Filtros.cliente filtros)) df_filtrado
    else df_filtrado in
  let df_filtrado :=
    if negb (Pandas.lista_eqb (Filtros.operacao filtros) ["Todas"])
    then filter (fun r => Pandas.isin_opt (OPERACAO r) (Filtros.operacao filtros)) df_filtrado
    else df_filtrado in
  if negb (Pandas.lista_eqb (Filtros.turno filtros) ["Todos"])
  then filter (fun r => Pandas.isin (turno_de r) (Filtros.turno filtros)) df_filtrado
  else df_filtrado.

(** The loop over [range(len(atend_dia) - 1)]: the gap between the end of a
    service and the start of the next one, kept when [0 < gap <= 7200]. *)
Fixpoint intervalos_de (atend_dia : list registro) : list Z :=
  match atend_dia with
  | atual :: ((prox :: _) as resto) =>
      let intervalo := inicio prox - fim atual in
      if (0 <? intervalo) && (intervalo <=? 7200)
      then intervalo :: intervalos_de resto
      else intervalos_de resto
  | _ => []
  end.

(** [max(intervalos)] on a non-empty list. *)
Definition maximo (l : list Z) : Z :=
  match l with
  | [] => 0
  | x :: t => fold_left Z.max t x
  end.

(** [list.remove(x)]: drops the first occurrence. *)
Fixpoint remove (x : Z) (l : list Z) : list Z :=
  match l with
  | [] => []
  | y :: t => if y =? x then t else y :: remove x t
  end.

(** One dictionary appended to [ociosidade]. *)
Record entrada : Type := mkEntrada {
  colaborador : string;
  data : Z;
  tempo_ocioso : Z;
  qtd_intervalos : nat
}.

(** The body of the inner loop for one operator and one day. *)
Definition entrada_dia (df_filtrado : DataFrame) (u : string) (d : Z) : list entrada :=
  let atend_dia :=
    filter (fun r : registro =>
              String.eqb (usuario r) u && (Tempo.date (retirada r) =? d)) df_filtrado in
  if (0 <? List.length atend_dia)%nat then
    let atend_dia := Pandas.sort_values Z.leb (fun r : registro => inicio r) atend_dia in
    let intervalos := intervalos_de atend_dia in
    match intervalos with
    | [] => []
    | _ :: _ =>
        let intervalos :=
          if (1 <? List.length intervalos)%nat
          then remove (maximo intervalos) intervalos
          else intervalos in
        [mkEntrada u d (Pandas.sumZ intervalos) (List.length intervalos)]
    end
  else [].

(** The two nested loops: operators in order of first appearance, and for
    each the days on which the operator has rows. *)
Definition entradas (df_filtrado : DataFrame) : list entrada :=
  flat_map
    (fun u =>
       flat_map (entrada_dia df_filtrado u)
         (Pandas.unique Z.eqb
            (map (fun r : registro => Tempo.date (retirada r))
                 (filter (fun r : registro => String.eqb (usuario r) u) df_filtrado))))
    (Pandas.unique String.eqb (map (fun r : registro => usuario r) df_filtrado)).

(** [calcular_ociosidade_por_periodo(dados, filtros, periodo)]: per operator,
    the mean of [tempo_ocioso] over the appended days.  The empty list is
    the empty frame returned when nothing was appended. *)
Definition calcular_ociosidade_por_periodo (df : DataFrame) (filtros : Filtros.t)
    (periodo : Filtros.nome_periodo) : list (string * Q) :=
  match df with
  | [] => []
  | _ :: _ =>
      let ociosidade := entradas (filtrar df filtros periodo) in
      match ociosidade with
      | [] => []
      | _ :: _ =>
          map (fun kg => (fst kg, Pandas.meanZ (map tempo_ocioso (snd kg))))
              (Pandas.groupby String.eqb String.leb
                 (fun e => Some (colaborador e)) ociosidade)
      end
  end.

(** One row of [df_comp] / [df_insights]. *)
Record comp : Type := mkComp {
  c_colaborador : string;
  tempo_ocioso_p1 : float64;
  tempo_ocioso_p2 : float64;
  variacao : float64
}.

(** [fillna(0)] on a column of the merged frame. *)
Definition preenchido (v : option Q) : float64 :=
  Float.fillna 0 (match v with Some q => Fin q | None => NaN end).

(** The variation column of both idleness tables:
    [((p2 - p1) / p1 * 100).replace([float('inf')], 100)]. *)
Definition variacao_de (t1 t2 : float64) : float64 :=
  Float.replace_inf (100 # 1)
    (Float.mul (Float.div (Float.sub t2 t1) t1) (Fin (100 # 1))).

(** [gerar_insights_ociosidade]: the table [df_insights]: outer join,
    [fillna(0)], then the variation with [inf] replaced by 100. *)
Definition df_insights (ocio_p1 ocio_p2 : list (string * Q)) : list comp :=
  map (fun row =>
         let t1 := preenchido (fst (snd row)) in
         let t2 := preenchido (snd (snd row)) in
         mkComp (fst row) t1 t2 (variacao_de t1 t2))
      (Pandas.merge_outer ocio_p1 ocio_p2).

(** The value a float64 cell is ordered by; cells here are finite. *)
Definition valor (x : float64) : Q :=
  match x with Fin q => q | _ => 0 end.

(** [criar_grafico_comparativo]: the table [df_comp]: the same join, sorted
    by the second period in decreasing order before the variation is
    computed row by row. *)
Definition criar_grafico_comparativo (dados_p1 dados_p2 : list (string * Q))
    : list comp :=
  let df_comp :=
    map (fun row => (fst row, (preenchido (fst (snd row)), preenchido (snd (snd row)))))
        (Pandas.merge_outer dados_p1 dados_p2) in
  let df_comp :=
    Pandas.sort_values Qgeb (fun row => valor (snd (snd row))) df_comp in
  map (fun row =>
         let t1 := fst (snd row) in
         let t2 := snd (snd row) in
         mkComp (fst row) t1 t2 (variacao_de t1 t2))
      df_comp.

End Ociosidade.

(** ** dashboards/operacoes_clientes/gates_hora.py *)

Module GatesHora.

(** One row of [metricas_hora]. *)
Record metrica : Type := mkMetrica {
  hora : Z;
  gates_ativos : float64;
  atendimentos : float64;
  media_atendimentos_gate : float64
}.

(** An optional string argument tested with [if arg:]. *)
Definition dado (arg : option string) : option string :=
  match arg with
  | Some s => if String.eqb s "" then None else Some s
  | None => None
  end.

(** The date mask and the client and operation filters. *)
Definition filtrar (df : DataFrame) (filtros : Filtros.t)
    (cliente operacao : option string) (data_especifica : option Z) : DataFrame :=
  let mask (r : registro) :=
    match data_especifica with
    | Some d => Tempo.date (retirada r) =? d
    | None => Filtros.mask_periodo filtros Filtros.periodo2 r
    end in
  let df_filtrado := filter mask df in
  let df_filtrado :=
    match dado cliente with
    | Some c => filter (fun r => Pandas.eq_opt (CLIENTE r) c) df_filtrado
    | None => df_filtrado
    end in
  match dado operacao with
  | Some o => filter (fun r => Pandas.eq_opt (OPERACAO r) o) df_filtrado
  | None => df_filtrado
  end.

(** [Series.map(s)] with a series indexed by hour: the value at the index,
    [NaN] where the index lacks the hour. *)
Definition map_serie (s : list (Z * Z)) (h : Z) : float64 :=
  match find (fun kv => fst kv =? h) s with
  | Some kv => Float.of_Z (snd kv)
  | None => NaN
  end.

(** [groupby(inicio.dt.hour)['guichê'].nunique()]. *)
Definition gates_por_hora (df_filtrado : DataFrame) : list (Z * Z) :=
  map (fun kg =>
         (fst kg,
          Z.of_nat (List.length
                      (Pandas.unique Z.eqb (map (fun r : registro => guiche r) (snd kg))))))
      (Pandas.groupby Z.eqb Z.leb (fun r : registro => Some (Tempo.hour (inicio r)))
         df_filtrado).

(** [groupby(inicio.dt.hour)['id'].count()]. *)
Definition atendimentos_hora (df_filtrado : DataFrame) : list (Z * Z) :=
  map (fun kg =>
         (fst kg, Z.of_nat (List.length (map (fun r : registro => id r) (snd kg)))))
      (Pandas.groupby Z.eqb Z.leb (fun r : registro => Some (Tempo.hour (inicio r)))
         df_filtrado).

(** [calcular_gates_hora]: the frame [metricas_hora], one row per hour of
    [range(24)], and [df_filtrado].  The per-gate detail frames are built
    from [df_filtrado] afterwards and do not feed back into the metrics. *)
Definition calcular_gates_hora (df : DataFrame) (filtros : Filtros.t)
    (cliente operacao : option string) (data_especifica : option Z)
    : list metrica * DataFrame :=
  let df_filtrado := filtrar df filtros cliente operacao data_especifica in
  let metricas_hora :=
    map (fun n =>
           let h := Z.of_nat n in
           let g := Float.fillna 0 (map_serie (gates_por_hora df_filtrado) h) in
           let a := Float.fillna 0 (map_serie (atendimentos_hora df_filtrado) h) in
           mkMetrica h g a (Float.fillna 0 (Float.div a g)))
        (seq 0 24) in
  (metricas_hora, df_filtrado).

End GatesHora.

(** ** dashboards/operacoes_clientes/comboio_i.py *)

Module ComboioI.

(** [Series.count()] per group, for a key that is always present. *)
Definition contagem_por {K} (eqb leb : K -> K -> bool) (key : registro -> K)
    (df : DataFrame) : list (K * Z) :=
  map (fun kg => (fst kg, Z.of_nat (List.length (map (fun r : registro => id r) (snd kg)))))
      (Pandas.groupby eqb leb (fun r => Some (key r)) df).

(** [df.groupby('hora')['id'].count()], with [hora = retirada.dt.hour]. *)
Definition picos (df : DataFrame) : list (Z * Z) :=
  contagem_por Z.eqb Z.leb (fun r => Tempo.hour (retirada r)) df.

(** The key [['data', 'periodo_15min']] and its order. *)
Definition chave_janela (r : registro) : Z * Z :=
  (Tempo.date (retirada r), Tempo.floor15 (retirada r)).

Definition par_eqb (a b : Z * Z) : bool :=
  (fst a =? fst b) && (snd a =? snd b).

Definition par_leb (a b : Z * Z) : bool :=
  (fst a <? fst b) || ((fst a =? fst b) && (snd a <=? snd b)).

(** [df.groupby(['data', 'periodo_15min'])['id'].count()]. *)
Definition comboios_por_data (df : DataFrame) : list (Z * Z * Z) :=
  contagem_por par_eqb par_leb chave_janela df.

(** [Series.var()] (one delta degree of freedom): [None] is the [NaN] of a
    series with fewer than two values. *)
Definition var (l : list Q) : option Q :=
  if (List.length l <=? 1)%nat then None
  else
    let m := Pandas.mean l in
    Some (Pandas.sumQ (map (fun x => (x - m) * (x - m)) l)
          / inject_Z (Z.of_nat (List.length l) - 1))%Q.

(** The float [mean() + std()] is kept as the pair of the mean and the
    variance, [std] being the square root of the latter; comparisons with
    it are decided on the squares. *)
Record media_mais_desvio : Type := mkLimiar {
  lm_mean : Q;
  lm_var : option Q
}.

Definition mean_mais_std (l : list Q) : media_mais_desvio :=
  mkLimiar (Pandas.mean l) (var l).

(** [x > mean + std]; false against [NaN]. *)
Definition maior_que (x : Q) (lim : media_mais_desvio) : bool :=
  match lm_var lim with
  | None => false
  | Some v =>
      negb (Qle_bool x (lm_mean lim))
      && negb (Qle_bool ((x - lm_mean lim) * (x - lm_mean lim)) v)
  end.

(** [t <= mean + sqrt v] for an integer [t]. *)
Definition abaixo_de (t : Z) (m v : Q) : bool :=
  Qle_bool (inject_Z t) m
  || Qle_bool ((inject_Z t - m) * (inject_Z t - m)) v.

(** [int(mean + std)]: the integer part of a sum that is not negative;
    [None] stands for the [ValueError] of [int(nan)]. *)
Definition int_ (lim : media_mais_desvio) : option Z :=
  match lm_var lim with
  | None => None
  | Some v =>
      let t0 := Qfloor (lm_mean lim) + Z.sqrt (Qfloor v) in
      Some (if abaixo_de (t0 + 1) (lm_mean lim) v then t0 + 1 else t0)
  end.

(** [Series.idxmax()]: the first index holding the largest value; [None]
    for the [ValueError] on an empty series. *)
Definition idxmax (s : list (Z * Z)) : option Z :=
  match s with
  | [] => None
  | kv :: t =>
      Some (fst (fold_left (fun best x => if snd best <? snd x then x else best) t kv))
  end.

(** The quantities of the insights panel of [mostrar_aba] the comboio
    alerts are built from. *)
Record insights : Type := mkInsights {
  hora_pico : Z;
  horarios_criticos : list (Z * Z);
  threshold : Z
}.

(** The insights block of [mostrar_aba], on the whole base: [None] when an
    exception leaves the block for the [except] of [mostrar_aba]. *)
Definition calcular_insights (df : DataFrame) : option insights :=
  let picos := picos df in
  match idxmax picos with
  | None => None
  | Some hora_pico =>
      let lim := mean_mais_std (map (fun kv => inject_Z (snd kv)) picos) in
      let horarios_criticos :=
        filter (fun kv => maior_que (inject_Z (snd kv)) lim) picos in
      let comboios_por_data := comboios_por_data df in
      match int_ (mean_mais_std (map (fun kv => inject_Z (snd kv)) comboios_por_data)) with
      | None => None
      | Some threshold => Some (mkInsights hora_pico horarios_criticos threshold)
      end
  end.

End ComboioI.


(** * Part I, continued: the rest of the dashboard code *)

(** ** Python number formatting and float helpers *)

Module Py.

(** What a call does: return a value or raise. *)
Inductive efeito (A : Type) : Type :=
| Retorna (a : A)
| Levanta (erro : string).
Arguments Retorna {A} _.
Arguments Levanta {A} _.

(** [f"{n:02d}"]: the decimal digits of [n], with a minus sign when it is
    negative, padded with zeros on the left to two characters. *)
Definition fmt_02d (n : Z) : string :=
  let s := NilZero.string_of_int (Z.to_int n) in
  if (String.length s <? 2)%nat then "0" ++ s else s.

(** [x // m] on floats: the floor of the quotient. *)
Definition floordiv (x m : Q) : Z := Qfloor (x / m).

(** [x % m] on floats, for a positive [m]: [x - m * floor(x / m)]. *)
Definition fmod (x m : Q) : Q := (x - m * inject_Z (floordiv x m))%Q.

(** [int(x)] on a float: truncation towards zero. *)
Definition int (x : Q) : Z :=
  if Qlt_le_dec x 0 then - Qfloor (- x) else Qfloor x.

(** [round()] of numpy on a float: to the nearest integer, ties to the
    even one. *)
Definition rint (x : Q) : Z :=
  let f := Qfloor x in
  let d := (x - inject_Z f)%Q in
  if Qlt_le_dec d (1 # 2) then f
  else if Qlt_le_dec (1 # 2) d then f + 1
  else if Z.even f then f else f + 1.

(** [Series.round(1)] on one cell. *)
Definition round1 (x : float64) : float64 :=
  match x with
  | Fin q => Fin (inject_Z (rint (q * (10 # 1))) / (10 # 1))%Q
  | _ => x
  end.

(** [df.iloc[a:b]] / [list[a:b]] for indices within bounds. *)
Definition iloc {A} (a b : nat) (l : list A) : list A :=
  firstn (b - a) (skipn a l).

(** [range(a, b)]. *)
Definition range (a b : Z) : list Z :=
  map (fun n => a + Z.of_nat n) (seq 0 (Z.to_nat (b - a))).

(** [min()] and [max()] of a series of integers ([0] stands for the value
    pandas gives on an empty one, which the callers never ask for). *)
Definition minZ (l : list Z) : Z :=
  match l with [] => 0 | x :: t => fold_left Z.min t x end.

Definition maxZ (l : list Z) : Z :=
  match l with [] => 0 | x :: t => fold_left Z.max t x end.

(** [x <= y] on floats: false as soon as one side is [NaN]. *)
Definition le (x y : float64) : bool :=
  match x, y with
  | NaN, _ | _, NaN => false
  | NegInf, _ | _, Inf => true
  | Fin a, Fin b => Qle_bool a b
  | _, _ => false
  end.

(** Sum and mean of a float column; the mean of no value is [NaN]. *)
Definition sum (l : list float64) : float64 :=
  fold_left Float.add l (Fin 0).

Definition mean (l : list float64) : float64 :=
  Float.div (sum l) (Float.of_Z (Z.of_nat (List.length l))).

End Py.

(** ** dashboards/desenvolvimento_pessoas/ociosidade.py, display side *)

Module OciosidadeAba.

(** The three numbers [formatar_tempo(segundos)] prints. *)
Definition partes_tempo (segundos : Q) : Z * Z * Z :=
  let horas := Py.floordiv segundos (3600 # 1) in
  let minutos := Py.floordiv (Py.fmod segundos (3600 # 1)) (60 # 1) in
  let segs := Py.int (Py.fmod segundos (60 # 1)) in
  (horas, minutos, segs).

(** [formatar_tempo(segundos)]: ["HH:MM:SS min"]. *)
Definition formatar_tempo (segundos : Q) : string :=
  let '(horas, minutos, segs) := partes_tempo segundos in
  Py.fmt_02d horas ++ ":" ++ Py.fmt_02d minutos ++ ":" ++ Py.fmt_02d segs ++ " min".

(** The three index pairs of [gerar_insights_ociosidade], for a table of
    [n] rows. *)
Definition indices (n : nat) : list (nat * nat) :=
  let tamanho_parte := (n / 3)%nat in
  let resto := (n mod 3)%nat in
  let um := (if (0 <? resto)%nat then 1 else 0)%nat in
  let dois := (if (1 <? resto)%nat then 2 else if (0 <? resto)%nat then 1 else 0)%nat in
  [ (0, tamanho_parte + um);
    (tamanho_parte + um, 2 * tamanho_parte + dois);
    (2 * tamanho_parte + dois, n) ]%nat.

(** The rows of the three performance columns: [df_insights.iloc[a:b]]
    for each pair. *)
Definition partes (df_insights : list Ociosidade.comp) : list (list Ociosidade.comp) :=
  map (fun ab => Py.iloc (fst ab) (snd ab) df_insights)
      (indices (List.length df_insights)).

(** The mark beside a collaborator: ok when idle time did not grow. *)
Definition status (row : Ociosidade.comp) : string :=
  if Py.le (Ociosidade.tempo_ocioso_p2 row) (Ociosidade.tempo_ocioso_p1 row)
  then "✅" else "⚠️".

(** [df_insights.loc[df_insights['tempo_ocioso_p2'].idxmin()]]: the first
    row holding the smallest period-2 idle time; [None] is the [ValueError]
    of [idxmin] on an empty column. *)
Definition melhor (df_insights : list Ociosidade.comp) : option Ociosidade.comp :=
  match df_insights with
  | [] => None
  | r :: t =>
      Some (fold_left
              (fun best x =>
                 if Qle_bool (Ociosidade.valor (Ociosidade.tempo_ocioso_p2 best))
                             (Ociosidade.valor (Ociosidade.tempo_ocioso_p2 x))
                 then best else x)
              t r)
  end.

End OciosidadeAba.

(** ** dashboards/operacoes_clientes/espera.py and tempo_atend.py, display side *)

Module EsperaInsights.

(** The two numbers [formatar_tempo(minutos)] prints as [mm:ss].  They are
    computed here in exact arithmetic.  The code computes in float64, where
    the fractional part times 60 can fall just below a whole number of
    seconds: 61 s, passed as 61/60 min, gives 1 and 1 here and prints as
    [01:00] there.  The seconds are therefore only stated to lie in their
    range, which holds in both. *)
Definition partes_tempo (minutos : Q) : Z * Z :=
  let minutos_int := Py.int minutos in
  let segundos := Py.int ((minutos - inject_Z minutos_int) * (60 # 1))%Q in
  (minutos_int, segundos).

Definition formatar_tempo (minutos : Q) : string :=
  let '(minutos_int, segundos) := partes_tempo minutos in
  Py.fmt_02d minutos_int ++ ":" ++ Py.fmt_02d segundos.

(** [(df_comp[media] * df_comp[contagem]).sum() / df_comp[contagem].sum()]. *)
Definition media_geral (media : comp_tempos -> Q) (contagem : comp_tempos -> Z)
    (df_comp : list comp_tempos) : float64 :=
  Float.div
    (Fin (Pandas.sumQ (map (fun row => media row * inject_Z (contagem row))%Q df_comp)))
    (Float.of_Z (Pandas.sumZ (map contagem df_comp))).

(** The overview numbers of [gerar_insights]. *)
Record visao_geral : Type := mkVisao {
  media_geral_p1 : float64;
  media_geral_p2 : float64;
  var_media : float64;
  total_atendimentos_p1 : Z;
  total_atendimentos_p2 : Z
}.

Definition gerar_insights (df_comp : list comp_tempos) : visao_geral :=
  let m1 := media_geral media_p1 contagem_p1 df_comp in
  let m2 := media_geral media_p2 contagem_p2 df_comp in
  mkVisao m1 m2
    (Float.mul (Float.div (Float.sub m2 m1) m1) (Fin (100 # 1)))
    (Pandas.sumZ (map contagem_p1 df_comp))
    (Pandas.sumZ (map contagem_p2 df_comp)).

(** [df_comp] as [mostrar_aba] rebuilds it for the insights: the inner join
    with the variation, in join order.  This frame has no [total] column;
    the field is filled as in the chart table and not read. *)
Definition df_comp_insights (tempos_p1 tempos_p2 : list (string * tempos))
    : list comp_tempos :=
  map (fun row =>
         let a := fst (snd row) in
         let b := snd (snd row) in
         mkCompTempos (fst row) (media a) (contagem a) (media b) (contagem b) None
                      (variacao_pct (media a) (media b))
                      (media a + media b)%Q)
      (Pandas.merge_inner tempos_p1 tempos_p2).

End EsperaInsights.

Module TempoAtendInsights.

(** [x < 0] and [x > 0] on a float64 cell; both false on NaN. *)
Definition negativo (x : float64) : bool :=
  match x with
  | Fin q => negb (Qle_bool 0 q)
  | NegInf => true
  | _ => false
  end.

Definition positivo (x : float64) : bool :=
  match x with
  | Fin q => negb (Qle_bool q 0)
  | Inf => true
  | _ => false
  end.

(** [row['CLIENTE']] on a row of [df_comp], whose key column carries the
    name of the grouping chosen in [mostrar_aba]. *)
Definition row_CLIENTE (g : grupo) (row : comp_tempos) : Py.efeito string :=
  match g with
  | G_CLIENTE => Py.Retorna (ct_chave row)
  | G_OPERACAO => Py.Levanta "KeyError"
  end.

(** A loop that reads [row['CLIENTE']] of each row in turn. *)
Fixpoint nomes (g : grupo) (linhas : list comp_tempos) : Py.efeito (list string) :=
  match linhas with
  | [] => Py.Retorna []
  | row :: t =>
      match row_CLIENTE g row with
      | Py.Levanta e => Py.Levanta e
      | Py.Retorna n =>
          match nomes g t with
          | Py.Levanta e => Py.Levanta e
          | Py.Retorna ns => Py.Retorna (n :: ns)
          end
      end
  end.

(** [df_comp[df_comp['variacao'] < 0].sort_values('variacao')] and
    [df_comp[df_comp['variacao'] > 0].sort_values('variacao', ascending=False)]. *)
Definition melhorias (df_comp : list comp_tempos) : list comp_tempos :=
  Pandas.sort_values Py.le ct_variacao
    (filter (fun row => negativo (ct_variacao row)) df_comp).

Definition pioras (df_comp : list comp_tempos) : list comp_tempos :=
  Pandas.sort_values (fun a b => Py.le b a) ct_variacao
    (filter (fun row => positivo (ct_variacao row)) df_comp).

(** [gerar_insights(df_comp)] of the service-time tab: the three overview
    numbers and the names listed under the largest reductions and the
    largest increases. *)
Definition gerar_insights (g : grupo) (df_comp : list comp_tempos)
    : Py.efeito (float64 * float64 * float64 * list string * list string) :=
  let media_geral_p1 := EsperaInsights.media_geral media_p1 contagem_p1 df_comp in
  let media_geral_p2 := EsperaInsights.media_geral media_p2 contagem_p2 df_comp in
  let var_media :=
    Float.mul (Float.div (Float.sub media_geral_p2 media_geral_p1) media_geral_p1)
              (Fin (100 # 1)) in
  match nomes g (firstn 3 (melhorias df_comp)) with
  | Py.Levanta e => Py.Levanta e
  | Py.Retorna ms =>
      match nomes g (firstn 3 (pioras df_comp)) with
      | Py.Levanta e => Py.Levanta e
      | Py.Retorna ps =>
          Py.Retorna (media_geral_p1, media_geral_p2, var_media, ms, ps)
      end
  end.

End TempoAtendInsights.

(** ** dashboards/operacoes_clientes/gates_hora.py, details and insights *)

Module GatesDetalhes.

(** [df_filtrado[df_filtrado['inicio'].dt.hour == hora]]. *)
Definition atendimentos_hora (df_filtrado : DataFrame) (hora : Z) : DataFrame :=
  filter (fun r : registro => Tempo.hour (inicio r) =? hora) df_filtrado.

(** The aggregations of one gate's rows: [inicio: min], [inicio: max] and
    [usuário: first]. *)
Definition inicio_min (g : list registro) : Z :=
  Py.minZ (map (fun r : registro => inicio r) g).

Definition inicio_max (g : list registro) : Z :=
  Py.maxZ (map (fun r : registro => inicio r) g).

Definition usuario_first (g : list registro) : string :=
  match g with r :: _ => usuario r | [] => "" end.

(** The groups of [atendimentos_hora.groupby('guichê')]. *)
Definition por_gate (atendimentos_hora : DataFrame) : list (Z * list registro) :=
  Pandas.groupby Z.eqb Z.leb (fun r : registro => Some (guiche r)) atendimentos_hora.

(** One row of a [detalhes] frame.  [tempo_operacao] is a float holding a
    whole number of minutes. *)
Record detalhe : Type := mkDetalhe {
  gate : Z;
  atendimentos : Z;
  inicio : Z;
  fim : Z;
  usuario : string;
  tempo_operacao : Z;
  atend_por_hora : float64
}.

(** [((fim - inicio).dt.total_seconds() / 60).round(0)]. *)
Definition minutos_operacao (inicio fim : Z) : Z :=
  Py.rint (inject_Z (fim - inicio) / (60 # 1))%Q.

(** [(atendimentos / (tempo_operacao / 60)).round(1)].  The quotient is
    taken exactly before it is rounded.  In float64 a quotient that sits on
    a rounding boundary can come out on its other side, one tenth away;
    what is stated of the rate does not depend on the side. *)
Definition taxa_hora (atendimentos tempo_operacao : Z) : float64 :=
  Py.round1 (Float.div (Float.of_Z atendimentos)
                       (Float.div (Float.of_Z tempo_operacao) (Fin (60 # 1)))).

Definition linha (kg : Z * list registro) : detalhe :=
  let g := snd kg in
  let atendimentos := Z.of_nat (List.length (map (fun r : registro => id r) g)) in
  let inicio := inicio_min g in
  let fim := inicio_max g in
  let tempo_operacao := minutos_operacao inicio fim in
  mkDetalhe (fst kg) atendimentos inicio fim (usuario_first g) tempo_operacao
            (taxa_hora atendimentos tempo_operacao).

(** [detalhes_gates[hora]] as [calcular_gates_hora] builds it; the empty
    list is the empty frame of an hour without service. *)
Definition detalhes_gates (df_filtrado : DataFrame) (hora : Z) : list detalhe :=
  let atendimentos_hora := atendimentos_hora df_filtrado hora in
  match atendimentos_hora with
  | [] => []
  | _ :: _ => map linha (por_gate atendimentos_hora)
  end.

(** The summary of one hour in [gerar_insights_gates]. *)
Definition n_gates (detalhes : list detalhe) : nat := List.length detalhes.

Definition total_atend (detalhes : list detalhe) : Z :=
  Pandas.sumZ (map atendimentos detalhes).

Definition media_atend (detalhes : list detalhe) : float64 :=
  Py.mean (map atend_por_hora detalhes).

(** [(min(gate['tempo_operacao'], 60) / 60) * 100]. *)
Definition porcentagem (d : detalhe) : Q :=
  (inject_Z (Z.min (tempo_operacao d) 60) / (60 # 1) * (100 # 1))%Q.

(** [get_color_by_duration(duracao)]. *)
Definition get_color_by_duration (duracao : Z) : string :=
  if duracao <? 15 then "#ff6b6b"
  else if duracao <? 30 then "#ffd93d"
  else if duracao <? 45 then "#51cf66"
  else "#339af0".

(** The pie chart of [mostrar_detalhes_gates]: its colours and values. *)
Definition colors : list string := ["#ff6b6b"; "#ffd93d"; "#51cf66"; "#339af0"].

Definition values (detalhes : list detalhe) : list nat :=
  [ List.length (filter (fun d => tempo_operacao d <? 15) detalhes);
    List.length (filter (fun d => (15 <=? tempo_operacao d) && (tempo_operacao d <? 30))
                        detalhes);
    List.length (filter (fun d => (30 <=? tempo_operacao d) && (tempo_operacao d <? 45))
                        detalhes);
    List.length (filter (fun d => 45 <=? tempo_operacao d) detalhes) ].

(** [emoji_periodo] of [mostrar_detalhes_gates]. *)
Definition emoji_periodo (hora : Z) : string :=
  if (0 <=? hora) && (hora <=? 5) then "🌙"
  else if (6 <=? hora) && (hora <=? 11) then "🌅"
  else if (12 <=? hora) && (hora <=? 17) then "🌞"
  else "🌚".

(** The [periodos] dict of [gerar_insights_gates]. *)
Definition periodos : list (string * list Z) :=
  [ ("Madrugada 🌙", Py.range 0 6); ("Manhã 🌅", Py.range 6 12);
    ("Tarde 🌞", Py.range 12 18); ("Noite 🌚", Py.range 18 24) ].

(** [[h for h in horas if h in detalhes_gates and not detalhes_gates[h].empty]];
    the keys of [detalhes_gates] are the hours of [range(24)]. *)
Definition horas_ativas (df_filtrado : DataFrame) (horas : list Z) : list Z :=
  filter (fun h =>
            existsb (Z.eqb h) (Py.range 0 24)
            && negb (match detalhes_gates df_filtrado h with [] => true | _ => false end))
         horas.

(** The [periodos] dict of [criar_relogio_interativo]. *)
Definition periodos_relogio (horas_ativas : list Z) : list (string * list Z) :=
  [ ("Madrugada 🌙", filter (fun h => (0 <=? h) && (h <=? 5)) horas_ativas);
    ("Manhã 🌅", filter (fun h => (6 <=? h) && (h <=? 11)) horas_ativas);
    ("Tarde 🌞", filter (fun h => (12 <=? h) && (h <=? 17)) horas_ativas);
    ("Noite 🌚", filter (fun h => (18 <=? h) && (h <=? 23)) horas_ativas) ].

End GatesDetalhes.

Module GatesInsights.

(** [metricas_df.loc[a:b]] on the range index 0..23: the rows at the
    positions [a] to [b], both included. *)
Definition loc {A} (a b : nat) (metricas_df : list A) : list A :=
  Py.iloc a (S b) metricas_df.

(** The rows behind the three shift means of [gerar_insights_gates]. *)
Definition linhas_manha (metricas_df : list GatesHora.metrica) : list GatesHora.metrica :=
  loc 7 14 metricas_df.

Definition linhas_tarde (metricas_df : list GatesHora.metrica) : list GatesHora.metrica :=
  loc 15 22 metricas_df.

Definition linhas_noite (metricas_df : list GatesHora.metrica) : list GatesHora.metrica :=
  (loc 23 23 metricas_df ++ loc 0 7 metricas_df)%list.

Definition manha (metricas_df : list GatesHora.metrica) : float64 :=
  Py.mean (map GatesHora.gates_ativos (linhas_manha metricas_df)).

Definition tarde (metricas_df : list GatesHora.metrica) : float64 :=
  Py.mean (map GatesHora.gates_ativos (linhas_tarde metricas_df)).

Definition noite (metricas_df : list GatesHora.metrica) : float64 :=
  Py.mean (map GatesHora.gates_ativos (linhas_noite metricas_df)).

(** [metricas_df['atendimentos'].sum()]. *)
Definition total_atendimentos (metricas_df : list GatesHora.metrica) : float64 :=
  Py.sum (map GatesHora.atendimentos metricas_df).

End GatesInsights.

(** ** The hour picker of gates_hora.py *)

Module Relogio.

(** [s.split(":")[0]]: the text before the first colon. *)
Fixpoint antes_dos_pontos (s : string) : string :=
  match s with
  | EmptyString => EmptyString
  | String c t => if Ascii.eqb c ":" then EmptyString else String c (antes_dos_pontos t)
  end.

(** [int(s)] on a text made of decimal digits behind an optional sign, the
    only texts the picker builds; [None] is the [ValueError] on other
    texts of that alphabet. *)
Definition int_str (s : string) : option Z :=
  option_map Z.of_int (NilZero.int_of_string s).

(** [opcoes_hora]: the labels of the hours of the period. *)
Definition opcoes_hora (horas_periodo : list Z) : list string :=
  map (fun h => Py.fmt_02d h ++ ":00h") horas_periodo.

(** [criar_relogio_interativo(horas_ativas)], the two [st.selectbox] answers
    being arguments: the period chosen among the keys of [periodos] and
    the position of the hour chosen among [opcoes_hora]. *)
Definition criar_relogio_interativo (horas_ativas : list Z) (periodo : string)
    (escolha : nat) : Py.efeito (option Z) :=
  match find (fun kv => String.eqb (fst kv) periodo)
             (GatesDetalhes.periodos_relogio horas_ativas) with
  | None => Py.Levanta "KeyError"
  | Some (_, horas_periodo) =>
      match opcoes_hora horas_periodo with
      | [] => Py.Retorna None
      | opcoes =>
          match nth_error opcoes escolha with
          | None => Py.Retorna None
          | Some hora_sel =>
              if String.eqb hora_sel "" then Py.Retorna None
              else match int_str (antes_dos_pontos hora_sel) with
                   | Some h => Py.Retorna (Some h)
                   | None => Py.Levanta "ValueError"
                   end
          end
      end
  end.

End Relogio.

(** ** dashboards/operacoes_clientes/mov_operacao.py, the computation *)

Module MovOperacaoAba.

(** The rows left by the date mask and by the client, shift and operation
    filters, in the order applied. *)
Definition filtrar (df : DataFrame) (filtros : Filtros.t)
    (periodo : Filtros.nome_periodo) : DataFrame :=
  let df_filtrado := filter (Filtros.mask_periodo filtros periodo) df in
  let df_filtrado :=
    if negb (Pandas.lista_eqb (Filtros.cliente filtros) ["Todos"])
    then filter (fun r => Pandas.isin_opt (CLIENTE r) (Filtros.cliente filtros)) df_filtrado
    else df_filtrado in
  let df_filtrado :=
    if negb (Pandas.lista_eqb (Filtros.turno filtros) ["Todos"])
    then filter (fun r => Pandas.isin (MovOperacao.turno_de r) (Filtros.turno filtros))
                df_filtrado
    else df_filtrado in
  if negb (Pandas.lista_eqb (Filtros.operacao filtros) ["Todas"])
  then filter (fun r => Pandas.isin_opt (OPERACAO r) (Filtros.operacao filtros)) df_filtrado
  else df_filtrado.

(** [df['retirada'].dt.date]. *)
Definition datas (df : DataFrame) : list Z :=
  map (fun r : registro => Tempo.date (retirada r)) df.

(** [calcular_movimentacao_por_periodo(dados, filtros, periodo)].  The
    empty list stands for every frame whose [.empty] is true: the bare
    [pd.DataFrame()] of the three early returns and a count without
    groups. *)
Definition calcular_movimentacao_por_periodo (df : DataFrame) (filtros : Filtros.t)
    (periodo : Filtros.nome_periodo) : list (string * Z) :=
  match df with
  | [] => []
  | _ :: _ =>
      let data_mais_antiga := Py.minZ (datas df) in
      let data_mais_recente := Py.maxZ (datas df) in
      if (Filtros.inicio (Filtros.get filtros periodo) <? data_mais_antiga)
         || (data_mais_recente <? Filtros.fim (Filtros.get filtros periodo))
      then []
      else
        let df_filtrado := filtrar df filtros periodo in
        if (List.length df_filtrado =? 0)%nat then []
        else
          map (fun kg =>
                 (fst kg, Z.of_nat (List.length (map (fun r : registro => id r) (snd kg)))))
              (Pandas.groupby String.eqb String.leb OPERACAO df_filtrado)
  end.

(** One row of [df_comp]. *)
Record comp : Type := mkComp {
  operacao : string;
  quantidade_p1 : Z;
  quantidade_p2 : Z;
  variacao : float64;
  total : Z
}.

(** The frame [df_comp] of [gerar_insights_operacao]: the inner join with
    the variation and the total, in join order. *)
Definition df_comp (mov_p1 mov_p2 : list (string * Z)) : list comp :=
  map (fun row =>
         let q1 := fst (snd row) in
         let q2 := snd (snd row) in
         mkComp (fst row) q1 q2 (variacao_pct (inject_Z q1) (inject_Z q2)) (q1 + q2))
      (Pandas.merge_inner mov_p1 mov_p2).

(** [criar_grafico_comparativo]: the same join, sorted by the total in
    increasing order. *)
Definition criar_grafico_comparativo (dados_p1 dados_p2 : list (string * Z))
    : list comp :=
  Pandas.sort_values Z.leb total (df_comp dados_p1 dados_p2).

(** [int(x)] on a float64: [ValueError] on NaN, [OverflowError] on an
    infinity. *)
Definition int_float (x : float64) : Py.efeito Z :=
  match x with
  | Fin q => Py.Retorna (Py.int q)
  | NaN => Py.Levanta "ValueError"
  | Inf | NegInf => Py.Levanta "OverflowError"
  end.

(** [Series.mean()] of a column of whole numbers; NaN without rows. *)
Definition mean (l : list Z) : float64 :=
  Float.div (Float.of_Z (Pandas.sumZ l)) (Float.of_Z (Z.of_nat (List.length l))).

(** The general indicators of [gerar_insights_operacao]. *)
Record indicadores : Type := mkIndicadores {
  total_p1 : Z;
  total_p2 : Z;
  variacao_total : float64;
  media_p1 : Z;
  media_p2 : Z;
  variacao_media : float64
}.

(** [gerar_insights_operacao(mov_p1, mov_p2)] up to the first panel: the
    totals, the means printed as [int(media)] and the two variations. *)
Definition gerar_insights_operacao (mov_p1 mov_p2 : list (string * Z))
    : Py.efeito indicadores :=
  let df_comp := df_comp mov_p1 mov_p2 in
  let total_p1 := Pandas.sumZ (map quantidade_p1 df_comp) in
  let total_p2 := Pandas.sumZ (map quantidade_p2 df_comp) in
  let variacao_total :=
    Float.mul (Float.div (Float.of_Z (total_p2 - total_p1)) (Float.of_Z total_p1))
              (Fin (100 # 1)) in
  let media_p1 := mean (map quantidade_p1 df_comp) in
  let media_p2 := mean (map quantidade_p2 df_comp) in
  match int_float media_p1 with
  | Py.Levanta e => Py.Levanta e
  | Py.Retorna m1 =>
      match int_float media_p2 with
      | Py.Levanta e => Py.Levanta e
      | Py.Retorna m2 =>
          Py.Retorna
            (mkIndicadores total_p1 total_p2 variacao_total m1 m2
               (Float.mul (Float.div (Float.sub media_p2 media_p1) media_p1)
                          (Fin (100 # 1))))
      end
  end.

End MovOperacaoAba.

(** ** dashboards/operacoes_clientes/comboio_i.py, the heat map *)

Module ComboioMapa.

(** A pivot table of counts: the index labels, the column labels and one
    list of cells per index label. *)
Record pivot_t : Type := mkPivot {
  index : list string;
  columns : list Z;
  values : list (list Z)
}.

Section Mapa.

(** [Timestamp.strftime('%d/%m/%Y')]. *)
Variable strftime : Z -> string.

(** The date mask of period 2 and the optional client filter. *)
Definition filtrar (df : DataFrame) (filtros : Filtros.t) (cliente : option string)
    : DataFrame :=
  let df_filtrado := filter (Filtros.mask_periodo filtros Filtros.periodo2) df in
  match GatesHora.dado cliente with
  | Some c => filter (fun r => Pandas.eq_opt (CLIENTE r) c) df_filtrado
  | None => df_filtrado
  end.

(** [count] of the rows of one date label and one hour. *)
Definition celula (df_filtrado : DataFrame) (d : string) (h : Z) : Z :=
  Z.of_nat (List.length
              (filter (fun r : registro =>
                         String.eqb (strftime (retirada r)) d
                         && (Tempo.hour (retirada r) =? h))
                      df_filtrado)).

(** [pd.pivot_table(df_filtrado, values='id', index=strftime, columns=hour,
    aggfunc='count', fill_value=0)]: the labels and the hours that occur,
    both sorted, and the count of every pair. *)
Definition pivot_table (df_filtrado : DataFrame) : pivot_t :=
  let index :=
    Pandas.sorted String.leb
      (Pandas.unique String.eqb
         (map (fun r : registro => strftime (retirada r)) df_filtrado)) in
  let columns :=
    Pandas.sorted Z.leb
      (Pandas.unique Z.eqb
         (map (fun r : registro => Tempo.hour (retirada r)) df_filtrado)) in
  mkPivot index columns
          (map (fun d => map (celula df_filtrado d) columns) index).

(** [pivot[hora] = 0] for an hour that is not a column yet. *)
Definition garantir_hora (pivot : pivot_t) (hora : Z) : pivot_t :=
  if existsb (Z.eqb hora) (columns pivot) then pivot
  else mkPivot (index pivot) (columns pivot ++ [hora])%list
               (map (fun linha => linha ++ [0])%list (values pivot)).

(** The cell of a row under a column label ([0] stands for the NaN of a
    label that is no column, which [reindex] is never asked for here). *)
Definition valor_em (cols : list Z) (linha : list Z) (c : Z) : Z :=
  match find (fun kv => fst kv =? c) (combine cols linha) with
  | Some kv => snd kv
  | None => 0
  end.

(** [pivot.reindex(columns=cols)]. *)
Definition reindex (cols : list Z) (pivot : pivot_t) : pivot_t :=
  mkPivot (index pivot) cols
          (map (fun linha => map (valor_em (columns pivot) linha) cols) (values pivot)).

(** [criar_mapa_calor(dados, filtros, cliente)]: the pivot behind the heat
    map. *)
Definition criar_mapa_calor (df : DataFrame) (filtros : Filtros.t)
    (cliente : option string) : pivot_t :=
  let df_filtrado := filtrar df filtros cliente in
  let pivot := pivot_table df_filtrado in
  let pivot := fold_left garantir_hora (Py.range 0 24) pivot in
  reindex (Pandas.sorted Z.leb (columns pivot)) pivot.

(** [len(pivot.index)]. *)
Definition total_dias (pivot : pivot_t) : nat := List.length (index pivot).

End Mapa.

End ComboioMapa.
(** * Part I, continued: the vocabulary of the specification *)

Module Spec.

(** A "completed" record with plausible durations: service time between
    60 and 1800 seconds, waiting time of at most 14400 seconds, status
    ATENDIDO or TRANSFERIDA. *)
Definition registro_valido (r : registro_base) : Prop :=
  60 <= tpatend r <= 1800 /\ tpesper r <= 14400 /\
  (status r = "ATENDIDO" \/ status r = "TRANSFERIDA").

(** The three shift names. *)
Definition turnos : list string := ["TURNO A"; "TURNO B"; "TURNO C"].

End Spec.

(** ** An instance of the string functions, for Latin text *)

(** [str.lower] and [str.strip] on UTF-8 text of the Basic Latin and
    Latin-1 Supplement blocks, the alphabet of the column labels in
    [mapa_colunas]; other characters are left alone. *)
Module Latin.

(** Lowers one byte; [depois_c3] tells that the byte before was the lead
    byte 0xC3, so that this one is the second byte of a letter in À..Þ. *)
Definition lower_byte (depois_c3 : bool) (c : ascii) : ascii :=
  let n := nat_of_ascii c in
  if depois_c3
  then if ((128 <=? n) && (n <=? 158) && negb (n =? 151))%nat
       then ascii_of_nat (n + 32) else c
  else if ((65 <=? n) && (n <=? 90))%nat
       then ascii_of_nat (n + 32) else c.

Fixpoint lower_aux (depois_c3 : bool) (s : string) : string :=
  match s with
  | EmptyString => EmptyString
  | String c t =>
      String (lower_byte depois_c3 c) (lower_aux (nat_of_ascii c =? 195)%nat t)
  end.

Definition lower (s : string) : string := lower_aux false s.

(** White space of one byte: tab, line feed, vertical tab, form feed,
    carriage return, the separators 0x1C..0x1F and the space. *)
Definition is_space (c : ascii) : bool :=
  let n := nat_of_ascii c in
  (((9 <=? n) && (n <=? 13)) || ((28 <=? n) && (n <=? 32)))%nat.

(** White space of two bytes: the next-line character U+0085 and the
    no-break space U+00A0, in UTF-8 the lead byte 0xC2 before 0x85 or
    0xA0. *)
Definition is_space2 (c d : ascii) : bool :=
  ((nat_of_ascii c =? 194) && ((nat_of_ascii d =? 133) || (nat_of_ascii d =? 160)))%nat.

Fixpoint lstrip (s : string) : string :=
  match s with
  | EmptyString => EmptyString
  | String c t =>
      if is_space c then lstrip t
      else match t with
           | String d t' => if is_space2 c d then lstrip t' else s
           | EmptyString => s
           end
  end.

Fixpoint rev_string (acc s : string) : string :=
  match s with
  | EmptyString => acc
  | String c t => rev_string (String c acc) t
  end.

(** [lstrip] on a string whose bytes are reversed: the two bytes of a
    character come last byte first. *)
Fixpoint lstrip_rev (s : string) : string :=
  match s with
  | EmptyString => EmptyString
  | String d t =>
      if is_space d then lstrip_rev t
      else match t with
           | String c t' => if is_space2 c d then lstrip_rev t' else s
           | EmptyString => s
           end
  end.

Definition strip (s : string) : string :=
  rev_string EmptyString (lstrip_rev (rev_string EmptyString (lstrip s))).

End Latin.

Module SpecVar.

(** The period-over-period variation of a metric, in percent. *)
Definition variacao (m1 m2 : Q) : Q := ((m2 - m1) / m1 * (100 # 1))%Q.

(** What the left join with the target frame puts in [META]. *)
Definition meta_de (dados_medias : option (list (string * option Q))) (k : string)
    (meta : option (option Q)) : Prop :=
  match dados_medias, meta with
  | None, None => True
  | None, Some _ => False
  | Some metas, Some v => In (k, v) metas
  | Some metas, None => forall v, ~ In (k, v) metas
  end.

End SpecVar.

Module SpecGates.

(** A service starts in hour [h]. *)
Definition inicia_na_hora (h : Z) (r : registro) : bool :=
  Tempo.hour (inicio r) =? h.

(** The number of distinct guichê identifiers among some records. *)
Definition guiches_distintos (recs : list registro) : Z :=
  Z.of_nat (List.length (nodup Z.eq_dec (map (fun r : registro => guiche r) recs))).

(** The records [calcular_gates_hora] is asked to look at: those of the
    chosen day, or else of period 2, of the chosen client and operation. *)
Definition selecionado (filtros : Filtros.t) (cliente operacao : option string)
    (data_especifica : option Z) (r : registro) : Prop :=
  match data_especifica with
  | Some d => Tempo.date (retirada r) = d
  | None => Filtros.inicio (Filtros.p2 filtros) <= Tempo.date (retirada r)
            <= Filtros.fim (Filtros.p2 filtros)
  end /\
  (forall c, cliente = Some c -> c <> "" -> CLIENTE r = Some c) /\
  (forall o, operacao = Some o -> o <> "" -> OPERACAO r = Some o).

End SpecGates.

Module SpecOcio.

(** The records the idleness computation is asked to look at. *)
Definition selecionado (filtros : Filtros.t) (p : Filtros.nome_periodo)
    (r : registro) : Prop :=
  Filtros.inicio (Filtros.get filtros p) <= Tempo.date (retirada r)
    <= Filtros.fim (Filtros.get filtros p) /\
  (forall d, Filtros.data_especifica filtros = Some d -> Tempo.date (retirada r) = d) /\
  (forall c, Filtros.colaborador filtros = Some c -> c <> "" -> c <> "Todos" ->
             usuario r = c) /\
  (Filtros.cliente filtros <> ["Todos"] ->
   exists c, CLIENTE r = Some c /\ In c (Filtros.cliente filtros)) /\
  (Filtros.operacao filtros <> ["Todas"] ->
   exists o, OPERACAO r = Some o /\ In o (Filtros.operacao filtros)) /\
  (Filtros.turno filtros <> ["Todos"] ->
   In (Ociosidade.get_turno (Tempo.hour (retirada r))) (Filtros.turno filtros)).




(** The services of operator [u] on day [d], ordered by start time. *)
Definition servicos (sel : DataFrame) (u : string) (d : Z) : list registro :=
  Pandas.sort_values Z.leb (fun r : registro => inicio r)
    (filter (fun r : registro =>
               String.eqb (usuario r) u && (Tempo.date (retirada r) =? d)) sel).


(** The gaps between consecutive services: the start of the next one minus
    the end of the previous one. *)
Fixpoint gaps (servs : list registro) : list Z :=
  match servs with
  | a :: ((b :: _) as t) => (inicio b - fim a) :: gaps t
  | _ => []
  end.

(** The largest element of a list of gaps (0 for no gap). *)
Definition maior (l : list Z) : Z :=
  match l with
  | [] => 0
  | x :: t => fold_right Z.max x t
  end.

(** The daily idle time as the specification words it: the sum of all
    gaps minus the largest one. *)
Definition ocio_dia_declarado (sel : DataFrame) (u : string) (d : Z) : Z :=
  let gs := gaps (servicos sel u d) in
  Pandas.sumZ gs - maior gs.


(** A gap counts as idle time when it is positive and of two hours at
    most: the code tests [0 < intervalo <= 7200], so a gap of exactly two
    hours counts, although its comment speaks of gaps below two hours. *)
Definition gap_valido (g : Z) : bool := (0 <? g) && (g <=? 7200).

Definition gaps_validos (sel : DataFrame) (u : string) (d : Z) : list Z :=
  filter gap_valido (gaps (servicos sel u d)).

(** The daily idle time: the sum of the valid gaps, less the largest of
    them when there are two or more. *)
Definition ocio_dia (sel : DataFrame) (u : string) (d : Z) : Z :=
  let gs := gaps_validos sel u d in
  if (2 <=? List.length gs)%nat then Pandas.sumZ gs - maior gs else Pandas.sumZ gs.




End SpecOcio.

Module SpecComboio.

(** The number of ticket withdrawals in hour [h] of the day. *)
Definition retiradas_na_hora (h : Z) (df : DataFrame) : Z :=
  Z.of_nat (List.length (filter (fun r : registro => Tempo.hour (retirada r) =? h) df)).

(** The number of ticket withdrawals in the 15-minute window starting at
    [w]. *)
Definition retiradas_na_janela (w : Z) (df : DataFrame) : Z :=
  Z.of_nat (List.length (filter (fun r : registro => Tempo.floor15 (retirada r) =? w) df)).

(** The hours of the day in which a ticket of the base was withdrawn,
    each of them once. *)
Definition horas_com_retirada (df : DataFrame) : list Z :=
  nodup Z.eq_dec (map (fun r : registro => Tempo.hour (retirada r)) df).

(** The per-hour withdrawal counts: one count for each hour of the day that
    has a withdrawal. *)
Definition contagens_por_hora (df : DataFrame) : list Z :=
  map (fun h => retiradas_na_hora h df) (horas_com_retirada df).

(** The 15-minute windows in which a ticket of the base was withdrawn, each
    of them once. *)
Definition janelas_com_retirada (df : DataFrame) : list Z :=
  nodup Z.eq_dec (map (fun r : registro => Tempo.floor15 (retirada r)) df).

(** The per-window withdrawal counts: one count for each 15-minute window
    that has a withdrawal. *)
Definition contagens_por_janela (df : DataFrame) : list Z :=
  map (fun w => retiradas_na_janela w df) (janelas_com_retirada df).

(** Mean and (sample) standard deviation of a list of counts, as real
    numbers. *)
Definition soma (l : list Z) : R :=
  fold_right (fun x acc => IZR x + acc)%R 0%R l.

Definition media (l : list Z) : R :=
  (soma l / INR (List.length l))%R.

Definition soma_quadrados (m : R) (l : list Z) : R :=
  fold_right (fun x acc => (IZR x - m) * (IZR x - m) + acc)%R 0%R l.

Definition desvio (l : list Z) : R :=
  sqrt (soma_quadrados (media l) l / (INR (List.length l) - 1))%R.

(** The alert level: the mean plus one standard deviation. *)
Definition limiar (l : list Z) : R := (media l + desvio l)%R.

End SpecComboio.

Module SpecColunas.

Section Nomes.
Variable lower : string -> string.
Variable strip : string -> string.

(** The label a column ends with: its standard name when it has one. *)
Definition canonico (c : string) : string :=
  match CarregarDados.nome_padrao lower strip c with Some v => v | None => c end.

(** A label matches an alias when its lowered, stripped form is the
    lowered alias. *)
Definition corresponde (c key : string) : Prop :=
  strip (lower c) = lower key.

(** The labels of the frame once the labels in [feitos] were processed by
    the renaming loop. *)
Definition parcial (feitos : list string) (c : string) : string :=
  if existsb (String.eqb c) feitos then canonico c else c.

End Nomes.

End SpecColunas.

(** * Part I, continued: vocabulary for the further properties *)

Module SpecLoad.

(** The rows of the code table that carry the prefixo of a base row. *)
Definition codigos_de (df_codigo : list CarregarDados.codigo) (b : registro_base)
    : list CarregarDados.codigo :=
  filter (fun c => String.eqb (CarregarDados.cod_prefixo c) (prefixo b)) df_codigo.

(** The number of rows the left join produces for a base row: one per
    code row with its prefixo, and one when there is none. *)
Definition copias (df_codigo : list CarregarDados.codigo) (b : registro_base) : nat :=
  Nat.max 1 (List.length (codigos_de df_codigo b)).

(** The rows of the final table that come from a base row: one per code
    row with its prefixo, in the order of the code table and carrying that
    code row's CLIENTE and OPERAÇÃO, and a single row with both missing
    when no code row has the prefixo. *)
Definition linhas_de (df_codigo : list CarregarDados.codigo) (b : registro_base)
    : list registro :=
  match codigos_de df_codigo b with
  | [] => [mkRegistro b None None (tpatend b + tpesper b)]
  | cs => map (fun c => mkRegistro b (CarregarDados.cod_CLIENTE c)
                                   (CarregarDados.cod_OPERACAO c)
                                   (tpatend b + tpesper b)) cs
  end.

(** The sum of a list of natural numbers. *)
Definition soma_nat (l : list nat) : nat := fold_right Nat.add 0%nat l.

End SpecLoad.


Module SpecInsights.

(** The group of a record has a row in a period table. *)
Definition presente_em {V} (tabela : list (string * V)) (chave : option string) : bool :=
  match chave with
  | Some k => existsb (String.eqb k) (map fst tabela)
  | None => false
  end.

(** The keys of [groupby]: the values of the column that occur, sorted. *)
Definition chaves_de (key : registro -> option string) (df : DataFrame) : list string :=
  Pandas.sorted String.leb (Pandas.unique String.eqb (Pandas.presentes key df)).

(** The row [calcular_tempos_por_periodo] of the wait-time tab computes for
    the group [k]. *)
Definition tempos_espera (df_filtrado : DataFrame) (g : grupo) (k : string) : tempos :=
  let grp := Pandas.grupo_de String.eqb (coluna_grupo g) k df_filtrado in
  mkTempos (Pandas.meanZ (map (fun r : registro => tpesper r) grp) / (60 # 1))%Q
           (Z.of_nat (List.length grp)).

End SpecInsights.

Module SpecMapa.

(** A pivot whose cells are the counts of its labels and hours, and whose
    columns hold every hour of the data once. *)
Definition mapa_coerente (strftime : Z -> string) (df : DataFrame)
    (pivot : ComboioMapa.pivot_t) : Prop :=
  ComboioMapa.values pivot
  = map (fun d => map (ComboioMapa.celula strftime df d) (ComboioMapa.columns pivot))
        (ComboioMapa.index pivot) /\
  NoDup (ComboioMapa.columns pivot) /\
  (forall r : registro, In r df ->
     In (Tempo.hour (retirada r)) (ComboioMapa.columns pivot)).

End SpecMapa.
(** ** Sample data *)

Module Exemplos.

(** The timestamp of day [d] at [h]:[m]:[s]. *)
Definition ts (d h m s : Z) : Z := d * 86400 + h * 3600 + m * 60 + s.

(** An uploaded base sheet: one valid row with a code, one cancelled row,
    one valid row whose prefixo has no code. *)
Definition planilha : CarregarDados.tabela registro_base :=
  CarregarDados.mkTabela
    ["id"; "Status"; "GUICHE"; "Usuário"; "retirada"; "inicio"; "fim";
     "tpatend"; "tpesper"; "prefixo"]
    [ mkBase 1 "ATENDIDO" 1 "ana" (ts 20000 8 0 0) (ts 20000 8 2 0) (ts 20000 8 7 0)
             300 120 "AB";
      mkBase 2 "CANCELADO" 1 "ana" (ts 20000 9 0 0) (ts 20000 9 1 0) (ts 20000 9 6 0)
             300 60 "AB";
      mkBase 3 "TRANSFERIDA" 2 "rui" (ts 20000 16 0 0) (ts 20000 16 10 0)
             (ts 20000 16 20 0) 600 600 "ZZ" ].

Definition planilha_ok : CarregarDados.tabela registro_base :=
  CarregarDados.mkTabela
    ["id"; "status"; "guichê"; "usuário"; "retirada"; "inicio"; "fim";
     "tpatend"; "tpesper"; "prefixo"]
    (CarregarDados.linhas planilha).

Definition codigos : list CarregarDados.codigo :=
  [ CarregarDados.mkCodigo "AB" (Some "ACME") (Some "CARGA");
    CarregarDados.mkCodigo "CD" (Some "BETA") (Some "DESCARGA") ].

(** The uploaded code sheet. *)
Definition planilha_codigos : CarregarDados.tabela CarregarDados.codigo :=
  CarregarDados.mkTabela ["prefixo"; "CLIENTE"; "OPERAÇÃO"] codigos.

(** The base sheet with a second status column: ['Status'] and ['STATUS']
    are both renamed to ['status']. *)
Definition planilha_status_duplo : CarregarDados.tabela registro_base :=
  CarregarDados.mkTabela
    ["id"; "Status"; "STATUS"; "GUICHE"; "Usuário"; "retirada"; "inicio"; "fim";
     "tpatend"; "tpesper"; "prefixo"]
    (CarregarDados.linhas planilha).

(** A row of the final table from its essentials. *)
Definition atendimento (i : Z) (u : string) (g : Z) (cli op : string)
    (ret ini fi : Z) : registro :=
  mkRegistro (mkBase i "ATENDIDO" g u ret ini fi (fi - ini) (ini - ret) "AB")
             (Some cli) (Some op) (fi - ret).

(** Filters that select the days 20000..20001 as both periods and nothing
    else. *)
Definition filtros : Filtros.t :=
  Filtros.mkFiltros (Filtros.mkPeriodo 20000 20001) (Filtros.mkPeriodo 20000 20001)
                    ["Todos"] ["Todas"] ["Todos"] None None.

(** One operator, one day, two services two minutes apart. *)
Definition dois_atendimentos : DataFrame :=
  [ atendimento 1 "ana" 1 "ACME" "CARGA" (ts 20000 8 0 0) (ts 20000 8 2 0) (ts 20000 8 10 0);
    atendimento 2 "ana" 1 "ACME" "CARGA" (ts 20000 8 5 0) (ts 20000 8 12 0) (ts 20000 8 20 0) ].

(** Two operators over two days: ana has gaps of 120 s, 300 s and 3.5 h on
    the first day and one gap of 60 s on the second; rui has one service. *)
Definition dois_dias : DataFrame :=
  [ atendimento 1 "ana" 1 "ACME" "CARGA" (ts 20000 8 0 0) (ts 20000 8 2 0) (ts 20000 8 10 0);
    atendimento 2 "ana" 1 "ACME" "CARGA" (ts 20000 8 5 0) (ts 20000 8 12 0) (ts 20000 8 20 0);
    atendimento 3 "rui" 2 "BETA" "CARGA" (ts 20000 8 6 0) (ts 20000 8 15 0) (ts 20000 8 25 0);
    atendimento 4 "ana" 1 "BETA" "CARGA" (ts 20000 8 21 0) (ts 20000 8 25 0) (ts 20000 8 30 0);
    atendimento 5 "ana" 1 "ACME" "CARGA" (ts 20000 11 50 0) (ts 20000 12 0 0) (ts 20000 12 10 0);
    atendimento 6 "ana" 1 "ACME" "CARGA" (ts 20001 9 0 0) (ts 20001 9 1 0) (ts 20001 9 5 0);
    atendimento 7 "ana" 1 "ACME" "CARGA" (ts 20001 9 2 0) (ts 20001 9 6 0) (ts 20001 9 9 0) ].

(** Seven withdrawals: five between 8 and 9 h (three in the first quarter,
    two in the second), one at 9 h and one at 10 h. *)
Definition manha : DataFrame :=
  [ atendimento 1 "ana" 1 "ACME" "CARGA" (ts 20000 8 1 0) (ts 20000 8 2 0) (ts 20000 8 10 0);
    atendimento 2 "ana" 1 "ACME" "CARGA" (ts 20000 8 5 0) (ts 20000 8 12 0) (ts 20000 8 20 0);
    atendimento 3 "rui" 2 "BETA" "CARGA" (ts 20000 8 14 0) (ts 20000 8 15 0) (ts 20000 8 25 0);
    atendimento 4 "rui" 2 "BETA" "CARGA" (ts 20000 8 16 0) (ts 20000 8 26 0) (ts 20000 8 30 0);
    atendimento 5 "ana" 1 "ACME" "CARGA" (ts 20000 8 29 0) (ts 20000 8 31 0) (ts 20000 8 40 0);
    atendimento 6 "ana" 1 "ACME" "CARGA" (ts 20000 9 0 0) (ts 20000 9 1 0) (ts 20000 9 5 0);
    atendimento 7 "ana" 1 "ACME" "CARGA" (ts 20000 10 2 0) (ts 20000 10 6 0) (ts 20000 10 9 0) ].

End Exemplos.

(** * Part II: properties *)

(** ** Lists, sorting and grouping *)

Section UniqueFacts.
Context {A K : Type}.
Variable eqb : K -> K -> bool.
Hypothesis eqb_eq : forall x y, eqb x y = true <-> x = y.

Lemma unique_In (l : list K) (x : K) : In x (Pandas.unique eqb l) <-> In x l.
Proof.
  induction l as [|y t IH]; simpl; [tauto|].
  rewrite filter_In, IH. split.
  - intros [H | [H _]]; auto.
  - intros [H | H]; [now left|].
    destruct (eqb y x) eqn:E.
    + left. now apply eqb_eq.
    + right. split; [assumption | reflexivity].
Qed.

Lemma unique_NoDup (l : list K) : NoDup (Pandas.unique eqb l).
Proof.
  induction l as [|y t IH]; simpl; constructor.
  - rewrite filter_In. intros [_ H].
    assert (E : eqb y y = true) by now apply eqb_eq.
    rewrite E in H. discriminate.
  - now apply NoDup_filter.
Qed.

Lemma presentes_In (key : A -> option K) (df : list A) (k : K) :
  In k (Pandas.presentes key df) <-> exists r, In r df /\ key r = Some k.
Proof.
  unfold Pandas.presentes. rewrite in_flat_map. split.
  - intros [r [Hr Hk]]. exists r. split; [assumption|].
    destruct (key r); simpl in Hk; [|contradiction].
    destruct Hk as [-> | []]. reflexivity.
  - intros [r [Hr Hk]]. exists r. split; [assumption|].
    rewrite Hk. now left.
Qed.

Lemma grupo_de_In (key : A -> option K) (k : K) (df : list A) (r : A) :
  In r (Pandas.grupo_de eqb key k df) <-> In r df /\ key r = Some k.
Proof.
  unfold Pandas.grupo_de. rewrite filter_In.
  destruct (key r) as [k'|].
  - rewrite eqb_eq. intuition congruence.
  - intuition congruence.
Qed.

End UniqueFacts.

Section SortFacts.
Context {A K : Type}.
Variable leb : K -> K -> bool.

Lemma insere_perm (key : A -> K) (x : A) (l : list A) :
  Permutation (Pandas.insere leb key x l) (x :: l).
Proof.
  induction l as [|y t IH]; simpl; [reflexivity|].
  destruct (leb (key y) (key x)); [|reflexivity].
  rewrite IH. apply perm_swap.
Qed.

Lemma sort_values_perm (key : A -> K) (l : list A) :
  Permutation (Pandas.sort_values leb key l) l.
Proof.
  unfold Pandas.sort_values.
  rewrite (Permutation_rev l) at 2.
  induction (rev l) as [|x t IH]; simpl; [reflexivity|].
  rewrite insere_perm. now constructor.
Qed.

Lemma sort_values_In (key : A -> K) (l : list A) (x : A) :
  In x (Pandas.sort_values leb key l) <-> In x l.
Proof.
  split; apply Permutation_in;
    [apply sort_values_perm | symmetry; apply sort_values_perm].
Qed.

End SortFacts.

Section GroupbyFacts.
Context {A K : Type}.
Variable eqb : K -> K -> bool.
Variable leb : K -> K -> bool.
Hypothesis eqb_eq : forall x y, eqb x y = true <-> x = y.
Variable key : A -> option K.

Lemma sorted_In (l : list K) (k : K) : In k (Pandas.sorted leb l) <-> In k l.
Proof. apply sort_values_In. Qed.

Lemma sorted_NoDup (l : list K) : NoDup l -> NoDup (Pandas.sorted leb l).
Proof.
  intros H. eapply Permutation_NoDup; [|exact H].
  symmetry. apply sort_values_perm.
Qed.

(** The groups of [groupby] are exactly the non-empty classes of rows with
    the same present key. *)
Lemma groupby_In (df : list A) (k : K) (g : list A) :
  In (k, g) (Pandas.groupby eqb leb key df) <->
  (exists r, In r df /\ key r = Some k) /\ g = Pandas.grupo_de eqb key k df.
Proof.
  unfold Pandas.groupby. rewrite in_map_iff. split.
  - intros [k' [Heq Hin]]. inversion Heq; subst.
    rewrite sorted_In, (unique_In eqb eqb_eq), presentes_In in Hin. now split.
  - intros [Hex ->]. exists k. split; [reflexivity|].
    now rewrite sorted_In, (unique_In eqb eqb_eq), presentes_In.
Qed.

Lemma groupby_keys_NoDup (df : list A) :
  NoDup (map fst (Pandas.groupby eqb leb key df)).
Proof.
  unfold Pandas.groupby. rewrite map_map. simpl. rewrite map_id.
  apply sorted_NoDup, unique_NoDup, eqb_eq.
Qed.

Lemma groupby_nonempty (df : list A) (k : K) (g : list A) :
  In (k, g) (Pandas.groupby eqb leb key df) -> (0 < List.length g)%nat.
Proof.
  rewrite groupby_In. intros [[r [Hr Hk]] ->].
  assert (Hin : In r (Pandas.grupo_de eqb key k df))
    by now apply (grupo_de_In eqb eqb_eq).
  destruct (Pandas.grupo_de eqb key k df); [contradiction | simpl; lia].
Qed.

End GroupbyFacts.
(** ** Sorting puts the rows in key order *)

Section Ordenacao.
Context {A K : Type}.
Variable leb : K -> K -> bool.
Variable key : A -> K.
Hypothesis leb_total : forall a b, leb a b = true \/ leb b a = true.
Hypothesis leb_trans : forall a b c, leb a b = true -> leb b c = true -> leb a c = true.

Let ord (x y : A) : Prop := leb (key x) (key y) = true.

Lemma insere_In (x y : A) (l : list A) :
  In y (Pandas.insere leb key x l) <-> y = x \/ In y l.
Proof.
  induction l as [|z t IH]; simpl.
  - intuition.
  - destruct (leb (key z) (key x)); simpl; rewrite ?IH; intuition.
Qed.

Lemma insere_sorted (x : A) (l : list A) :
  StronglySorted ord l -> StronglySorted ord (Pandas.insere leb key x l).
Proof.
  induction 1 as [|z t Hs IH Hall]; simpl.
  - constructor; constructor.
  - destruct (leb (key z) (key x)) eqn:E.
    + constructor; [exact IH|].
      apply Forall_forall. intros y Hy. apply insere_In in Hy.
      destruct Hy as [->|Hy]; [exact E|].
      rewrite Forall_forall in Hall. now apply Hall.
    + assert (Hxz : ord x z).
      { unfold ord. destruct (leb_total (key x) (key z)) as [H|H];
          [exact H | congruence]. }
      constructor; [constructor; assumption|].
      constructor; [exact Hxz|].
      rewrite Forall_forall in Hall |- *. intros y Hy.
      unfold ord in *. eapply leb_trans; [exact Hxz | now apply Hall].
Qed.

(** [sort_values] returns its rows in the order of the key. *)
Lemma sort_values_sorted (l : list A) :
  StronglySorted ord (Pandas.sort_values leb key l).
Proof.
  unfold Pandas.sort_values. induction (rev l) as [|x t IH]; simpl.
  - constructor.
  - now apply insere_sorted.
Qed.

End Ordenacao.

Lemma StronglySorted_map {A B} (R : A -> A -> Prop) (R' : B -> B -> Prop)
    (f : A -> B) (l : list A) :
  (forall a b, R a b -> R' (f a) (f b)) ->
  StronglySorted R l -> StronglySorted R' (map f l).
Proof.
  intros Hf. induction 1 as [|x t Hs IH Hall]; simpl; constructor.
  - exact IH.
  - rewrite Forall_forall in Hall |- *. intros y Hy.
    apply in_map_iff in Hy. destruct Hy as [a [<- Ha]]. apply Hf. now apply Hall.
Qed.

Lemma StronglySorted_impl {A} (R R' : A -> A -> Prop) (l : list A) :
  (forall a b, R a b -> R' a b) ->
  StronglySorted R l -> StronglySorted R' l.
Proof.
  intros Hf Hs. rewrite <- (map_id l). now apply (StronglySorted_map R R' (fun x => x)).
Qed.

Lemma Zleb_total (a b : Z) : (a <=? b) = true \/ (b <=? a) = true.
Proof. rewrite !Z.leb_le. lia. Qed.

Lemma Zleb_trans (a b c : Z) :
  (a <=? b) = true -> (b <=? c) = true -> (a <=? c) = true.
Proof. rewrite !Z.leb_le. lia. Qed.

Lemma Qgeb_total (a b : Q) : Qgeb a b = true \/ Qgeb b a = true.
Proof.
  unfold Qgeb. rewrite !Qle_bool_iff.
  destruct (Qlt_le_dec a b) as [H|H]; [right; now apply Qlt_le_weak | now left].
Qed.

Lemma Qgeb_trans (a b c : Q) :
  Qgeb a b = true -> Qgeb b c = true -> Qgeb a c = true.
Proof.
  unfold Qgeb. rewrite !Qle_bool_iff. intros H1 H2. eapply Qle_trans; eassumption.
Qed.


(** ** Row validation (validar_dados) *)

Lemma registro_base_eq_dec (r1 r2 : registro_base) : {r1 = r2} + {r1 <> r2}.
Proof.
  decide equality; try apply string_dec; apply Z.eq_dec.
Defined.

Lemma isin_In (s : string) (values : list string) :
  Pandas.isin s values = true <-> In s values.
Proof.
  unfold Pandas.isin. rewrite existsb_exists. split.
  - intros [x [Hin Heq]]. apply String.eqb_eq in Heq. now subst.
  - intros Hin. exists s. split; [assumption | apply String.eqb_refl].
Qed.

Lemma mascara_valida_spec (r : registro_base) :
  CarregarDados.mascara_valida r = true <-> Spec.registro_valido r.
Proof.
  unfold CarregarDados.mascara_valida, Spec.registro_valido.
  rewrite !andb_true_iff, !Z.leb_le, isin_In. simpl. intuition.
Qed.

Lemma count_occ_filter {A} (dec : forall x y : A, {x = y} + {x <> y})
    (p : A -> bool) (l : list A) (x : A) :
  count_occ dec (filter p l) x = if p x then count_occ dec l x else 0%nat.
Proof.
  induction l as [|y t IH]; simpl.
  - now destruct (p x).
  - destruct (p y) eqn:Ey; simpl; destruct (dec y x) as [->|Hne]; rewrite IH.
    + now rewrite Ey.
    + reflexivity.
    + now rewrite Ey.
    + reflexivity.
Qed.

(** C1.  [validar_dados] returns a frame, and a row is in it if and only if
    it is an input row with 60 <= tpatend <= 1800, tpesper <= 14400 and status
    ATENDIDO or TRANSFERIDA.  A kept row is the input row itself, as often
    as it occurred, and every other row is gone. *)
Theorem validar_dados_keeps_exactly_the_valid (df : list registro_base) :
  exists kept,
    CarregarDados.validar_dados df = Some kept /\
    (forall r, In r kept <-> In r df /\ Spec.registro_valido r) /\
    (forall r, Spec.registro_valido r ->
               count_occ registro_base_eq_dec kept r = count_occ registro_base_eq_dec df r) /\
    (forall r, ~ Spec.registro_valido r -> count_occ registro_base_eq_dec kept r = 0%nat).
Proof.
  exists (filter CarregarDados.mascara_valida df).
  split; [reflexivity|]. split; [|split].
  - intros r. now rewrite filter_In, mascara_valida_spec.
  - intros r Hr. rewrite count_occ_filter.
    apply mascara_valida_spec in Hr. now rewrite Hr.
  - intros r Hr. rewrite count_occ_filter.
    destruct (CarregarDados.mascara_valida r) eqn:E; [|reflexivity].
    apply mascara_valida_spec in E. contradiction.
Qed.

Example validar_dados_example :
  let ok := mkBase 1 "ATENDIDO" 3 "ana" 0 100 400 300 50 "AB" in
  let curto := mkBase 2 "ATENDIDO" 3 "ana" 0 500 559 59 50 "AB" in
  let longo := mkBase 3 "TRANSFERIDA" 3 "ana" 0 500 2301 1801 50 "AB" in
  let espera := mkBase 4 "ATENDIDO" 3 "ana" 0 500 800 300 14401 "AB" in
  let cancelado := mkBase 5 "CANCELADO" 3 "ana" 0 500 800 300 50 "AB" in
  let limite := mkBase 6 "TRANSFERIDA" 4 "rui" 0 500 2300 1800 14400 "CD" in
  CarregarDados.validar_dados [ok; curto; longo; espera; cancelado; limite]
  = Some [ok; limite].
Proof. reflexivity. Qed.

(** ** Shift buckets *)

Lemma hour_range (t : Z) : 0 <= Tempo.hour t <= 23.
Proof.
  unfold Tempo.hour.
  assert (0 <= t mod 86400 < 86400) by (apply Z.mod_pos_bound; lia).
  split.
  - apply Z.div_pos; lia.
  - assert (t mod 86400 / 3600 < 24); [|lia].
    apply Z.div_lt_upper_bound; lia.
Qed.

(** The three branches of [get_turno], by range. *)
Lemma get_turno_cases (h : Z) :
  (7 <= h < 15 /\ Ociosidade.get_turno h = "TURNO A") \/
  (15 <= h < 23 /\ Ociosidade.get_turno h = "TURNO B") \/
  ((h < 7 \/ 23 <= h) /\ Ociosidade.get_turno h = "TURNO C").
Proof.
  unfold Ociosidade.get_turno.
  destruct (7 <=? h) eqn:E1; destruct (h <? 15) eqn:E2;
    destruct (15 <=? h) eqn:E3; destruct (h <? 23) eqn:E4; simpl;
    rewrite ?Z.leb_le, ?Z.leb_gt, ?Z.ltb_lt, ?Z.ltb_ge in *; try lia;
    intuition lia.
Qed.

(** C3.  The shift is a function of the hour of the withdrawal timestamp
    alone; hours 7..14 are TURNO A, 15..22 TURNO B, 23 and 0..6 TURNO C;
    each hour of the day has exactly one shift; and [determinar_turno]
    (espera), [get_turno] (ociosidade) and [get_turno] (mov_operacao) are the
    same function. *)
Theorem turno_is_a_partition_of_the_day :
  (forall h, 7 <= h <= 14 -> Ociosidade.get_turno h = "TURNO A") /\
  (forall h, 15 <= h <= 22 -> Ociosidade.get_turno h = "TURNO B") /\
  (forall h, h = 23 \/ 0 <= h <= 6 -> Ociosidade.get_turno h = "TURNO C") /\
  (forall h, 0 <= h <= 23 ->
     exists! t, In t Spec.turnos /\ Ociosidade.get_turno h = t) /\
  (forall h, Espera.determinar_turno (Espera.Hora h) = Ociosidade.get_turno h) /\
  (forall t, Espera.determinar_turno (Espera.Timestamp t)
             = Ociosidade.get_turno (Tempo.hour t)) /\
  (forall h, MovOperacao.get_turno h = Ociosidade.get_turno h) /\
  (forall r1 r2 : registro,
     Tempo.hour (retirada r1) = Tempo.hour (retirada r2) ->
     Espera.TURNO r1 = Espera.TURNO r2 /\
     Ociosidade.turno_de r1 = Ociosidade.turno_de r2 /\
     MovOperacao.turno_de r1 = MovOperacao.turno_de r2) /\
  (forall r : registro,
     Espera.TURNO r = Ociosidade.turno_de r /\
     MovOperacao.turno_de r = Ociosidade.turno_de r).
Proof.
  repeat match goal with |- _ /\ _ => split end.
  - intros h Hh. destruct (get_turno_cases h) as [[? ?]|[[? ?]|[? ?]]]; auto; lia.
  - intros h Hh. destruct (get_turno_cases h) as [[? ?]|[[? ?]|[? ?]]]; auto; lia.
  - intros h Hh. destruct (get_turno_cases h) as [[? ?]|[[? ?]|[? ?]]]; auto; lia.
  - intros h _. exists (Ociosidade.get_turno h). split.
    + split; [|reflexivity].
      destruct (get_turno_cases h) as [[? ->]|[[? ->]|[? ->]]]; simpl; auto.
    + intros t [_ Ht]. exact Ht.
  - reflexivity.
  - reflexivity.
  - reflexivity.
  - intros r1 r2 H.
    unfold Espera.TURNO, Espera.determinar_turno, Ociosidade.turno_de,
      MovOperacao.turno_de.
    now rewrite H.
  - intros r. split; reflexivity.
Qed.

Example turno_examples :
  map Ociosidade.get_turno [0; 6; 7; 14; 15; 22; 23]
  = ["TURNO C"; "TURNO C"; "TURNO A"; "TURNO A"; "TURNO B"; "TURNO B"; "TURNO C"].
Proof. reflexivity. Qed.

(** ** Column normalisation (validar_colunas) *)

Section ValidarColunas.
Import CarregarDados.
Variable lower : string -> string.
Variable strip : string -> string.


Lemma nome_padrao_Some (c v : string) :
  nome_padrao lower strip c = Some v ->
  exists key, In (key, v) mapa_colunas /\ SpecColunas.corresponde lower strip c key.
Proof.
  unfold CarregarDados.nome_padrao, SpecColunas.corresponde.
  destruct (find _ mapa_colunas) as [[key v']|] eqn:E; simpl; [|discriminate].
  intros [= <-]. apply find_some in E. destruct E as [Hin Heq].
  exists key. split; [assumption|]. now apply String.eqb_eq in Heq.
Qed.



(** Standard names are stable: a standard name that is a label itself is
    not sent to a different standard name. *)
Hypothesis padrao_estavel :
  forall c v v', nome_padrao lower strip c = Some v -> nome_padrao lower strip v = Some v' -> v' = v.

Lemma rename_parcial (feitos : list string) (c v : string) (orig : list string) :
  nome_padrao lower strip c = Some v ->
  rename c v (map (SpecColunas.parcial lower strip feitos) orig) = map (SpecColunas.parcial lower strip (c :: feitos)) orig.
Proof.
  intros Hc. unfold rename. rewrite map_map. apply map_ext. intros x.
  unfold SpecColunas.parcial. simpl.
  destruct (String.eqb x c) eqn:Exc; simpl.
  - apply String.eqb_eq in Exc. subst x.
    unfold SpecColunas.canonico. rewrite Hc.
    destruct (existsb (String.eqb c) feitos).
    + now destruct (String.eqb v c).
    + now rewrite String.eqb_refl.
  - destruct (existsb (String.eqb x) feitos).
    + unfold SpecColunas.canonico. destruct (nome_padrao lower strip x) as [w|] eqn:Ex.
      * destruct (String.eqb w c) eqn:Ew; [|reflexivity].
        apply String.eqb_eq in Ew. subst w.
        exact (padrao_estavel x c v Ex Hc).
      * now rewrite Exc.
    + now rewrite Exc.
Qed.

Lemma parcial_None (feitos : list string) (c : string) (orig : list string) :
  nome_padrao lower strip c = None ->
  map (SpecColunas.parcial lower strip feitos) orig = map (SpecColunas.parcial lower strip (c :: feitos)) orig.
Proof.
  intros Hc. apply map_ext. intros x. unfold SpecColunas.parcial. simpl.
  destruct (String.eqb x c) eqn:Exc; simpl; [|reflexivity].
  apply String.eqb_eq in Exc. subst x.
  unfold SpecColunas.canonico. rewrite Hc. now destruct (existsb (String.eqb c) feitos).
Qed.

Lemma renomear_loop (cs feitos orig : list string) :
  fold_left (fun atuais col_atual =>
               match nome_padrao lower strip col_atual with
               | Some value => rename col_atual value atuais
               | None => atuais
               end) cs (map (SpecColunas.parcial lower strip feitos) orig)
  = map (SpecColunas.parcial lower strip (rev cs ++ feitos)) orig.
Proof.
  revert feitos. induction cs as [|c cs IH]; intros feitos; simpl; [reflexivity|].
  destruct (nome_padrao lower strip c) as [v|] eqn:Ec.
  - rewrite (rename_parcial feitos c v orig Ec), IH.
    now rewrite <- app_assoc.
  - rewrite (parcial_None feitos c orig Ec), IH.
    now rewrite <- app_assoc.
Qed.

Lemma renomear_canonico (cols : list string) :
  renomear lower strip cols = map (SpecColunas.canonico lower strip) cols.
Proof.
  unfold renomear.
  replace cols with (map (SpecColunas.parcial lower strip []) cols) at 2
    by (rewrite <- (map_id cols) at 2; apply map_ext; reflexivity).
  rewrite renomear_loop. apply map_ext_in. intros c Hc.
  unfold SpecColunas.parcial.
  destruct (existsb (String.eqb c) (rev cols ++ [])) eqn:E; [reflexivity|].
  exfalso. assert (Hin : In c (rev cols ++ [])).
  { rewrite app_nil_r, <- in_rev. exact Hc. }
  apply isin_In in Hin. unfold Pandas.isin in Hin. congruence.
Qed.

Lemma colunas_faltantes_In (cols : list string) (col : string) :
  In col (colunas_faltantes cols) <-> In col colunas_obrigatorias /\ ~ In col cols.
Proof.
  unfold colunas_faltantes. rewrite filter_In, negb_true_iff.
  split; intros [H1 H2]; split; try assumption.
  - intros Hin. rewrite <- isin_In in Hin. unfold Pandas.isin in Hin. congruence.
  - destruct (existsb (String.eqb col) cols) eqn:E; [|reflexivity].
    exfalso. apply H2. apply isin_In. exact E.
Qed.


End ValidarColunas.

(** The Latin instance keeps standard names stable. *)
Lemma latin_padrao_estavel (c v v' : string) :
  CarregarDados.nome_padrao Latin.lower Latin.strip c = Some v ->
  CarregarDados.nome_padrao Latin.lower Latin.strip v = Some v' ->
  v' = v.
Proof.
  intros Hc Hv.
  destruct (nome_padrao_Some _ _ c v Hc) as [key [Hin _]].
  simpl in Hin.
  repeat (destruct Hin as [Hin|Hin];
          [injection Hin as _ <-; vm_compute in Hv; congruence|]).
  contradiction.
Qed.

(** [strip] removes the white space of both blocks, the no-break space
    (0xC2 0xA0) and the next-line character (0xC2 0x85) included. *)
Example latin_strip_example :
  let nbsp := String (ascii_of_nat 194) (String (ascii_of_nat 160) EmptyString) in
  let nel := String (ascii_of_nat 194) (String (ascii_of_nat 133) EmptyString) in
  Latin.strip (nbsp ++ " Usuário" ++ nel ++ " ") = "Usuário" /\
  Latin.lower "Status Descrição" = "status descrição".
Proof. vm_compute. split; reflexivity. Qed.

Example validar_colunas_example_ok :
  CarregarDados.validar_colunas Latin.lower Latin.strip
    (CarregarDados.mkTabela
       ["id"; "Status Descrição"; "GUICHE"; " Usuário "; "retirada"; "inicio";
        "fim"; "tpatend"; "TPESPER"; "prefixo"] [tt])
  = CarregarDados.Ok
      (CarregarDados.mkTabela
         ["id"; "status"; "guichê"; "usuário"; "retirada"; "inicio";
          "fim"; "tpatend"; "tpesper"; "prefixo"] [tt]).
Proof. vm_compute. reflexivity. Qed.

Example validar_colunas_example_missing :
  CarregarDados.validar_colunas Latin.lower Latin.strip
    (CarregarDados.mkTabela
       ["Status"; "guiche"; "usuario"; "retirada"; "inicio"; "fim";
        "tpatend"; "tpesper"; "Prefixo"] [tt])
  = CarregarDados.ValueError "Estrutura do arquivo inválida".
Proof. vm_compute. reflexivity. Qed.


(** ** The left join with the code table (carregar_dados) *)

Section MergeLeftFacts.
Context {V1 V2 : Type}.

Lemma com_chave_In (k : string) (df : list (string * V2)) (v : V2) :
  In v (Pandas.com_chave k df) <-> In (k, v) df.
Proof.
  unfold Pandas.com_chave. rewrite in_map_iff. split.
  - intros [[k' v'] [Hv Hin]]. simpl in Hv. subst v'.
    apply filter_In in Hin. destruct Hin as [Hin Hk]. simpl in Hk.
    apply String.eqb_eq in Hk. now subst.
  - intros Hin. exists (k, v). split; [reflexivity|].
    apply filter_In. split; [assumption | apply String.eqb_refl].
Qed.

(** A key that occurs once in the right frame has one partner at most. *)
Lemma com_chave_unico (k : string) (df : list (string * V2)) :
  NoDup (map fst df) -> (List.length (Pandas.com_chave k df) <= 1)%nat.
Proof.
  unfold Pandas.com_chave. induction df as [|[k' v] t IH]; simpl; intros Hnd.
  - lia.
  - inversion Hnd as [|? ? Hnotin Hnd']; subst.
    destruct (String.eqb k' k) eqn:E; simpl.
    + apply String.eqb_eq in E. subst k'.
      assert (Hnil : filter (fun kv : string * V2 => String.eqb (fst kv) k) t = []).
      { destruct (filter _ t) as [|[k2 v2] rest] eqn:Ef; [reflexivity|].
        exfalso. apply Hnotin.
        assert (Hin : In (k2, v2) (filter (fun kv : string * V2 => String.eqb (fst kv) k) t))
          by (rewrite Ef; now left).
        apply filter_In in Hin. destruct Hin as [Hin Hk]. simpl in Hk.
        apply String.eqb_eq in Hk. subst k2.
        apply in_map_iff. now exists (k, v2). }
      rewrite Hnil. simpl. lia.
    + now apply IH.
Qed.

(** With distinct right keys the left join is row for row the left frame. *)
Lemma merge_left_unico (left : list (string * V1)) (right : list (string * V2)) :
  NoDup (map fst right) ->
  map (fun row => (fst row, fst (snd row))) (Pandas.merge_left left right) = left.
Proof.
  intros Hnd. unfold Pandas.merge_left.
  induction left as [|[k v] t IH]; [reflexivity|].
  cbn [flat_map]. rewrite map_app, IH. clear IH.
  pose proof (com_chave_unico k right Hnd) as Hlen.
  cbn [fst snd].
  destruct (Pandas.com_chave k right) as [|v2 [|v3 rest]]; simpl in *;
    [reflexivity | reflexivity | lia].
Qed.

Lemma merge_left_In (left : list (string * V1)) (right : list (string * V2))
    (k : string) (v1 : V1) (o : option V2) :
  In (k, (v1, o)) (Pandas.merge_left left right) <->
  In (k, v1) left /\
  match o with
  | Some v2 => In (k, v2) right
  | None => forall v2, ~ In (k, v2) right
  end.
Proof.
  unfold Pandas.merge_left. rewrite in_flat_map. split.
  - intros [[k' v'] [Hin Hrow]]. cbn [fst snd] in Hrow.
    destruct (Pandas.com_chave k' right) as [|v2 rest] eqn:E.
    + destruct Hrow as [Heq|[]]. inversion Heq; subst. split; [assumption|].
      intros v2 Hv2. apply com_chave_In in Hv2. rewrite E in Hv2. contradiction.
    + apply in_map_iff in Hrow. destruct Hrow as [w [Heq Hw]].
      inversion Heq; subst. split; [assumption|].
      apply com_chave_In. now rewrite E.
  - intros [Hin Ho]. exists (k, v1). split; [assumption|]. cbn [fst snd].
    destruct (Pandas.com_chave k right) as [|v2 rest] eqn:E.
    + destruct o as [w|].
      * apply com_chave_In in Ho. rewrite E in Ho. contradiction.
      * now left.
    + destruct o as [w|].
      * apply in_map_iff. exists w. split; [reflexivity|].
        rewrite <- E. now apply com_chave_In.
      * exfalso. apply (Ho v2). apply com_chave_In. rewrite E. now left.
Qed.

End MergeLeftFacts.

Lemma linha_final_base (l : string * (registro_base * option CarregarDados.codigo)) :
  base (CarregarDados.linha_final l) = fst (snd l) /\
  tempo_permanencia (CarregarDados.linha_final l)
  = tpatend (fst (snd l)) + tpesper (fst (snd l)).
Proof.
  unfold CarregarDados.linha_final. destruct (snd (snd l)); simpl; auto.
Qed.

Lemma algum_sem_codigo_spec (df : DataFrame) :
  CarregarDados.algum_sem_codigo df = true <->
  exists r, In r df /\ (CLIENTE r = None \/ OPERACAO r = None).
Proof.
  unfold CarregarDados.algum_sem_codigo.
  rewrite orb_true_iff, !existsb_exists. split.
  - intros [[r [Hr H]]|[r [Hr H]]]; exists r; split; try assumption.
    + left. now destruct (CLIENTE r).
    + right. now destruct (OPERACAO r).
  - intros [r [Hr [H|H]]]; [left|right]; exists r; rewrite H; now split.
Qed.

(** What a successful load was made of. *)
Lemma carregar_dados_Some (lower strip : string -> string) {M : Type}
    (arquivo_base : option (CarregarDados.leitura (CarregarDados.tabela registro_base)))
    (arquivo_codigo : option (CarregarDados.leitura (CarregarDados.tabela CarregarDados.codigo)))
    (arquivo_medias : option (CarregarDados.leitura M))
    (res : CarregarDados.dados M) :
  CarregarDados.carregar_dados lower strip arquivo_base arquivo_codigo arquivo_medias
  = Some res ->
  exists df df_codigo df_medias,
    arquivo_base = Some (CarregarDados.Planilha df) /\
    arquivo_codigo = Some (CarregarDados.Planilha df_codigo) /\
    arquivo_medias = Some (CarregarDados.Planilha df_medias) /\
    CarregarDados.d_base res
    = map CarregarDados.linha_final
        (Pandas.merge_left
           (map (fun b : registro_base => (prefixo b, b))
                (filter CarregarDados.mascara_valida (CarregarDados.linhas df)))
           (map (fun c => (CarregarDados.cod_prefixo c, c))
                (CarregarDados.linhas df_codigo))) /\
    CarregarDados.aviso_sem_codigo res
    = CarregarDados.algum_sem_codigo (CarregarDados.d_base res).
Proof.
  unfold CarregarDados.carregar_dados.
  destruct arquivo_base as [[df|]|]; try discriminate.
  destruct arquivo_codigo as [[cods|]|]; try discriminate.
  destruct arquivo_medias as [[meds|]|]; try discriminate.
  unfold CarregarDados.validar_colunas, CarregarDados.validar_dados_tabela,
    CarregarDados.validar_dados, CarregarDados.juntar_codigos.
  cbn [CarregarDados.columns CarregarDados.linhas].
  destruct (CarregarDados.colunas_faltantes _); [|discriminate].
  cbn [CarregarDados.columns CarregarDados.linhas].
  destruct (forallb _ CarregarDados.colunas_lidas); [|discriminate].
  cbn [option_map CarregarDados.columns CarregarDados.linhas].
  match goal with |- context [if ?c then _ else _] => destruct c end; [|discriminate].
  intros [= <-]. exists df, cods, meds. cbn. auto.
Qed.

(** C5.  Whenever [carregar_dados] returns the dictionary and each prefixo
    occurs at most once in the code table, the rows of the table it
    returns are, one for one and in order, the rows of the base sheet that
    pass [validar_dados]; a row whose prefixo is not in the code table is
    there with CLIENTE and OPERAÇÃO missing, a row with a code carries that
    code's columns, and [tempo_permanencia] is [tpatend + tpesper] in every
    row.  Rows without a code only raise the warning flag. *)
Theorem carregar_dados_left_join_keeps_validated_rows
    (lower strip : string -> string) {M : Type}
    (df_base : CarregarDados.tabela registro_base)
    (df_codigo : CarregarDados.tabela CarregarDados.codigo)
    (arquivo_medias : option (CarregarDados.leitura M))
    (res : CarregarDados.dados M) :
  CarregarDados.carregar_dados lower strip
    (Some (CarregarDados.Planilha df_base)) (Some (CarregarDados.Planilha df_codigo))
    arquivo_medias = Some res ->
  NoDup (map CarregarDados.cod_prefixo (CarregarDados.linhas df_codigo)) ->
  exists validos,
    CarregarDados.validar_dados (CarregarDados.linhas df_base) = Some validos /\
    map base (CarregarDados.d_base res) = validos /\
    (forall r, In r (CarregarDados.d_base res) ->
       (forall c, In c (CarregarDados.linhas df_codigo) ->
                  CarregarDados.cod_prefixo c <> prefixo r) ->
       CLIENTE r = None /\ OPERACAO r = None) /\
    (forall r c, In r (CarregarDados.d_base res) ->
       In c (CarregarDados.linhas df_codigo) ->
       CarregarDados.cod_prefixo c = prefixo r ->
       CLIENTE r = CarregarDados.cod_CLIENTE c /\
       OPERACAO r = CarregarDados.cod_OPERACAO c) /\
    (forall r, In r (CarregarDados.d_base res) ->
       tempo_permanencia r = tpatend r + tpesper r) /\
    (CarregarDados.aviso_sem_codigo res = true <->
     exists r, In r (CarregarDados.d_base res) /\
               (CLIENTE r = None \/ OPERACAO r = None)).
Proof.
  intros Hres Hnd.
  destruct (carregar_dados_Some _ _ _ _ _ _ Hres)
    as [df' [cods' [meds [Hdf [Hc [_ [Hbase Haviso]]]]]]].
  injection Hdf as <-. injection Hc as <-.
  rewrite Haviso, Hbase. clear Hres Haviso Hbase.
  unfold CarregarDados.validar_dados.
  set (validos := filter CarregarDados.mascara_valida (CarregarDados.linhas df_base)).
  set (left := map (fun b : registro_base => (prefixo b, b)) validos).
  set (right := map (fun c => (CarregarDados.cod_prefixo c, c))
                    (CarregarDados.linhas df_codigo)).
  assert (Hnd' : NoDup (map fst right)).
  { unfold right. rewrite map_map. simpl. exact Hnd. }
  assert (Hkey : forall k b o, In (k, (b, o)) (Pandas.merge_left left right) ->
                               k = prefixo b).
  { intros k b o Hin. apply merge_left_In in Hin. destruct Hin as [Hin _].
    unfold left in Hin. apply in_map_iff in Hin. destruct Hin as [b' [Heq _]].
    now inversion Heq. }
  exists validos. split; [reflexivity|].
  repeat match goal with |- _ /\ _ => split end.
  - pose proof (merge_left_unico left right Hnd') as Hm.
    apply (f_equal (map snd)) in Hm. rewrite !map_map in Hm. simpl in Hm.
    unfold left in Hm at 2. rewrite map_map in Hm. simpl in Hm.
    rewrite map_id in Hm. rewrite map_map. rewrite <- Hm.
    apply map_ext. intros l. apply linha_final_base.
  - intros r Hr Hno. apply in_map_iff in Hr.
    destruct Hr as [[k [b o]] [Heq Hin]].
    pose proof (Hkey k b o Hin) as Hk.
    apply merge_left_In in Hin. destruct Hin as [_ Ho].
    subst r. unfold CarregarDados.linha_final. simpl.
    destruct o as [c|]; [|now split].
    exfalso. unfold right in Ho. apply in_map_iff in Ho.
    destruct Ho as [c2 [Heq Hc2]]. injection Heq as Hp Hc. subst c2.
    apply (Hno c Hc2). simpl. congruence.
  - intros r c Hr Hc Hpre. apply in_map_iff in Hr.
    destruct Hr as [[k [b o]] [Heq Hin]].
    pose proof (Hkey k b o Hin) as Hk.
    apply merge_left_In in Hin. destruct Hin as [_ Ho].
    subst r. unfold CarregarDados.linha_final in *. simpl in *.
    destruct o as [c1|].
    + simpl in Hpre. unfold right in Ho. apply in_map_iff in Ho.
      destruct Ho as [c2 [Heq Hc2]]. injection Heq as Hp2 Hc12. subst c2.
      assert (Hp : CarregarDados.cod_prefixo c1 = CarregarDados.cod_prefixo c)
        by congruence.
      assert (c1 = c); [|now subst].
      clear - Hnd Hc Hc2 Hp.
      induction (CarregarDados.linhas df_codigo) as [|x t IH]; [contradiction|].
      simpl in Hnd. inversion Hnd as [|? ? Hnotin Hnd2]; subst.
      destruct Hc as [->|Hc]; destruct Hc2 as [->|Hc2]; auto.
      * exfalso. apply Hnotin. rewrite <- Hp. now apply in_map.
      * exfalso. apply Hnotin. rewrite Hp. now apply in_map.
    + exfalso. apply (Ho c). unfold right. apply in_map_iff.
      exists c. split; [|assumption]. simpl in Hpre. now rewrite Hpre, Hk.
  - intros r Hr. apply in_map_iff in Hr. destruct Hr as [l [<- _]].
    destruct (linha_final_base l) as [Hb Ht]. rewrite Ht.
    change (tpatend (CarregarDados.linha_final l)) with (tpatend (base (CarregarDados.linha_final l))).
    now rewrite Hb.
  - apply algum_sem_codigo_spec.
Qed.

Example carregar_dados_example :
  option_map CarregarDados.d_base
    (CarregarDados.carregar_dados Latin.lower Latin.strip
       (Some (CarregarDados.Planilha Exemplos.planilha))
       (Some (CarregarDados.Planilha Exemplos.planilha_codigos))
       (Some (CarregarDados.Planilha tt)))
  = Some
      [ mkRegistro (mkBase 1 "ATENDIDO" 1 "ana" 1728028800 1728028920 1728029220
                           300 120 "AB") (Some "ACME") (Some "CARGA") 420;
        mkRegistro (mkBase 3 "TRANSFERIDA" 2 "rui" 1728057600 1728058200 1728058800
                           600 600 "ZZ") None None 1200 ].
Proof. vm_compute. reflexivity. Qed.

(** A sheet lacking a required column stops the load. *)
Example carregar_dados_example_colunas :
  CarregarDados.carregar_dados Latin.lower Latin.strip
    (Some (CarregarDados.Planilha
             (CarregarDados.mkTabela ["id"; "status"] (CarregarDados.linhas Exemplos.planilha))))
    (Some (CarregarDados.Planilha Exemplos.planilha_codigos))
    (Some (CarregarDados.Planilha tt))
  = None.
Proof. vm_compute. reflexivity. Qed.

(** A sheet with the labels ['Status'] and ['STATUS'] passes
    [validar_colunas] and fails in [validar_dados]: nothing is loaded. *)
Example carregar_dados_example_status_duplo :
  (exists df, CarregarDados.validar_colunas Latin.lower Latin.strip
                Exemplos.planilha_status_duplo = CarregarDados.Ok df) /\
  CarregarDados.carregar_dados Latin.lower Latin.strip
    (Some (CarregarDados.Planilha Exemplos.planilha_status_duplo))
    (Some (CarregarDados.Planilha Exemplos.planilha_codigos))
    (Some (CarregarDados.Planilha tt))
  = None.
Proof. split; [eexists|]; vm_compute; reflexivity. Qed.

(** A sheet that cannot be read, or a code sheet without its columns, stops
    the load as well. *)
Example carregar_dados_example_leitura :
  CarregarDados.carregar_dados Latin.lower Latin.strip
    (Some (CarregarDados.Planilha Exemplos.planilha))
    (Some (CarregarDados.Planilha Exemplos.planilha_codigos))
    (Some (@CarregarDados.Ilegivel unit))
  = None /\
  CarregarDados.carregar_dados Latin.lower Latin.strip
    (Some (CarregarDados.Planilha Exemplos.planilha))
    (Some (CarregarDados.Planilha
             (CarregarDados.mkTabela ["prefixo"; "CLIENTE"] Exemplos.codigos)))
    (Some (CarregarDados.Planilha tt))
  = None.
Proof. split; vm_compute; reflexivity. Qed.

(** The theorem at the sample sheet and code table. *)
Lemma carregar_dados_left_join_keeps_validated_rows_witness :
  exists res validos,
    CarregarDados.carregar_dados Latin.lower Latin.strip
      (Some (CarregarDados.Planilha Exemplos.planilha))
      (Some (CarregarDados.Planilha Exemplos.planilha_codigos))
      (Some (CarregarDados.Planilha tt)) = Some res /\
    CarregarDados.validar_dados (CarregarDados.linhas Exemplos.planilha) = Some validos /\
    map base (CarregarDados.d_base res) = validos /\
    (forall r, In r (CarregarDados.d_base res) ->
       (forall c, In c Exemplos.codigos -> CarregarDados.cod_prefixo c <> prefixo r) ->
       CLIENTE r = None /\ OPERACAO r = None) /\
    (forall r c, In r (CarregarDados.d_base res) -> In c Exemplos.codigos ->
       CarregarDados.cod_prefixo c = prefixo r ->
       CLIENTE r = CarregarDados.cod_CLIENTE c /\
       OPERACAO r = CarregarDados.cod_OPERACAO c) /\
    (forall r, In r (CarregarDados.d_base res) ->
       tempo_permanencia r = tpatend r + tpesper r) /\
    (CarregarDados.aviso_sem_codigo res = true <->
     exists r, In r (CarregarDados.d_base res) /\
               (CLIENTE r = None \/ OPERACAO r = None)).
Proof.
  destruct (CarregarDados.carregar_dados Latin.lower Latin.strip
              (Some (CarregarDados.Planilha Exemplos.planilha))
              (Some (CarregarDados.Planilha Exemplos.planilha_codigos))
              (Some (CarregarDados.Planilha tt))) as [res|] eqn:E;
    [|vm_compute in E; discriminate].
  exists res.
  destruct (carregar_dados_left_join_keeps_validated_rows
              Latin.lower Latin.strip Exemplos.planilha Exemplos.planilha_codigos
              (Some (CarregarDados.Planilha tt)) res E) as [validos H].
  - simpl. repeat constructor; simpl; intuition discriminate.
  - exists validos. split; [reflexivity | exact H].
Defined.

(** ** Joins of two periods *)

Section MergeFacts.
Context {V1 V2 : Type}.

Lemma com_chave_In1 (k : string) (df : list (string * V1)) (v : V1) :
  In v (Pandas.com_chave k df) <-> In (k, v) df.
Proof. apply com_chave_In. Qed.

(** The inner join holds a row for a key exactly when both frames do. *)
Lemma merge_inner_In (left : list (string * V1)) (right : list (string * V2))
    (k : string) (v1 : V1) (v2 : V2) :
  In (k, (v1, v2)) (Pandas.merge_inner left right) <->
  In (k, v1) left /\ In (k, v2) right.
Proof.
  unfold Pandas.merge_inner. rewrite in_flat_map. split.
  - intros [[k' v'] [Hin Hrow]]. cbn [fst snd] in Hrow.
    apply in_map_iff in Hrow. destruct Hrow as [w [Heq Hw]].
    inversion Heq; subst. split; [assumption|]. now apply com_chave_In.
  - intros [H1 H2]. exists (k, v1). split; [assumption|]. cbn [fst snd].
    apply in_map_iff. exists v2. split; [reflexivity|]. now apply com_chave_In.
Qed.

Lemma string_eqb_eq (x y : string) : String.eqb x y = true <-> x = y.
Proof. apply String.eqb_eq. Qed.

(** The outer join holds the union of the keys; the side lacking the key is
    missing. *)
Lemma merge_outer_In (left : list (string * V1)) (right : list (string * V2))
    (k : string) (o1 : option V1) (o2 : option V2) :
  In (k, (o1, o2)) (Pandas.merge_outer left right) <->
  match o1, o2 with
  | Some v1, Some v2 => In (k, v1) left /\ In (k, v2) right
  | Some v1, None => In (k, v1) left /\ forall v2, ~ In (k, v2) right
  | None, Some v2 => (forall v1, ~ In (k, v1) left) /\ In (k, v2) right
  | None, None => False
  end.
Proof.
  unfold Pandas.merge_outer. rewrite in_flat_map.
  assert (Hkeys : forall k',
             In k' (Pandas.sorted String.leb
                      (Pandas.unique String.eqb (map fst left ++ map fst right)))
             <-> (exists v, In (k', v) left) \/ (exists v, In (k', v) right)).
  { intros k'. rewrite sorted_In, (unique_In String.eqb string_eqb_eq), in_app_iff.
    rewrite !in_map_iff. split; intros [H|H].
    - left. destruct H as [[a b] [Hk Hin]]. simpl in Hk. subst. now exists b.
    - right. destruct H as [[a b] [Hk Hin]]. simpl in Hk. subst. now exists b.
    - left. destruct H as [v Hv]. now exists (k', v).
    - right. destruct H as [v Hv]. now exists (k', v). }
  assert (Hl : forall k' v, In v (Pandas.com_chave k' left) <-> In (k', v) left)
    by (intros; apply com_chave_In).
  assert (Hr : forall k' v, In v (Pandas.com_chave k' right) <-> In (k', v) right)
    by (intros; apply com_chave_In).
  split.
  - intros [k' [Hk Hrow]].
    destruct (Pandas.com_chave k' left) as [|a la] eqn:El;
      destruct (Pandas.com_chave k' right) as [|b lb] eqn:Er.
    + contradiction.
    + apply in_map_iff in Hrow. destruct Hrow as [w [Heq Hw]].
      inversion Heq; subst. split.
      * intros v1 Hv1. apply Hl in Hv1. rewrite El in Hv1. contradiction.
      * apply Hr. now rewrite Er.
    + apply in_map_iff in Hrow. destruct Hrow as [w [Heq Hw]].
      inversion Heq; subst. split.
      * apply Hl. now rewrite El.
      * intros v2 Hv2. apply Hr in Hv2. rewrite Er in Hv2. contradiction.
    + apply in_flat_map in Hrow. destruct Hrow as [w1 [Hw1 Hrow]].
      apply in_map_iff in Hrow. destruct Hrow as [w2 [Heq Hw2]].
      inversion Heq; subst. split.
      * apply Hl. now rewrite El.
      * apply Hr. now rewrite Er.
  - intros H. exists k.
    destruct o1 as [v1|]; destruct o2 as [v2|]; try contradiction;
      destruct H as [H1 H2].
    + split; [apply Hkeys; left; now exists v1|].
      apply Hl in H1. apply Hr in H2.
      destruct (Pandas.com_chave k left) as [|a la]; [contradiction|].
      destruct (Pandas.com_chave k right) as [|b lb]; [contradiction|].
      apply in_flat_map. exists v1. split; [assumption|].
      apply in_map_iff. now exists v2.
    + split; [apply Hkeys; left; now exists v1|].
      apply Hl in H1.
      destruct (Pandas.com_chave k left) as [|a la]; [contradiction|].
      destruct (Pandas.com_chave k right) as [|b lb] eqn:Er.
      * apply in_map_iff. now exists v1.
      * exfalso. apply (H2 b). apply Hr. rewrite Er. now left.
    + split; [apply Hkeys; right; now exists v2|].
      apply Hr in H2.
      destruct (Pandas.com_chave k left) as [|a la] eqn:El.
      * apply in_map_iff. now exists v2.
      * exfalso. apply (H1 a). apply Hl. rewrite El. now left.
Qed.

End MergeFacts.

(** ** The percentage variation *)

Lemma Qeq_bool_false (q : Q) : ~ (q == 0)%Q -> Qeq_bool q 0 = false.
Proof.
  intros H. destruct (Qeq_bool q 0) eqn:E; [|reflexivity].
  apply Qeq_bool_iff in E. contradiction.
Qed.

(** With a non-zero first period the variation is the finite value
    [(v2 - v1) / v1 * 100]. *)
Lemma variacao_pct_finite (v1 v2 : Q) :
  ~ (v1 == 0)%Q ->
  variacao_pct v1 v2 = Fin ((v2 - v1) / v1 * (100 # 1))%Q.
Proof.
  intros H. unfold variacao_pct. simpl. now rewrite (Qeq_bool_false v1 H).
Qed.

Lemma inject_Z_nonzero (z : Z) : z <> 0 -> ~ (inject_Z z == 0)%Q.
Proof.
  intros H E. apply H. unfold Qeq in E. simpl in E. lia.
Qed.

(** ** The comparison tables, row by row *)

Lemma mov_cliente_rows (p1 p2 : list (string * Z)) (row : MovCliente.comp) :
  In row (MovCliente.criar_grafico_comparativo p1 p2) <->
  exists k q1 q2,
    In (k, q1) p1 /\ In (k, q2) p2 /\
    row = MovCliente.mkComp k q1 q2 (q1 + q2)
            (variacao_pct (inject_Z q1) (inject_Z q2)).
Proof.
  unfold MovCliente.criar_grafico_comparativo.
  rewrite sort_values_In, in_map_iff. split.
  - intros [[k [q1 q2]] [Heq Hin]]. apply merge_inner_In in Hin.
    exists k, q1, q2. simpl in Heq. now repeat split.
  - intros [k [q1 [q2 [H1 [H2 ->]]]]]. exists (k, (q1, q2)).
    split; [reflexivity|]. now apply merge_inner_In.
Qed.

Lemma espera_rows (p1 p2 : list (string * tempos)) (row : comp_tempos) :
  In row (Espera.criar_grafico_comparativo p1 p2) <->
  exists k a b,
    In (k, a) p1 /\ In (k, b) p2 /\
    row = mkCompTempos k (media a) (contagem a) (media b) (contagem b) None
            (variacao_pct (media a) (media b)) (media a + media b)%Q.
Proof.
  unfold Espera.criar_grafico_comparativo.
  rewrite sort_values_In, in_map_iff. split.
  - intros [[k [a b]] [Heq Hin]]. apply merge_inner_In in Hin.
    exists k, a, b. simpl in Heq. now repeat split.
  - intros [k [a [b [H1 [H2 ->]]]]]. exists (k, (a, b)).
    split; [reflexivity|]. now apply merge_inner_In.
Qed.

Lemma tempo_atend_rows (p1 p2 : list (string * tempos))
    (dados_medias : option (list (string * option Q))) (row : comp_tempos) :
  In row (TempoAtend.criar_grafico_comparativo p1 p2 dados_medias) <->
  exists k a b meta,
    In (k, a) p1 /\ In (k, b) p2 /\ SpecVar.meta_de dados_medias k meta /\
    row = mkCompTempos k (media a) (contagem a) (media b) (contagem b) meta
            (variacao_pct (media a) (media b)) (media a + media b)%Q.
Proof.
  unfold TempoAtend.criar_grafico_comparativo.
  rewrite sort_values_In, in_map_iff. split.
  - intros [[k [[a b] meta]] [Heq Hin]]. simpl in Heq.
    exists k, a, b, meta. destruct dados_medias as [metas|].
    + apply merge_left_In in Hin. destruct Hin as [Hin Hm].
      apply merge_inner_In in Hin. destruct Hin as [H1 H2].
      repeat split; try assumption; try (now symmetry).
    + apply in_map_iff in Hin. destruct Hin as [[k' [a' b']] [Heq' Hin]].
      inversion Heq'; subst. apply merge_inner_In in Hin.
      destruct Hin as [H1 H2]. repeat split; try assumption; reflexivity.
  - intros [k [a [b [meta [H1 [H2 [Hm ->]]]]]]].
    exists (k, ((a, b), meta)). split; [reflexivity|].
    destruct dados_medias as [metas|].
    + apply merge_left_In. split; [now apply merge_inner_In|].
      destruct meta; exact Hm.
    + destruct meta; [contradiction|].
      apply in_map_iff. exists (k, (a, b)). split; [reflexivity|].
      now apply merge_inner_In.
Qed.

Lemma preenchido_Some (q : Q) : Ociosidade.preenchido (Some q) = Fin q.
Proof. reflexivity. Qed.

Lemma preenchido_None : Ociosidade.preenchido None = Fin 0.
Proof. reflexivity. Qed.

Lemma df_insights_rows (p1 p2 : list (string * Q)) (row : Ociosidade.comp) :
  In row (Ociosidade.df_insights p1 p2) <->
  exists k o1 o2,
    In (k, (o1, o2)) (Pandas.merge_outer p1 p2) /\
    row = Ociosidade.mkComp k (Ociosidade.preenchido o1) (Ociosidade.preenchido o2)
            (Ociosidade.variacao_de (Ociosidade.preenchido o1) (Ociosidade.preenchido o2)).
Proof.
  unfold Ociosidade.df_insights. rewrite in_map_iff. split.
  - intros [[k [o1 o2]] [Heq Hin]]. exists k, o1, o2. now split.
  - intros [k [o1 [o2 [Hin ->]]]]. now exists (k, (o1, o2)).
Qed.

(** The chart table has the rows of the insights table, in another order. *)
Lemma criar_grafico_ociosidade_rows (p1 p2 : list (string * Q)) (row : Ociosidade.comp) :
  In row (Ociosidade.criar_grafico_comparativo p1 p2) <->
  In row (Ociosidade.df_insights p1 p2).
Proof.
  unfold Ociosidade.criar_grafico_comparativo, Ociosidade.df_insights.
  rewrite !in_map_iff. split.
  - intros [[k [t1 t2]] [Heq Hin]]. apply sort_values_In in Hin.
    apply in_map_iff in Hin. destruct Hin as [[k' [o1 o2]] [Heq' Hin]].
    exists (k', (o1, o2)). split; [|assumption].
    simpl in *. inversion Heq'; subst. reflexivity.
  - intros [[k [o1 o2]] [Heq Hin]].
    exists (k, (Ociosidade.preenchido o1, Ociosidade.preenchido o2)).
    split; [exact Heq|]. apply sort_values_In.
    apply in_map_iff. now exists (k, (o1, o2)).
Qed.

Lemma variacao_ociosidade_finite (m1 m2 : Q) :
  ~ (m1 == 0)%Q ->
  Ociosidade.variacao_de (Fin m1) (Fin m2) = Fin (SpecVar.variacao m1 m2).
Proof.
  intros H. unfold Ociosidade.variacao_de. simpl.
  now rewrite (Qeq_bool_false m1 H).
Qed.

(** ** Period-over-period variation *)

(** C7.  In the client-movement, wait-time, service-time and idleness
    comparisons, a key with a metric in both periods has a row, and in
    every row whose period-1 value m1 is not zero the variation is
    (m2 - m1) / m1 * 100, m1 and m2 being the values of the row's key in
    the two periods. *)
Theorem variation_is_relative_change_from_period1 :
  (forall (p1 p2 : list (string * Z)) k m1 m2,
     In (k, m1) p1 -> In (k, m2) p2 ->
     exists row, In row (MovCliente.criar_grafico_comparativo p1 p2) /\
       MovCliente.cliente row = k /\ MovCliente.quantidade_p1 row = m1 /\
       MovCliente.quantidade_p2 row = m2) /\
  (forall (p1 p2 : list (string * Z)) row,
     In row (MovCliente.criar_grafico_comparativo p1 p2) ->
     In (MovCliente.cliente row, MovCliente.quantidade_p1 row) p1 /\
     In (MovCliente.cliente row, MovCliente.quantidade_p2 row) p2 /\
     (MovCliente.quantidade_p1 row <> 0 ->
      MovCliente.variacao row
      = Fin (SpecVar.variacao (inject_Z (MovCliente.quantidade_p1 row))
                              (inject_Z (MovCliente.quantidade_p2 row))))) /\
  (forall (p1 p2 : list (string * tempos)) metas k a b,
     In (k, a) p1 -> In (k, b) p2 ->
     (exists row, In row (Espera.criar_grafico_comparativo p1 p2) /\
        ct_chave row = k /\ media_p1 row = media a /\ media_p2 row = media b) /\
     (exists row, In row (TempoAtend.criar_grafico_comparativo p1 p2 metas) /\
        ct_chave row = k /\ media_p1 row = media a /\ media_p2 row = media b)) /\
  (forall (p1 p2 : list (string * tempos)) metas row,
     In row (Espera.criar_grafico_comparativo p1 p2) \/
     In row (TempoAtend.criar_grafico_comparativo p1 p2 metas) ->
     In (ct_chave row, mkTempos (media_p1 row) (contagem_p1 row)) p1 /\
     In (ct_chave row, mkTempos (media_p2 row) (contagem_p2 row)) p2 /\
     (~ (media_p1 row == 0)%Q ->
      ct_variacao row = Fin (SpecVar.variacao (media_p1 row) (media_p2 row)))) /\
  (forall (p1 p2 : list (string * Q)) k m1 m2,
     In (k, m1) p1 -> In (k, m2) p2 -> ~ (m1 == 0)%Q ->
     In (Ociosidade.mkComp k (Fin m1) (Fin m2) (Fin (SpecVar.variacao m1 m2)))
        (Ociosidade.df_insights p1 p2) /\
     In (Ociosidade.mkComp k (Fin m1) (Fin m2) (Fin (SpecVar.variacao m1 m2)))
        (Ociosidade.criar_grafico_comparativo p1 p2)).
Proof.
  repeat match goal with |- _ /\ _ => split end.
  - intros p1 p2 k m1 m2 H1 H2. eexists. split.
    + apply mov_cliente_rows. exists k, m1, m2. repeat split; eassumption.
    + simpl. auto.
  - intros p1 p2 row Hrow. apply mov_cliente_rows in Hrow.
    destruct Hrow as [k [q1 [q2 [H1 [H2 ->]]]]]. simpl.
    repeat split; try assumption.
    intros Hq. apply variacao_pct_finite. now apply inject_Z_nonzero.
  - intros p1 p2 metas k a b H1 H2. split.
    + eexists. split.
      * apply espera_rows. exists k, a, b. repeat split; eassumption.
      * simpl. auto.
    + assert (Hm : exists meta, SpecVar.meta_de metas k meta).
      { destruct metas as [ms|]; [|now exists None].
        destruct (Pandas.com_chave k ms) as [|v rest] eqn:E.
        - exists None. simpl. intros v Hv. apply com_chave_In in Hv.
          rewrite E in Hv. contradiction.
        - exists (Some v). simpl. apply com_chave_In. rewrite E. now left. }
      destruct Hm as [meta Hm]. eexists. split.
      * apply tempo_atend_rows. exists k, a, b, meta. repeat split; eassumption.
      * simpl. auto.
  - intros p1 p2 metas row H.
    assert (Hrow : exists k a b meta, In (k, a) p1 /\ In (k, b) p2 /\
              row = mkCompTempos k (media a) (contagem a) (media b) (contagem b) meta
                      (variacao_pct (media a) (media b)) (media a + media b)%Q).
    { destruct H as [Hrow|Hrow].
      - apply espera_rows in Hrow. destruct Hrow as [k [a [b [H1 [H2 ->]]]]].
        now exists k, a, b, None.
      - apply tempo_atend_rows in Hrow.
        destruct Hrow as [k [a [b [meta [H1 [H2 [_ ->]]]]]]].
        now exists k, a, b, meta. }
    destruct Hrow as [k [[ma ca] [[mb cb] [meta [H1 [H2 ->]]]]]]. simpl.
    repeat split; try assumption.
    intros Hne. now apply variacao_pct_finite.
  - intros p1 p2 k m1 m2 H1 H2 Hne. split.
    + apply df_insights_rows. exists k, (Some m1), (Some m2). split.
      * apply merge_outer_In. now split.
      * rewrite !preenchido_Some. now rewrite variacao_ociosidade_finite.
    + apply criar_grafico_ociosidade_rows, df_insights_rows.
      exists k, (Some m1), (Some m2). split.
      * apply merge_outer_In. now split.
      * rewrite !preenchido_Some. now rewrite variacao_ociosidade_finite.
Qed.

(** ** Client movement: the division is safe *)

Lemma calcular_movimentacao_rows (df : DataFrame) (filtros : Filtros.t)
    (p : Filtros.nome_periodo) (k : string) (q : Z) :
  In (k, q) (MovCliente.calcular_movimentacao_por_periodo df filtros p) <->
  (exists r, In r df /\ Filtros.mask_periodo filtros p r = true /\ CLIENTE r = Some k) /\
  q = Z.of_nat (List.length
                  (filter (fun r => Pandas.eq_opt (CLIENTE r) k)
                          (filter (Filtros.mask_periodo filtros p) df))).
Proof.
  unfold MovCliente.calcular_movimentacao_por_periodo.
  rewrite in_map_iff. split.
  - intros [[k' g] [Heq Hin]]. simpl in Heq. inversion Heq; subst.
    apply (groupby_In String.eqb String.leb string_eqb_eq) in Hin.
    destruct Hin as [[r [Hr Hk]] ->]. apply filter_In in Hr. split.
    + exists r. tauto.
    + rewrite length_map. unfold Pandas.grupo_de. f_equal. f_equal.
      apply filter_ext. intros x. unfold Pandas.eq_opt.
      destruct (CLIENTE x); [apply String.eqb_sym | reflexivity].
  - intros [[r [Hr [Hm Hk]]] ->].
    exists (k, Pandas.grupo_de String.eqb CLIENTE k
                 (filter (Filtros.mask_periodo filtros p) df)).
    split.
    + simpl. rewrite length_map. unfold Pandas.grupo_de. f_equal. f_equal. f_equal.
      apply filter_ext. intros x. unfold Pandas.eq_opt.
      destruct (CLIENTE x); [apply String.eqb_sym | reflexivity].
    + apply (groupby_In String.eqb String.leb string_eqb_eq). split; [|reflexivity].
      exists r. split; [|assumption]. apply filter_In. now split.
Qed.

Lemma calcular_movimentacao_pos (df : DataFrame) (filtros : Filtros.t)
    (p : Filtros.nome_periodo) (k : string) (q : Z) :
  In (k, q) (MovCliente.calcular_movimentacao_por_periodo df filtros p) -> 1 <= q.
Proof.
  unfold MovCliente.calcular_movimentacao_por_periodo.
  rewrite in_map_iff. intros [[k' g] [Heq Hin]]. simpl in Heq.
  apply (groupby_nonempty String.eqb String.leb string_eqb_eq) in Hin.
  inversion Heq; subst. rewrite length_map. lia.
Qed.

(** C9.  Every row of [calcular_movimentacao_por_periodo] counts at least
    one ticket of its client in the period; the comparison table holds
    exactly the clients that have a row in both periods; hence
    quantidade_p1 is at least 1 in each of its rows and the variation is
    the finite quotient, never the result of a division by zero. *)
Theorem mov_cliente_never_divides_by_zero (df : DataFrame) (filtros : Filtros.t) :
  let mov_p1 := MovCliente.calcular_movimentacao_por_periodo df filtros Filtros.periodo1 in
  let mov_p2 := MovCliente.calcular_movimentacao_por_periodo df filtros Filtros.periodo2 in
  let df_comp := MovCliente.criar_grafico_comparativo mov_p1 mov_p2 in
  (forall p k q,
     In (k, q) (MovCliente.calcular_movimentacao_por_periodo df filtros p) ->
     1 <= q /\
     exists r, In r df /\ Filtros.mask_periodo filtros p r = true /\ CLIENTE r = Some k) /\
  (forall k,
     (exists row, In row df_comp /\ MovCliente.cliente row = k) <->
     (exists q1, In (k, q1) mov_p1) /\ (exists q2, In (k, q2) mov_p2)) /\
  (forall row, In row df_comp ->
     1 <= MovCliente.quantidade_p1 row /\
     MovCliente.variacao row
     = Fin (SpecVar.variacao (inject_Z (MovCliente.quantidade_p1 row))
                             (inject_Z (MovCliente.quantidade_p2 row)))).
Proof.
  intros mov_p1 mov_p2 df_comp.
  repeat match goal with |- _ /\ _ => split end.
  - intros p k q Hin. split.
    + eapply calcular_movimentacao_pos; eassumption.
    + apply calcular_movimentacao_rows in Hin. tauto.
  - intros k. unfold df_comp. split.
    + intros [row [Hrow Hk]]. apply mov_cliente_rows in Hrow.
      destruct Hrow as [k' [q1 [q2 [H1 [H2 ->]]]]]. simpl in Hk. subst k'.
      split; eauto.
    + intros [[q1 H1] [q2 H2]]. eexists. split.
      * apply mov_cliente_rows. exists k, q1, q2. repeat split; eassumption.
      * reflexivity.
  - intros row Hrow. apply mov_cliente_rows in Hrow.
    destruct Hrow as [k [q1 [q2 [H1 [H2 ->]]]]]. simpl.
    pose proof (calcular_movimentacao_pos _ _ _ _ _ H1) as Hpos.
    split; [assumption|].
    apply variacao_pct_finite, inject_Z_nonzero. lia.
Qed.

(** ** Idleness comparison: outer join and the replaced infinity *)

Lemma variacao_de_inf (m1 m2 : Q) :
  (m1 == 0)%Q -> (0 < m2)%Q ->
  Ociosidade.variacao_de (Fin m1) (Fin m2) = Fin (100 # 1).
Proof.
  intros H1 H2. unfold Ociosidade.variacao_de. simpl.
  assert (E : Qeq_bool m1 0 = true) by now apply Qeq_bool_iff.
  rewrite E. unfold Float.inf_sinal.
  destruct (Qlt_le_dec 0 (m2 + - m1)) as [_|Hle].
  - simpl. unfold Float.inf_sinal.
    destruct (Qlt_le_dec 0 (100 # 1)) as [_|Habs]; [reflexivity|].
    exfalso. revert Habs. unfold Qle. simpl. lia.
  - exfalso. rewrite H1 in Hle.
    apply (Qlt_irrefl 0). eapply Qlt_le_trans; [exact H2|].
    now rewrite Qplus_0_r in Hle.
Qed.

(** C10.  The idleness tables hold one row for every collaborator of either
    period; a collaborator missing from one period has idle time 0 there;
    and a row with period-1 idle time 0 and positive period-2 idle time
    has variation exactly 100.  The chart table and the insights table have
    the same rows. *)
Theorem ociosidade_outer_join_and_inf_replaced (p1 p2 : list (string * Q)) :
  let df_insights := Ociosidade.df_insights p1 p2 in
  (forall row, In row (Ociosidade.criar_grafico_comparativo p1 p2) <->
               In row df_insights) /\
  (forall k, (exists row, In row df_insights /\ Ociosidade.c_colaborador row = k) <->
             In k (map fst p1) \/ In k (map fst p2)) /\
  (forall k m2, ~ In k (map fst p1) -> In (k, m2) p2 ->
     exists row, In row df_insights /\ Ociosidade.c_colaborador row = k /\
       Ociosidade.tempo_ocioso_p1 row = Fin 0 /\
       Ociosidade.tempo_ocioso_p2 row = Fin m2) /\
  (forall k m1, In (k, m1) p1 -> ~ In k (map fst p2) ->
     exists row, In row df_insights /\ Ociosidade.c_colaborador row = k /\
       Ociosidade.tempo_ocioso_p1 row = Fin m1 /\
       Ociosidade.tempo_ocioso_p2 row = Fin 0) /\
  (forall row m1 m2, In row df_insights ->
     Ociosidade.tempo_ocioso_p1 row = Fin m1 ->
     Ociosidade.tempo_ocioso_p2 row = Fin m2 ->
     (m1 == 0)%Q -> (0 < m2)%Q ->
     Ociosidade.variacao row = Fin (100 # 1)).
Proof.
  intros df_insights.
  assert (Hfst : forall {V} k (l : list (string * V)),
             In k (map fst l) <-> exists v, In (k, v) l).
  { intros V k l. rewrite in_map_iff. split.
    - intros [[a b] [Hk Hin]]. simpl in Hk. subst. now exists b.
    - intros [v Hv]. now exists (k, v). }
  repeat match goal with |- _ /\ _ => split end.
  - intros row. apply criar_grafico_ociosidade_rows.
  - intros k. rewrite !Hfst. unfold df_insights. split.
    + intros [row [Hrow Hk]]. apply df_insights_rows in Hrow.
      destruct Hrow as [k' [o1 [o2 [Hin ->]]]]. simpl in Hk. subst k'.
      apply merge_outer_In in Hin.
      destruct o1 as [v1|]; destruct o2 as [v2|]; try contradiction;
        destruct Hin as [H1 H2]; eauto.
    + intros H.
      assert (Hex : exists o1 o2, In (k, (o1, o2)) (Pandas.merge_outer p1 p2)).
      { destruct (Pandas.com_chave k p1) as [|a la] eqn:E1;
          destruct (Pandas.com_chave k p2) as [|b lb] eqn:E2.
        - exfalso. destruct H as [[v Hv]|[v Hv]]; apply com_chave_In in Hv.
          + rewrite E1 in Hv. contradiction.
          + rewrite E2 in Hv. contradiction.
        - exists None, (Some b). apply merge_outer_In. split.
          + intros v Hv. apply com_chave_In in Hv. rewrite E1 in Hv. contradiction.
          + apply com_chave_In. rewrite E2. now left.
        - exists (Some a), None. apply merge_outer_In. split.
          + apply com_chave_In. rewrite E1. now left.
          + intros v Hv. apply com_chave_In in Hv. rewrite E2 in Hv. contradiction.
        - exists (Some a), (Some b). apply merge_outer_In. split.
          + apply com_chave_In. rewrite E1. now left.
          + apply com_chave_In. rewrite E2. now left. }
      destruct Hex as [o1 [o2 Hin]]. eexists. split.
      * apply df_insights_rows. exists k, o1, o2. split; [exact Hin | reflexivity].
      * reflexivity.
  - intros k m2 Hno Hin. eexists. split.
    + apply df_insights_rows. exists k, None, (Some m2). split; [|reflexivity].
      apply merge_outer_In. split; [|assumption].
      intros v Hv. apply Hno. apply Hfst. now exists v.
    + simpl. auto.
  - intros k m1 Hin Hno. eexists. split.
    + apply df_insights_rows. exists k, (Some m1), None. split; [|reflexivity].
      apply merge_outer_In. split; [assumption|].
      intros v Hv. apply Hno. apply Hfst. now exists v.
    + simpl. auto.
  - intros row m1 m2 Hrow E1 E2 Hz Hpos. apply df_insights_rows in Hrow.
    destruct Hrow as [k [o1 [o2 [_ ->]]]]. simpl in *.
    rewrite E1, E2. now apply variacao_de_inf.
Qed.

Example ociosidade_comparison_example :
  Ociosidade.df_insights [("ana", 300 # 1); ("bia", 120 # 1)]%Q
                         [("ana", 450 # 1); ("rui", 60 # 1)]%Q
  = [ Ociosidade.mkComp "ana" (Fin (300 # 1)) (Fin (450 # 1))
        (Fin (((450 # 1) + - (300 # 1)) / (300 # 1) * (100 # 1))%Q);
      Ociosidade.mkComp "bia" (Fin (120 # 1)) (Fin 0)
        (Fin ((0 + - (120 # 1)) / (120 # 1) * (100 # 1))%Q);
      Ociosidade.mkComp "rui" (Fin 0) (Fin (60 # 1)) (Fin (100 # 1)) ].
Proof. reflexivity. Qed.

(** Clients of the sample days: ACME has three tickets on the first day
    and two on the second, BETA two on the first day only. *)
Example mov_cliente_example :
  let filtros :=
    Filtros.mkFiltros (Filtros.mkPeriodo 20000 20000) (Filtros.mkPeriodo 20001 20001)
                      ["Todos"] ["Todas"] ["Todos"] None None in
  let mov_p1 := MovCliente.calcular_movimentacao_por_periodo Exemplos.dois_dias filtros
                  Filtros.periodo1 in
  let mov_p2 := MovCliente.calcular_movimentacao_por_periodo Exemplos.dois_dias filtros
                  Filtros.periodo2 in
  mov_p1 = [("ACME", 3); ("BETA", 2)] /\
  mov_p2 = [("ACME", 2)] /\
  MovCliente.criar_grafico_comparativo mov_p1 mov_p2
  = [ MovCliente.mkComp "ACME" 3 2 5
        (Fin (((2 # 1) + - (3 # 1)) / (3 # 1) * (100 # 1))%Q) ].
Proof. vm_compute. repeat split. Qed.

(** The formula itself divides by zero when handed a zero count, which the
    grouping never produces. *)
Example variacao_pct_zero :
  variacao_pct 0 (5 # 1) = Inf /\ variacao_pct 0 0 = NaN.
Proof. vm_compute. split; reflexivity. Qed.

(** ** Gates per hour (calcular_gates_hora) *)

Section SerieFacts.
Context {V : Type}.

Lemma find_chave_Some (s : list (Z * V)) (h : Z) (v : V) :
  NoDup (map fst s) -> In (h, v) s ->
  find (fun kv => fst kv =? h) s = Some (h, v).
Proof.
  induction s as [|[k w] t IH]; simpl; intros Hnd Hin; [contradiction|].
  inversion Hnd as [|? ? Hnotin Hnd']; subst.
  destruct Hin as [Heq|Hin].
  - inversion Heq; subst. now rewrite Z.eqb_refl.
  - destruct (k =? h) eqn:E.
    + apply Z.eqb_eq in E. subst k. exfalso. apply Hnotin.
      apply in_map_iff. now exists (h, v).
    + now apply IH.
Qed.

Lemma find_chave_None (s : list (Z * V)) (h : Z) :
  ~ In h (map fst s) -> find (fun kv => fst kv =? h) s = None.
Proof.
  induction s as [|[k w] t IH]; simpl; intros Hn; [reflexivity|].
  destruct (k =? h) eqn:E.
  - apply Z.eqb_eq in E. subst. exfalso. apply Hn. now left.
  - apply IH. intros Hin. apply Hn. now right.
Qed.

End SerieFacts.

Lemma Z_eqb_eq' (x y : Z) : (x =? y) = true <-> x = y.
Proof. apply Z.eqb_eq. Qed.

(** A count per hour, looked up and filled: the count of the hour's rows
    when there are any, else 0. *)
Lemma map_serie_groupby (val : list registro -> Z) (df : DataFrame) (h : Z) :
  let recs := filter (SpecGates.inicia_na_hora h) df in
  GatesHora.map_serie
    (map (fun kg => (fst kg, val (snd kg)))
         (Pandas.groupby Z.eqb Z.leb
            (fun r : registro => Some (Tempo.hour (inicio r))) df)) h
  = match recs with [] => NaN | _ :: _ => Float.of_Z (val recs) end.
Proof.
  intros recs. unfold GatesHora.map_serie.
  set (key := fun r : registro => Some (Tempo.hour (inicio r))).
  assert (Hrecs : Pandas.grupo_de Z.eqb key h df = recs).
  { unfold recs, Pandas.grupo_de, key, SpecGates.inicia_na_hora.
    apply filter_ext. intros r. apply Z.eqb_sym. }
  set (s := map (fun kg => (fst kg, val (snd kg))) (Pandas.groupby Z.eqb Z.leb key df)).
  assert (Hnd : NoDup (map fst s)).
  { unfold s. rewrite map_map. simpl.
    apply (groupby_keys_NoDup Z.eqb Z.leb Z_eqb_eq'). }
  destruct recs as [|r0 rest] eqn:Er.
  - rewrite find_chave_None; [reflexivity|].
    unfold s. rewrite map_map. simpl. intros Hin.
    apply in_map_iff in Hin. destruct Hin as [[k g] [Hk Hin]]. simpl in Hk. subst k.
    apply (groupby_In Z.eqb Z.leb Z_eqb_eq') in Hin.
    destruct Hin as [[r [Hr Hkey]] _].
    assert (Hin : In r (Pandas.grupo_de Z.eqb key h df))
      by now apply (grupo_de_In Z.eqb Z_eqb_eq').
    rewrite Hrecs in Hin. contradiction.
  - rewrite (find_chave_Some s h (val (r0 :: rest)) Hnd); [reflexivity|].
    unfold s. apply in_map_iff.
    exists (h, Pandas.grupo_de Z.eqb key h df). split.
    + simpl. now rewrite Hrecs.
    + apply (groupby_In Z.eqb Z.leb Z_eqb_eq'). split; [|reflexivity].
      assert (Hin : In r0 (Pandas.grupo_de Z.eqb key h df))
        by (rewrite Hrecs; now left).
      apply (grupo_de_In Z.eqb Z_eqb_eq') in Hin. exists r0. exact Hin.
Qed.

(** [unique] and [nodup] keep the same values, once each. *)
Lemma length_unique_nodup (l : list Z) :
  List.length (Pandas.unique Z.eqb l) = List.length (nodup Z.eq_dec l).
Proof.
  apply Permutation_length, NoDup_Permutation.
  - apply unique_NoDup, Z_eqb_eq'.
  - apply NoDup_nodup.
  - intros x. now rewrite (unique_In Z.eqb Z_eqb_eq'), nodup_In.
Qed.

Lemma nodup_nonempty (l : list Z) :
  l <> [] -> (0 < List.length (nodup Z.eq_dec l))%nat.
Proof.
  destruct l as [|x t]; [congruence|]. intros _.
  assert (Hin : In x (nodup Z.eq_dec (x :: t))) by (apply nodup_In; now left).
  destruct (nodup Z.eq_dec (x :: t)); [contradiction | simpl; lia].
Qed.

Lemma gates_filtrar_In (df : DataFrame) (filtros : Filtros.t)
    (cliente operacao : option string) (data_especifica : option Z) (r : registro) :
  In r (GatesHora.filtrar df filtros cliente operacao data_especifica) <->
  In r df /\ SpecGates.selecionado filtros cliente operacao data_especifica r.
Proof.
  unfold GatesHora.filtrar, SpecGates.selecionado. cbv zeta.
  assert (Hd : forall (arg : option string) (col : option string),
             (match GatesHora.dado arg with
              | Some c => Pandas.eq_opt col c = true
              | None => True
              end) <-> (forall c, arg = Some c -> c <> "" -> col = Some c)).
  { intros arg col. unfold GatesHora.dado. destruct arg as [s|].
    - destruct (String.eqb s "") eqn:E.
      + apply String.eqb_eq in E. subst. split; [|trivial].
        intros _ c [= <-] Hc. congruence.
      + apply String.eqb_neq in E. unfold Pandas.eq_opt. split.
        * intros H c [= <-] _. destruct col as [x|]; [|discriminate].
          apply String.eqb_eq in H. now subst.
        * intros H. rewrite (H s eq_refl E). apply String.eqb_refl.
    - split; [|trivial]. intros _ c Hc. discriminate. }
  rewrite <- (Hd cliente (CLIENTE r)), <- (Hd operacao (OPERACAO r)).
  assert (Hmask : (match data_especifica with
                   | Some d => Tempo.date (retirada r) =? d
                   | None => Filtros.mask_periodo filtros Filtros.periodo2 r
                   end) = true <->
                  match data_especifica with
                  | Some d => Tempo.date (retirada r) = d
                  | None => Filtros.inicio (Filtros.p2 filtros) <= Tempo.date (retirada r)
                            <= Filtros.fim (Filtros.p2 filtros)
                  end).
  { destruct data_especifica as [d|].
    - now rewrite Z.eqb_eq.
    - unfold Filtros.mask_periodo. simpl.
      now rewrite andb_true_iff, !Z.leb_le. }
  rewrite <- Hmask.
  destruct (GatesHora.dado cliente) as [c|];
    destruct (GatesHora.dado operacao) as [o|];
    rewrite ?filter_In; cbv beta; tauto.
Qed.

Lemma metrica_da_hora (df_filtrado : DataFrame) (h : Z) :
  let recs := filter (SpecGates.inicia_na_hora h) df_filtrado in
  let g := Float.fillna 0 (GatesHora.map_serie (GatesHora.gates_por_hora df_filtrado) h) in
  let a := Float.fillna 0 (GatesHora.map_serie (GatesHora.atendimentos_hora df_filtrado) h) in
  g = Float.of_Z (SpecGates.guiches_distintos recs) /\
  a = Float.of_Z (Z.of_nat (List.length recs)) /\
  (0 < SpecGates.guiches_distintos recs ->
   Float.fillna 0 (Float.div a g)
   = Fin (inject_Z (Z.of_nat (List.length recs))
          / inject_Z (SpecGates.guiches_distintos recs))%Q) /\
  (recs = [] -> Float.fillna 0 (Float.div a g) = Fin 0).
Proof.
  intros recs g a.
  assert (Hg : GatesHora.map_serie (GatesHora.gates_por_hora df_filtrado) h
               = match recs with
                 | [] => NaN
                 | _ :: _ => Float.of_Z (SpecGates.guiches_distintos recs)
                 end).
  { pose proof (map_serie_groupby
                  (fun grp => Z.of_nat (List.length
                     (Pandas.unique Z.eqb (map (fun r : registro => guiche r) grp))))
                  df_filtrado h) as H.
    cbv zeta in H. fold recs in H. unfold GatesHora.gates_por_hora. rewrite H.
    destruct recs; [reflexivity|].
    unfold SpecGates.guiches_distintos. now rewrite length_unique_nodup. }
  assert (Ha : GatesHora.map_serie (GatesHora.atendimentos_hora df_filtrado) h
               = match recs with
                 | [] => NaN
                 | _ :: _ => Float.of_Z (Z.of_nat (List.length recs))
                 end).
  { pose proof (map_serie_groupby
                  (fun grp => Z.of_nat (List.length (map (fun r : registro => id r) grp)))
                  df_filtrado h) as H.
    cbv zeta in H. fold recs in H. unfold GatesHora.atendimentos_hora. rewrite H.
    destruct recs; [reflexivity|]. now rewrite length_map. }
  unfold g, a. rewrite Hg, Ha. clear Hg Ha g a.
  destruct recs as [|r0 rest] eqn:E.
  - split; [reflexivity|]. split; [reflexivity|]. split.
    + unfold SpecGates.guiches_distintos. simpl. lia.
    + reflexivity.
  - assert (Hpos : 0 < SpecGates.guiches_distintos (r0 :: rest)).
    { unfold SpecGates.guiches_distintos.
      assert (0 < List.length (nodup Z.eq_dec
                  (map (fun r : registro => guiche r) (r0 :: rest))))%nat
        by (apply nodup_nonempty; discriminate).
      lia. }
    split; [reflexivity|]. split; [reflexivity|]. split.
    + intros _. unfold Float.of_Z. cbn [Float.fillna Float.div].
      rewrite Qeq_bool_false; [reflexivity|].
      apply inject_Z_nonzero. lia.
    + discriminate.
Qed.

(** C4.  [metricas_hora] has one row for each hour 0..23.  In the row of
    hour h, gates_ativos is the number of distinct guichês among the
    selected records whose service starts in hour h, atendimentos is the
    number of those records, and media_atendimentos_gate is their quotient
    when gates_ativos is positive and 0 when no service starts in hour h. *)
Theorem gates_hora_counts_per_hour (df : DataFrame) (filtros : Filtros.t)
    (cliente operacao : option string) (data_especifica : option Z) :
  let res := GatesHora.calcular_gates_hora df filtros cliente operacao data_especifica in
  let metricas_hora := fst res in
  let df_filtrado := snd res in
  (forall r, In r df_filtrado <->
     In r df /\ SpecGates.selecionado filtros cliente operacao data_especifica r) /\
  map GatesHora.hora metricas_hora = map Z.of_nat (seq 0 24) /\
  (forall h, 0 <= h <= 23 ->
     exists row, In row metricas_hora /\ GatesHora.hora row = h) /\
  (forall row, In row metricas_hora ->
     let recs := filter (SpecGates.inicia_na_hora (GatesHora.hora row)) df_filtrado in
     GatesHora.gates_ativos row = Float.of_Z (SpecGates.guiches_distintos recs) /\
     GatesHora.atendimentos row = Float.of_Z (Z.of_nat (List.length recs)) /\
     (0 < SpecGates.guiches_distintos recs ->
      GatesHora.media_atendimentos_gate row
      = Fin (inject_Z (Z.of_nat (List.length recs))
             / inject_Z (SpecGates.guiches_distintos recs))%Q) /\
     (recs = [] -> GatesHora.media_atendimentos_gate row = Fin 0)).
Proof.
  intros res metricas_hora df_filtrado.
  unfold res, GatesHora.calcular_gates_hora in metricas_hora, df_filtrado.
  cbn [fst snd] in metricas_hora, df_filtrado.
  repeat match goal with |- _ /\ _ => split end.
  - intros r. apply gates_filtrar_In.
  - unfold metricas_hora. rewrite map_map. reflexivity.
  - intros h Hh. unfold metricas_hora.
    eexists. split.
    + apply in_map_iff. exists (Z.to_nat h). split; [reflexivity|].
      apply in_seq. lia.
    + cbn [GatesHora.hora]. lia.
  - intros row Hrow. unfold metricas_hora in Hrow.
    apply in_map_iff in Hrow. destruct Hrow as [n [<- _]].
    cbn [GatesHora.hora GatesHora.gates_ativos GatesHora.atendimentos
         GatesHora.media_atendimentos_gate].
    apply (metrica_da_hora df_filtrado (Z.of_nat n)).
Qed.

Example gates_hora_example :
  let df := [ Exemplos.atendimento 1 "ana" 1 "ACME" "CARGA"
                (Exemplos.ts 20000 8 0 0) (Exemplos.ts 20000 8 5 0) (Exemplos.ts 20000 8 10 0);
              Exemplos.atendimento 2 "rui" 2 "ACME" "CARGA"
                (Exemplos.ts 20000 8 1 0) (Exemplos.ts 20000 8 20 0) (Exemplos.ts 20000 8 30 0);
              Exemplos.atendimento 3 "ana" 1 "BETA" "CARGA"
                (Exemplos.ts 20000 8 40 0) (Exemplos.ts 20000 8 50 0) (Exemplos.ts 20000 8 55 0);
              Exemplos.atendimento 4 "ana" 1 "ACME" "CARGA"
                (Exemplos.ts 20000 8 58 0) (Exemplos.ts 20000 9 2 0) (Exemplos.ts 20000 9 9 0) ] in
  let metricas := fst (GatesHora.calcular_gates_hora df Exemplos.filtros None None None) in
  nth_error metricas 8
  = Some (GatesHora.mkMetrica 8 (Fin (2 # 1)) (Fin (3 # 1)) (Fin ((3 # 1) / (2 # 1))%Q)) /\
  nth_error metricas 9
  = Some (GatesHora.mkMetrica 9 (Fin (1 # 1)) (Fin (1 # 1)) (Fin ((1 # 1) / (1 # 1))%Q)) /\
  nth_error metricas 10 = Some (GatesHora.mkMetrica 10 (Fin 0) (Fin 0) (Fin 0)).
Proof. vm_compute. repeat split. Qed.

(** ** Idle time between services (calcular_ociosidade_por_periodo) *)

Lemma intervalos_de_gaps (l : list registro) :
  Ociosidade.intervalos_de l = filter SpecOcio.gap_valido (SpecOcio.gaps l).
Proof.
  induction l as [|a t IH]; [reflexivity|].
  destruct t as [|b t']; [reflexivity|].
  change (Ociosidade.intervalos_de (a :: b :: t'))
    with (let intervalo := inicio b - fim a in
          if (0 <? intervalo) && (intervalo <=? 7200)
          then intervalo :: Ociosidade.intervalos_de (b :: t')
          else Ociosidade.intervalos_de (b :: t')).
  change (SpecOcio.gaps (a :: b :: t'))
    with ((inicio b - fim a) :: SpecOcio.gaps (b :: t')).
  cbv zeta. cbn [filter]. unfold SpecOcio.gap_valido at 1.
  rewrite IH. reflexivity.
Qed.

Lemma fold_left_max_ge (t : list Z) (x : Z) :
  x <= fold_left Z.max t x /\ Forall (fun y => y <= fold_left Z.max t x) t.
Proof.
  revert x. induction t as [|y t IH]; intros x; simpl.
  - split; [lia | constructor].
  - destruct (IH (Z.max x y)) as [H1 H2]. split; [lia|].
    constructor; [lia | exact H2].
Qed.

Lemma fold_left_max_In (t : list Z) (x : Z) :
  fold_left Z.max t x = x \/ In (fold_left Z.max t x) t.
Proof.
  revert x. induction t as [|y t IH]; intros x; simpl; [now left|].
  destruct (IH (Z.max x y)) as [H|H]; [|now right; right].
  rewrite H. destruct (Z.max_spec x y) as [[_ ->]|[_ ->]]; auto.
Qed.




Lemma maximo_In (l : list Z) : l <> [] -> In (Ociosidade.maximo l) l.
Proof.
  destruct l as [|x t]; [congruence|]. intros _. simpl.
  destruct (fold_left_max_In t x) as [->|H]; auto.
Qed.











Lemma lista_eqb_eq (l1 l2 : list string) : Pandas.lista_eqb l1 l2 = true <-> l1 = l2.
Proof.
  unfold Pandas.lista_eqb. destruct (list_eq_dec string_dec l1 l2); split;
    intros; congruence.
Qed.

Lemma lista_neq (l1 l2 : list string) :
  negb (Pandas.lista_eqb l1 l2) = true <-> l1 <> l2.
Proof.
  rewrite negb_true_iff. unfold Pandas.lista_eqb.
  destruct (list_eq_dec string_dec l1 l2); split; intros; congruence.
Qed.

Lemma isin_opt_In (s : option string) (values : list string) :
  Pandas.isin_opt s values = true <-> exists c, s = Some c /\ In c values.
Proof.
  destruct s as [c|]; simpl.
  - rewrite isin_In. split.
    + intros H. now exists c.
    + intros [c' [[= <-] H]]. exact H.
  - split; [discriminate | intros [c [H _]]; discriminate].
Qed.

(** A filter applied only when its switch is on. *)
Lemma filtro_opcional (b : bool) (f : registro -> bool) (l : DataFrame) (r : registro) :
  In r (if b then filter f l else l) <-> In r l /\ (b = true -> f r = true).
Proof.
  destruct b.
  - rewrite filter_In. intuition.
  - intuition discriminate.
Qed.

Lemma ocio_filtrar_In (df : DataFrame) (filtros : Filtros.t)
    (p : Filtros.nome_periodo) (r : registro) :
  In r (Ociosidade.filtrar df filtros p) <-> In r df /\ SpecOcio.selecionado filtros p r.
Proof.
  unfold Ociosidade.filtrar, SpecOcio.selecionado. cbv zeta.
  rewrite !filtro_opcional.
  assert (Hcol : forall l,
    In r (match Filtros.colaborador filtros with
          | Some c =>
              if negb (String.eqb c "") && negb (String.eqb c "Todos")
              then filter (fun r : registro => String.eqb (usuario r) c) l
              else l
          | None => l
          end) <->
    In r l /\ (forall c, Filtros.colaborador filtros = Some c -> c <> "" ->
                         c <> "Todos" -> usuario r = c)).
  { intros l. destruct (Filtros.colaborador filtros) as [c|].
    - rewrite filtro_opcional, andb_true_iff, !negb_true_iff, String.eqb_eq.
      rewrite !String.eqb_neq. split.
      + intros [Hin H]. split; [assumption|]. intros c' [= <-] H1 H2. tauto.
      + intros [Hin H]. split; [assumption|]. intros [H1 H2]. now apply H.
    - split; [|tauto]. intros H. split; [assumption|]. discriminate. }
  rewrite Hcol, filter_In, andb_true_iff.
  unfold Filtros.mask_periodo. rewrite andb_true_iff, !Z.leb_le.
  rewrite !lista_neq, !isin_opt_In, isin_In.
  assert (Hdata : (match Filtros.data_especifica filtros with
                   | Some d => Tempo.date (retirada r) =? d
                   | None => true
                   end) = true <->
                  (forall d, Filtros.data_especifica filtros = Some d ->
                             Tempo.date (retirada r) = d)).
  { destruct (Filtros.data_especifica filtros) as [d|].
    - rewrite Z.eqb_eq. split; [intros H d' [= <-]; exact H | auto].
    - split; [discriminate | reflexivity]. }
  rewrite Hdata. unfold Ociosidade.turno_de. tauto.
Qed.

Lemma calcular_ociosidade_unfold (df : DataFrame) (filtros : Filtros.t)
    (p : Filtros.nome_periodo) :
  Ociosidade.calcular_ociosidade_por_periodo df filtros p
  = map (fun kg => (fst kg, Pandas.meanZ (map Ociosidade.tempo_ocioso (snd kg))))
        (Pandas.groupby String.eqb String.leb
           (fun e => Some (Ociosidade.colaborador e))
           (Ociosidade.entradas (Ociosidade.filtrar df filtros p))).
Proof.
  unfold Ociosidade.calcular_ociosidade_por_periodo.
  destruct df as [|r0 df'].
  - assert (Hnil : Ociosidade.filtrar [] filtros p = []).
    { destruct (Ociosidade.filtrar [] filtros p) as [|r rest] eqn:E; [reflexivity|].
      assert (Hin : In r (Ociosidade.filtrar [] filtros p)) by (rewrite E; now left).
      apply ocio_filtrar_In in Hin. destruct Hin as [[] _]. }
    rewrite Hnil. reflexivity.
  - destruct (Ociosidade.entradas _); reflexivity.
Qed.







Example ociosidade_example_dois_dias :
  Ociosidade.calcular_ociosidade_por_periodo Exemplos.dois_dias Exemplos.filtros
    Filtros.periodo1
  = [("ana", Pandas.meanZ [120; 60])].
Proof. vm_compute. reflexivity. Qed.

Example ociosidade_example_entradas :
  Ociosidade.entradas (Ociosidade.filtrar Exemplos.dois_dias Exemplos.filtros Filtros.periodo1)
  = [ Ociosidade.mkEntrada "ana" 20000 120 1; Ociosidade.mkEntrada "ana" 20001 60 1 ].
Proof. vm_compute. reflexivity. Qed.

(** On the first day of ana the sum of all gaps less the largest one is
    420 s, against the 120 s the code reports. *)
Example ociosidade_example_declarado :
  let sel := Ociosidade.filtrar Exemplos.dois_dias Exemplos.filtros Filtros.periodo1 in
  SpecOcio.gaps (SpecOcio.servicos sel "ana" 20000) = [120; 300; 12600] /\
  SpecOcio.ocio_dia_declarado sel "ana" 20000 = 420 /\
  SpecOcio.ocio_dia sel "ana" 20000 = 120.
Proof. vm_compute. repeat split. Qed.


(** ** Comboio thresholds (comboio_i.py) *)

Lemma Q2R_inject_Z (z : Z) : Q2R (inject_Z z) = IZR z.
Proof. unfold Q2R. simpl. lra. Qed.

Lemma Q2R_sumQ_inject (l : list Z) :
  Q2R (Pandas.sumQ (map inject_Z l)) = SpecComboio.soma l.
Proof.
  induction l as [|x t IH]; simpl.
  - unfold Q2R. simpl. lra.
  - now rewrite Q2R_plus, Q2R_inject_Z, IH.
Qed.

Lemma INR_Z_of_nat (n : nat) : IZR (Z.of_nat n) = INR n.
Proof. symmetry. apply INR_IZR_INZ. Qed.

Lemma Q2R_mean (l : list Z) :
  l <> [] -> Q2R (Pandas.mean (map inject_Z l)) = SpecComboio.media l.
Proof.
  intros Hne. unfold Pandas.mean, SpecComboio.media.
  rewrite length_map, Q2R_div, Q2R_sumQ_inject, Q2R_inject_Z, INR_Z_of_nat.
  - reflexivity.
  - apply inject_Z_nonzero. destruct l; [congruence | simpl; lia].
Qed.

Lemma Q2R_soma_quadrados (m : Q) (l : list Z) :
  Q2R (Pandas.sumQ (map (fun x => (x - m) * (x - m))%Q (map inject_Z l)))
  = SpecComboio.soma_quadrados (Q2R m) l.
Proof.
  induction l as [|x t IH]; simpl.
  - unfold Q2R. simpl. lra.
  - now rewrite Q2R_plus, Q2R_mult, Q2R_minus, Q2R_inject_Z, IH.
Qed.

(** The variance the code computes, on two values or more. *)
Lemma var_Some (l : list Z) (v : Q) :
  ComboioI.var (map inject_Z l) = Some v ->
  (2 <= List.length l)%nat /\
  Q2R v = (SpecComboio.soma_quadrados (SpecComboio.media l) l
           / (INR (List.length l) - 1))%R.
Proof.
  unfold ComboioI.var. rewrite length_map.
  destruct (List.length l <=? 1)%nat eqn:E; [discriminate|].
  apply Nat.leb_gt in E. intros [= <-]. split; [lia|].
  assert (Hne : l <> []) by (destruct l; [simpl in E; lia | discriminate]).
  rewrite Q2R_div.
  - rewrite Q2R_soma_quadrados, (Q2R_mean l Hne), Q2R_inject_Z.
    rewrite minus_IZR, INR_Z_of_nat. reflexivity.
  - apply inject_Z_nonzero. lia.
Qed.

Lemma var_None (l : list Z) :
  ComboioI.var (map inject_Z l) = None <-> (List.length l <= 1)%nat.
Proof.
  unfold ComboioI.var. rewrite length_map.
  destruct (List.length l <=? 1)%nat eqn:E.
  - apply Nat.leb_le in E. tauto.
  - apply Nat.leb_gt in E. split; [discriminate | lia].
Qed.

Lemma soma_quadrados_nonneg (m : R) (l : list Z) :
  (0 <= SpecComboio.soma_quadrados m l)%R.
Proof.
  induction l as [|x t IH]; [simpl; lra|].
  change (0 <= (IZR x - m) * (IZR x - m) + SpecComboio.soma_quadrados m t)%R.
  pose proof (Rle_0_sqr (IZR x - m)) as H. unfold Rsqr in H. lra.
Qed.

Lemma variancia_nonneg (l : list Z) :
  (2 <= List.length l)%nat ->
  (0 <= SpecComboio.soma_quadrados (SpecComboio.media l) l
        / (INR (List.length l) - 1))%R.
Proof.
  intros Hn. apply Rmult_le_pos; [apply soma_quadrados_nonneg|].
  apply Rlt_le, Rinv_0_lt_compat.
  assert (2 <= INR (List.length l))%R by (apply (le_INR 2); exact Hn). lra.
Qed.


(** Comparisons with [m + sqrt v], decided on squares. *)
Lemma excede_raiz (x m v : R) :
  (0 <= v)%R ->
  (m < x /\ v < (x - m) * (x - m))%R <-> (x > m + sqrt v)%R.
Proof.
  intros Hv. pose proof (sqrt_pos v) as Hs.
  pose proof (sqrt_sqrt v Hv) as Hss. split.
  - intros [H1 H2].
    assert (sqrt v < x - m)%R; [|lra].
    rewrite <- (sqrt_square (x - m)) by lra.
    apply sqrt_lt_1_alt. lra.
  - intros H. split; [lra|]. nra.
Qed.


(** The counts per key: one entry for each key that occurs, holding the
    number of rows with that key. *)
Lemma contagem_por_In {K} (eqb leb : K -> K -> bool)
    (eqb_eq : forall x y, eqb x y = true <-> x = y)
    (key : registro -> K) (df : DataFrame) (k : K) (c : Z) :
  In (k, c) (ComboioI.contagem_por eqb leb key df) <->
  (exists r, In r df /\ key r = k) /\
  c = Z.of_nat (List.length (filter (fun r => eqb k (key r)) df)).
Proof.
  unfold ComboioI.contagem_por. rewrite in_map_iff. split.
  - intros [[k' g] [Heq Hin]]. simpl in Heq. inversion Heq; subst. clear Heq.
    apply (groupby_In eqb leb eqb_eq) in Hin. destruct Hin as [[r [Hr Hk]] ->].
    split.
    + exists r. split; [assumption | congruence].
    + now rewrite length_map.
  - intros [[r [Hr Hk]] ->].
    exists (k, Pandas.grupo_de eqb (fun r => Some (key r)) k df). split.
    + simpl. now rewrite length_map.
    + apply (groupby_In eqb leb eqb_eq). split; [|reflexivity].
      exists r. split; [assumption | congruence].
Qed.


Lemma filter_nonempty_length {A} (f : A -> bool) (l : list A) (x : A) :
  In x l -> f x = true -> (0 < List.length (filter f l))%nat.
Proof.
  intros Hin Hf.
  assert (H : In x (filter f l)) by (apply filter_In; now split).
  destruct (filter f l); [contradiction | simpl; lia].
Qed.

Lemma filter_length_pos {A} (f : A -> bool) (l : list A) :
  (0 < List.length (filter f l))%nat -> exists x, In x l /\ f x = true.
Proof.
  destruct (filter f l) as [|x t] eqn:E; simpl; [lia|]. intros _.
  exists x. apply filter_In. rewrite E. now left.
Qed.

(** [picos]: the hours with withdrawals, each with its count. *)
Lemma picos_In (df : DataFrame) (h c : Z) :
  In (h, c) (ComboioI.picos df) <->
  0 < c /\ c = SpecComboio.retiradas_na_hora h df.
Proof.
  unfold ComboioI.picos, SpecComboio.retiradas_na_hora.
  rewrite (contagem_por_In Z.eqb Z.leb Z_eqb_eq').
  assert (Hf : filter (fun r : registro => h =? Tempo.hour (retirada r)) df
               = filter (fun r : registro => Tempo.hour (retirada r) =? h) df)
    by (apply filter_ext; intros; apply Z.eqb_sym).
  rewrite Hf. split.
  - intros [[r [Hr Hk]] ->]. split; [|reflexivity].
    assert (0 < List.length (filter (fun r : registro => (Tempo.hour (retirada r) =? h)%Z) df))%nat
      by (apply (filter_nonempty_length _ _ r Hr); now apply Z.eqb_eq).
    lia.
  - intros [Hpos ->]. split; [|reflexivity].
    destruct (filter_length_pos (fun r : registro => Tempo.hour (retirada r) =? h) df)
      as [r [Hr Hk]]; [lia|].
    exists r. split; [assumption | now apply Z.eqb_eq].
Qed.







Lemma Qle_bool_Rle (a b : Q) : Qle_bool a b = true <-> (Q2R a <= Q2R b)%R.
Proof.
  rewrite Qle_bool_iff. split; [apply Qle_Rle | apply Rle_Qle].
Qed.

Lemma Qle_bool_Rgt (a b : Q) : negb (Qle_bool a b) = true <-> (Q2R b < Q2R a)%R.
Proof.
  rewrite negb_true_iff. split.
  - intros H. apply Rnot_le_lt. intros Hle. apply Qle_bool_Rle in Hle. congruence.
  - intros H. destruct (Qle_bool a b) eqn:E; [|reflexivity].
    apply Qle_bool_Rle in E. lra.
Qed.

(** On two counts or more, [x > mean() + std()] as the code decides it is
    the comparison with the real alert level. *)
Lemma maior_que_limiar (c : Z) (l : list Z) :
  (2 <= List.length l)%nat ->
  ComboioI.maior_que (inject_Z c) (ComboioI.mean_mais_std (map inject_Z l)) = true
  <-> (IZR c > SpecComboio.limiar l)%R.
Proof.
  intros Hn. unfold ComboioI.maior_que, ComboioI.mean_mais_std. simpl.
  destruct (ComboioI.var (map inject_Z l)) as [v|] eqn:Ev.
  - destruct (var_Some l v Ev) as [_ Hv].
    assert (Hne : l <> []) by (destruct l; [simpl in Hn; lia | discriminate]).
    rewrite andb_true_iff, !Qle_bool_Rgt.
    rewrite Q2R_mult, Q2R_minus, Q2R_inject_Z, (Q2R_mean l Hne), Hv.
    unfold SpecComboio.limiar, SpecComboio.desvio.
    apply excede_raiz. now apply variancia_nonneg.
  - apply var_None in Ev. lia.
Qed.

Lemma maior_que_false (c : Z) (l : list Z) :
  (List.length l <= 1)%nat ->
  ComboioI.maior_que (inject_Z c) (ComboioI.mean_mais_std (map inject_Z l)) = false.
Proof.
  intros Hn. unfold ComboioI.maior_que, ComboioI.mean_mais_std. simpl.
  apply var_None in Hn. now rewrite Hn.
Qed.



Lemma map_inject_snd {K} (s : list (K * Z)) :
  map (fun kv => inject_Z (snd kv)) s = map inject_Z (map snd s).
Proof. now rewrite map_map. Qed.












(** Per-hour counts 5, 1, 1 (alert level about 4.64) and per-window counts
    3, 2, 1, 1 (alert level about 2.71). *)
Example comboio_example :
  ComboioI.picos Exemplos.manha = [(8, 5); (9, 1); (10, 1)] /\
  SpecComboio.contagens_por_hora Exemplos.manha = [5; 1; 1] /\
  map snd (ComboioI.comboios_por_data Exemplos.manha) = [3; 2; 1; 1] /\
  SpecComboio.contagens_por_janela Exemplos.manha = [3; 2; 1; 1] /\
  ComboioI.calcular_insights Exemplos.manha
  = Some (ComboioI.mkInsights 8 [(8, 5)] 2).
Proof. vm_compute. repeat split. Qed.

(** One window only: [std()] is NaN and [int] raises. *)
Example comboio_example_uma_janela :
  ComboioI.calcular_insights Exemplos.dois_atendimentos = None.
Proof. vm_compute. reflexivity. Qed.
(** * Part III: further properties of the code *)

(** ** Loading: failures, invariants of the loaded base, join multiplicity *)

Lemma forallb_coluna_unica (cols l : list string) :
  forallb (CarregarDados.coluna_unica cols) l = true <->
  forall col, In col l -> count_occ string_dec cols col = 1%nat.
Proof.
  rewrite forallb_forall. unfold CarregarDados.coluna_unica.
  split; intros H col Hcol; apply Nat.eqb_eq; apply H; exact Hcol.
Qed.

Lemma forallb_false_ex {A} (f : A -> bool) (l : list A) :
  forallb f l = false -> exists x, In x l /\ f x = false.
Proof.
  induction l as [|a t IH]; simpl; [discriminate|].
  destruct (f a) eqn:E; simpl.
  - intros H. destruct (IH H) as [x [Hx Hf]]. exists x. auto.
  - intros _. exists a. auto.
Qed.

Lemma coluna_unica_false (cols : list string) (col : string) :
  CarregarDados.coluna_unica cols col = false <->
  count_occ string_dec cols col <> 1%nat.
Proof. unfold CarregarDados.coluna_unica. apply Nat.eqb_neq. Qed.

Lemma colunas_lidas_obrigatorias (col : string) :
  In col (CarregarDados.colunas_lidas ++ ["prefixo"])%list ->
  In col CarregarDados.colunas_obrigatorias.
Proof.
  simpl. intros H.
  repeat (destruct H as [<-|H]; [simpl; tauto|]). contradiction.
Qed.

Lemma sem_colunas_de_codigo (cols : list string) :
  ~ In "CLIENTE" cols -> ~ In "OPERAÇÃO" cols ->
  existsb (fun col => Pandas.isin col ["CLIENTE"; "OPERAÇÃO"]) cols = false.
Proof.
  intros Hc Ho. destruct (existsb _ cols) eqn:E; [|reflexivity].
  apply existsb_exists in E. destruct E as [col [Hin Hcol]].
  apply isin_In in Hcol. simpl in Hcol.
  destruct Hcol as [<-|[<-|[]]]; contradiction.
Qed.

(** X1.  Take uploads whose code sheet has distinct labels and whose base
    sheet, after the renaming, has no column labelled CLIENTE or OPERAÇÃO.
    [carregar_dados] returns [None] exactly when an upload is missing or
    cannot be read, or the base sheet lacks a required column after the
    renaming, or the renaming gave the same label to two of the columns
    that are read or joined on (retirada, inicio, fim, tpatend, tpesper,
    status, prefixo), or the code sheet lacks one of its three columns; in
    every other case it returns the dictionary. *)
Theorem carregar_dados_returns_none_exactly_on_unsound_uploads
    (lower strip : string -> string) {M : Type}
    (arquivo_base : option (CarregarDados.leitura (CarregarDados.tabela registro_base)))
    (arquivo_codigo : option (CarregarDados.leitura (CarregarDados.tabela CarregarDados.codigo)))
    (arquivo_medias : option (CarregarDados.leitura M)) :
  (forall df, arquivo_base = Some (CarregarDados.Planilha df) ->
     ~ In "CLIENTE" (CarregarDados.renomear lower strip (CarregarDados.columns df)) /\
     ~ In "OPERAÇÃO" (CarregarDados.renomear lower strip (CarregarDados.columns df))) ->
  (forall df_codigo, arquivo_codigo = Some (CarregarDados.Planilha df_codigo) ->
     NoDup (CarregarDados.columns df_codigo)) ->
  (CarregarDados.carregar_dados lower strip arquivo_base arquivo_codigo arquivo_medias = None
   <->
   arquivo_base = None \/ arquivo_codigo = None \/ arquivo_medias = None \/
   arquivo_base = Some CarregarDados.Ilegivel \/
   arquivo_codigo = Some CarregarDados.Ilegivel \/
   arquivo_medias = Some CarregarDados.Ilegivel \/
   exists df df_codigo,
     arquivo_base = Some (CarregarDados.Planilha df) /\
     arquivo_codigo = Some (CarregarDados.Planilha df_codigo) /\
     ((exists col, In col CarregarDados.colunas_obrigatorias /\
         ~ In col (CarregarDados.renomear lower strip (CarregarDados.columns df))) \/
      (exists col, In col (CarregarDados.colunas_lidas ++ ["prefixo"])%list /\
         (1 < count_occ string_dec
                (CarregarDados.renomear lower strip (CarregarDados.columns df)) col)%nat) \/
      (exists col, In col CarregarDados.colunas_codigo /\
         ~ In col (CarregarDados.columns df_codigo)))).
Proof.
  intros Hsem Hdist.
  unfold CarregarDados.carregar_dados.
  destruct arquivo_base as [[df|]|]; [| split; auto 10 | split; auto 10].
  destruct arquivo_codigo as [[cods|]|]; [| split; auto 10 | split; auto 10].
  destruct arquivo_medias as [[meds|]|]; [| split; auto 10 | split; auto 10].
  destruct (Hsem df eq_refl) as [Hcli Hop]. specialize (Hdist cods eq_refl).
  clear Hsem.
  unfold CarregarDados.validar_colunas, CarregarDados.validar_dados_tabela,
    CarregarDados.validar_dados, CarregarDados.juntar_codigos.
  cbn [CarregarDados.columns CarregarDados.linhas].
  set (cols := CarregarDados.renomear lower strip (CarregarDados.columns df)) in *.
  destruct (CarregarDados.colunas_faltantes cols) as [|col rest] eqn:Ef.
  2:{ split; [|reflexivity]. intros _. do 6 right. exists df, cods.
      split; [reflexivity|]. split; [reflexivity|]. left. exists col.
      apply colunas_faltantes_In. fold cols. rewrite Ef. now left. }
  assert (Hpres : forall c, In c CarregarDados.colunas_obrigatorias -> In c cols).
  { intros c Hc. destruct (in_dec string_dec c cols) as [Hin|Hnin]; [exact Hin|].
    assert (Hf : In c (CarregarDados.colunas_faltantes cols))
      by (apply colunas_faltantes_In; now split).
    rewrite Ef in Hf. contradiction. }
  assert (Hrep : forall c, In c (CarregarDados.colunas_lidas ++ ["prefixo"])%list ->
                 CarregarDados.coluna_unica cols c = false ->
                 (1 < count_occ string_dec cols c)%nat).
  { intros c Hc Hu. apply coluna_unica_false in Hu.
    pose proof (Hpres c (colunas_lidas_obrigatorias c Hc)) as Hin.
    apply (count_occ_In string_dec) in Hin. lia. }
  cbn [CarregarDados.columns CarregarDados.linhas].
  destruct (forallb (CarregarDados.coluna_unica cols) CarregarDados.colunas_lidas) eqn:El.
  2:{ split; [|reflexivity]. intros _. do 6 right. exists df, cods.
      split; [reflexivity|]. split; [reflexivity|]. right. left.
      destruct (forallb_false_ex _ _ El) as [c [Hc Hu]]. exists c.
      split; [apply in_or_app; now left|].
      apply Hrep; [apply in_or_app; now left | exact Hu]. }
  cbn [option_map CarregarDados.columns CarregarDados.linhas].
  rewrite (sem_colunas_de_codigo cols Hcli Hop).
  destruct (forallb (CarregarDados.coluna_unica (CarregarDados.columns cods))
                    CarregarDados.colunas_codigo) eqn:Ec.
  2:{ split; [|reflexivity]. intros _. do 6 right. exists df, cods.
      split; [reflexivity|]. split; [reflexivity|]. right. right.
      destruct (forallb_false_ex _ _ Ec) as [c [Hc Hu]]. exists c.
      split; [exact Hc|]. intros Hin.
      apply coluna_unica_false in Hu.
      pose proof (proj1 (NoDup_count_occ string_dec _) Hdist c) as Hle.
      apply (count_occ_In string_dec) in Hin. lia. }
  destruct (CarregarDados.coluna_unica cols "prefixo") eqn:Ep.
  2:{ split; [|reflexivity]. intros _. do 6 right. exists df, cods.
      split; [reflexivity|]. split; [reflexivity|]. right. left.
      exists "prefixo". split; [apply in_or_app; right; now left|].
      apply Hrep; [apply in_or_app; right; now left | exact Ep]. }
  cbn [andb negb]. split; [discriminate|].
  intros [H|[H|[H|[H|[H|[H|[df0 [cods0 [Hdf [Hcods H]]]]]]]]]]; try discriminate.
  injection Hdf as <-. injection Hcods as <-. fold cols in H. exfalso.
  destruct H as [[c [Hc Hnin]]|[[c [Hc Hrep2]]|[c [Hc Hnin]]]].
  - apply Hnin, Hpres, Hc.
  - apply in_app_or in Hc. destruct Hc as [Hc|[<-|[]]].
    + pose proof (proj1 (forallb_coluna_unica cols _) El c Hc). lia.
    + unfold CarregarDados.coluna_unica in Ep. apply Nat.eqb_eq in Ep. lia.
  - pose proof (proj1 (forallb_coluna_unica _ _) Ec c Hc) as H1.
    apply Hnin. apply (count_occ_In string_dec). lia.
Qed.

(** The sample uploads are sound, and the load fails on a base sheet whose
    labels ['Status'] and ['STATUS'] both become ['status']. *)
Lemma carregar_dados_returns_none_exactly_on_unsound_uploads_witness :
  CarregarDados.carregar_dados Latin.lower Latin.strip
    (Some (CarregarDados.Planilha Exemplos.planilha_status_duplo))
    (Some (CarregarDados.Planilha Exemplos.planilha_codigos))
    (Some (CarregarDados.Planilha tt)) = None.
Proof.
  apply (carregar_dados_returns_none_exactly_on_unsound_uploads
           Latin.lower Latin.strip
           (Some (CarregarDados.Planilha Exemplos.planilha_status_duplo))
           (Some (CarregarDados.Planilha Exemplos.planilha_codigos))
           (Some (CarregarDados.Planilha tt))).
  - intros df [= <-]. vm_compute. split; intuition discriminate.
  - intros cods [= <-]. simpl. repeat constructor; simpl; intuition discriminate.
  - do 6 right. exists Exemplos.planilha_status_duplo, Exemplos.planilha_codigos.
    split; [reflexivity|]. split; [reflexivity|]. right. left.
    exists "status". split; [simpl; tauto|]. vm_compute. lia.
Defined.

(** X2.  Every row of the loaded base passed the validation: its status is
    ATENDIDO or TRANSFERIDA, 60 <= tpatend <= 1800, tpesper <= 14400, and so
    its [tempo_permanencia] is [tpatend + tpesper] and at most 16200. *)
Theorem loaded_base_rows_are_valid
    (lower strip : string -> string) {M : Type}
    (arquivo_base : option (CarregarDados.leitura (CarregarDados.tabela registro_base)))
    (arquivo_codigo : option (CarregarDados.leitura (CarregarDados.tabela CarregarDados.codigo)))
    (arquivo_medias : option (CarregarDados.leitura M))
    (res : CarregarDados.dados M) :
  CarregarDados.carregar_dados lower strip arquivo_base arquivo_codigo arquivo_medias
  = Some res ->
  forall r, In r (CarregarDados.d_base res) ->
    Spec.registro_valido r /\
    tempo_permanencia r = tpatend r + tpesper r /\
    tempo_permanencia r <= 16200.
Proof.
  intros Hres r Hr.
  destruct (carregar_dados_Some _ _ _ _ _ _ Hres) as [df [cods [meds [_ [_ [_ [Hbase _]]]]]]].
  rewrite Hbase in Hr. apply in_map_iff in Hr. destruct Hr as [[k [b o]] [<- Hin]].
  apply merge_left_In in Hin. destruct Hin as [Hin _].
  apply in_map_iff in Hin. destruct Hin as [b' [Heq Hb]]. inversion Heq; subst.
  apply filter_In in Hb. destruct Hb as [_ Hb]. apply mascara_valida_spec in Hb.
  unfold Spec.registro_valido in *. unfold CarregarDados.linha_final.
  destruct o; simpl; (split; [exact Hb|]); (split; [reflexivity|]); lia.
Qed.

Lemma loaded_base_rows_are_valid_witness :
  let r := mkRegistro (mkBase 3 "TRANSFERIDA" 2 "rui" 1728057600 1728058200 1728058800
                              600 600 "ZZ") None None 1200 in
  Spec.registro_valido r /\
  tempo_permanencia r = tpatend r + tpesper r /\
  tempo_permanencia r <= 16200.
Proof.
  intros r.
  apply (loaded_base_rows_are_valid Latin.lower Latin.strip
           (Some (CarregarDados.Planilha Exemplos.planilha))
           (Some (CarregarDados.Planilha Exemplos.planilha_codigos))
           (Some (CarregarDados.Planilha tt))
           (CarregarDados.mkDados
              [ mkRegistro (mkBase 1 "ATENDIDO" 1 "ana" 1728028800 1728028920 1728029220
                                   300 120 "AB") (Some "ACME") (Some "CARGA") 420; r ]
              tt Exemplos.planilha_codigos true)).
  - vm_compute. reflexivity.
  - simpl. right. left. reflexivity.
Defined.

Lemma merge_left_length {V1 V2} (left : list (string * V1)) (right : list (string * V2)) :
  List.length (Pandas.merge_left left right)
  = SpecLoad.soma_nat
      (map (fun l => Nat.max 1 (List.length (Pandas.com_chave (fst l) right))) left).
Proof.
  unfold Pandas.merge_left.
  induction left as [|l t IH]; [reflexivity|].
  simpl in *. rewrite length_app, IH.
  f_equal. destruct (Pandas.com_chave (fst l) right) as [|v vs]; [reflexivity|].
  simpl. now rewrite length_map.
Qed.

Lemma com_chave_codigos (df_codigo : list CarregarDados.codigo) (k : string) :
  Pandas.com_chave k (map (fun c => (CarregarDados.cod_prefixo c, c)) df_codigo)
  = filter (fun c => String.eqb (CarregarDados.cod_prefixo c) k) df_codigo.
Proof.
  unfold Pandas.com_chave. induction df_codigo as [|c t IH]; [reflexivity|].
  simpl. destruct (String.eqb (CarregarDados.cod_prefixo c) k); simpl; now rewrite IH.
Qed.

Lemma linhas_de_length (df_codigo : list CarregarDados.codigo) (b : registro_base) :
  List.length (SpecLoad.linhas_de df_codigo b) = SpecLoad.copias df_codigo b.
Proof.
  unfold SpecLoad.linhas_de, SpecLoad.copias.
  destruct (SpecLoad.codigos_de df_codigo b) as [|c cs]; [reflexivity|].
  rewrite length_map. simpl. reflexivity.
Qed.

Lemma soma_nat_flat_map {A B} (f : A -> list B) (l : list A) :
  List.length (flat_map f l) = SpecLoad.soma_nat (map (fun a => List.length (f a)) l).
Proof.
  induction l as [|a t IH]; [reflexivity|].
  simpl. now rewrite length_app, IH.
Qed.

(** The final table is, base row after base row, the rows of [linhas_de]. *)
Lemma merge_left_linhas_de (df_codigo : list CarregarDados.codigo)
    (validos : list registro_base) :
  map CarregarDados.linha_final
    (Pandas.merge_left
       (map (fun b : registro_base => (prefixo b, b)) validos)
       (map (fun c => (CarregarDados.cod_prefixo c, c)) df_codigo))
  = flat_map (SpecLoad.linhas_de df_codigo) validos.
Proof.
  set (right := map (fun c => (CarregarDados.cod_prefixo c, c)) df_codigo).
  induction validos as [|b t IH]; [reflexivity|].
  change (map CarregarDados.linha_final
            (match Pandas.com_chave (prefixo b) right with
             | [] => [(prefixo b, (b, None))]
             | cs => map (fun v2 => (prefixo b, (b, Some v2))) cs
             end
             ++ Pandas.merge_left (map (fun b : registro_base => (prefixo b, b)) t) right)%list
          = (SpecLoad.linhas_de df_codigo b
             ++ flat_map (SpecLoad.linhas_de df_codigo) t)%list).
  rewrite map_app, IH. f_equal.
  unfold right. rewrite com_chave_codigos.
  unfold SpecLoad.linhas_de, SpecLoad.codigos_de.
  destruct (filter _ df_codigo) as [|c cs]; [reflexivity|].
  rewrite map_map. reflexivity.
Qed.

(** X3.  Whatever the code table holds, the loaded base is, validated row
    after validated row and in their order, the rows of [linhas_de]: a
    validated row whose prefixo no code row has gives one row, with CLIENTE
    and OPERAÇÃO missing; a validated row whose prefixo n code rows have
    gives n rows, the k-th of them carrying the CLIENTE and OPERAÇÃO of the
    k-th of these code rows.  Every one of these rows repeats the base row
    and has [tempo_permanencia = tpatend + tpesper], so no validated row is
    lost and a prefixo that occurs n times in the code table makes n copies
    of each of its tickets. *)
Theorem left_join_multiplies_rows_by_code_matches
    (lower strip : string -> string) {M : Type}
    (df : CarregarDados.tabela registro_base)
    (df_codigo : CarregarDados.tabela CarregarDados.codigo)
    (arquivo_medias : option (CarregarDados.leitura M))
    (res : CarregarDados.dados M) :
  CarregarDados.carregar_dados lower strip
    (Some (CarregarDados.Planilha df)) (Some (CarregarDados.Planilha df_codigo))
    arquivo_medias = Some res ->
  let validos := filter CarregarDados.mascara_valida (CarregarDados.linhas df) in
  let codigos := CarregarDados.linhas df_codigo in
  CarregarDados.d_base res = flat_map (SpecLoad.linhas_de codigos) validos /\
  (forall b,
     let cs := filter (fun c => String.eqb (CarregarDados.cod_prefixo c) (prefixo b))
                      codigos in
     (cs = [] ->
      SpecLoad.linhas_de codigos b = [mkRegistro b None None (tpatend b + tpesper b)]) /\
     (cs <> [] ->
      SpecLoad.linhas_de codigos b
      = map (fun c => mkRegistro b (CarregarDados.cod_CLIENTE c)
                                 (CarregarDados.cod_OPERACAO c)
                                 (tpatend b + tpesper b)) cs) /\
     List.length (SpecLoad.linhas_de codigos b) = Nat.max 1 (List.length cs)) /\
  List.length (CarregarDados.d_base res)
  = SpecLoad.soma_nat (map (SpecLoad.copias codigos) validos).
Proof.
  intros Hres validos codigos.
  destruct (carregar_dados_Some _ _ _ _ _ _ Hres)
    as [df' [cods [meds [Hdf [Hc [_ [Hbase _]]]]]]].
  injection Hdf as <-. injection Hc as <-.
  fold validos codigos in Hbase.
  rewrite merge_left_linhas_de in Hbase.
  split; [exact Hbase|]. split.
  - intros b cs. split; [|split].
    + intros Hcs. unfold SpecLoad.linhas_de, SpecLoad.codigos_de.
      fold cs. rewrite Hcs. reflexivity.
    + intros Hcs. unfold SpecLoad.linhas_de, SpecLoad.codigos_de.
      fold cs. destruct cs; [congruence | reflexivity].
    + apply linhas_de_length.
  - rewrite Hbase, soma_nat_flat_map. f_equal.
    apply map_ext. intros b. apply linhas_de_length.
Qed.

(** A code table that lists the prefixo AB twice doubles the ticket. *)
Example left_join_duplicate_prefix :
  option_map (fun res => map (fun r : registro => (id r, CLIENTE r)) (CarregarDados.d_base res))
    (CarregarDados.carregar_dados Latin.lower Latin.strip
       (Some (CarregarDados.Planilha Exemplos.planilha))
       (Some (CarregarDados.Planilha
                (CarregarDados.mkTabela ["prefixo"; "CLIENTE"; "OPERAÇÃO"]
                   (CarregarDados.mkCodigo "AB" (Some "OUTRO") (Some "CARGA")
                    :: Exemplos.codigos))))
       (Some (CarregarDados.Planilha tt)))
  = Some [(1, Some "OUTRO"); (1, Some "ACME"); (3, None)].
Proof. vm_compute. reflexivity. Qed.

Lemma left_join_multiplies_rows_by_code_matches_witness :
  let cods := CarregarDados.mkCodigo "AB" (Some "OUTRO") (Some "CARGA") :: Exemplos.codigos in
  let folha := CarregarDados.mkTabela ["prefixo"; "CLIENTE"; "OPERAÇÃO"] cods in
  let validos := filter CarregarDados.mascara_valida (CarregarDados.linhas Exemplos.planilha) in
  exists res,
    CarregarDados.carregar_dados Latin.lower Latin.strip
      (Some (CarregarDados.Planilha Exemplos.planilha))
      (Some (CarregarDados.Planilha folha))
      (Some (CarregarDados.Planilha tt)) = Some res /\
    CarregarDados.d_base res = flat_map (SpecLoad.linhas_de cods) validos /\
    List.length (CarregarDados.d_base res) = 3%nat.
Proof.
  intros cods folha validos.
  destruct (CarregarDados.carregar_dados Latin.lower Latin.strip
              (Some (CarregarDados.Planilha Exemplos.planilha))
              (Some (CarregarDados.Planilha folha))
              (Some (CarregarDados.Planilha tt))) as [res|] eqn:E;
    [|vm_compute in E; discriminate].
  exists res. split; [reflexivity|].
  destruct (left_join_multiplies_rows_by_code_matches
              Latin.lower Latin.strip Exemplos.planilha folha
              (Some (CarregarDados.Planilha tt)) res E)
    as [Hbase [_ Hlen]].
  split; [exact Hbase|]. rewrite Hlen. vm_compute. reflexivity.
Defined.

(** ** Column normalisation is idempotent *)

Section ValidarColunasIdem.
Variable lower : string -> string.
Variable strip : string -> string.
Hypothesis padrao_estavel :
  forall c v v', CarregarDados.nome_padrao lower strip c = Some v ->
                 CarregarDados.nome_padrao lower strip v = Some v' -> v' = v.

Lemma canonico_idem (c : string) :
  SpecColunas.canonico lower strip (SpecColunas.canonico lower strip c)
  = SpecColunas.canonico lower strip c.
Proof.
  unfold SpecColunas.canonico.
  destruct (CarregarDados.nome_padrao lower strip c) as [v|] eqn:E.
  - destruct (CarregarDados.nome_padrao lower strip v) as [v'|] eqn:E'; [|reflexivity].
    exact (padrao_estavel c v v' E E').
  - now rewrite E.
Qed.

(** X4.  A sheet that [validar_colunas] accepted is accepted again and
    comes back unchanged: the normalisation of the column labels is
    idempotent. *)
Theorem validar_colunas_is_idempotent {L : Type} (df df' : CarregarDados.tabela L) :
  CarregarDados.validar_colunas lower strip df = CarregarDados.Ok df' ->
  CarregarDados.validar_colunas lower strip df' = CarregarDados.Ok df'.
Proof.
  unfold CarregarDados.validar_colunas. simpl.
  rewrite (renomear_canonico lower strip padrao_estavel).
  destruct (CarregarDados.colunas_faltantes
              (map (SpecColunas.canonico lower strip) (CarregarDados.columns df)))
    eqn:E; [|discriminate].
  intros [= <-]. simpl.
  rewrite (renomear_canonico lower strip padrao_estavel), map_map.
  rewrite (map_ext _ _ canonico_idem), E. reflexivity.
Qed.

End ValidarColunasIdem.

Lemma validar_colunas_is_idempotent_witness :
  CarregarDados.validar_colunas Latin.lower Latin.strip Exemplos.planilha_ok
  = CarregarDados.Ok Exemplos.planilha_ok.
Proof.
  apply (validar_colunas_is_idempotent Latin.lower Latin.strip latin_padrao_estavel
           Exemplos.planilha Exemplos.planilha_ok).
  vm_compute. reflexivity.
Defined.

(** ** Grouping conserves the number of rows *)

Section SomaGrupos.
Context {A K : Type}.
Variable eqb : K -> K -> bool.
Hypothesis eqb_eq : forall x y, eqb x y = true <-> x = y.
Variable key : A -> option K.

Lemma soma_nat_zeros (ks : list K) :
  SpecLoad.soma_nat (map (fun _ : K => 0%nat) ks) = 0%nat.
Proof. induction ks; simpl; auto. Qed.

Lemma soma_nat_add (f g : K -> nat) (ks : list K) :
  SpecLoad.soma_nat (map (fun k => (f k + g k)%nat) ks)
  = (SpecLoad.soma_nat (map f ks) + SpecLoad.soma_nat (map g ks))%nat.
Proof. induction ks as [|k t IH]; simpl; [reflexivity|]. rewrite IH. lia. Qed.

(** Among distinct keys exactly one equals a key of the list. *)
Lemma soma_nat_indicador (k0 : K) (ks : list K) :
  NoDup ks -> In k0 ks ->
  SpecLoad.soma_nat (map (fun k => if eqb k k0 then 1%nat else 0%nat) ks) = 1%nat.
Proof.
  induction ks as [|k t IH]; intros Hnd Hin; [contradiction|].
  inversion Hnd as [|? ? Hnotin Hnd']; subst. simpl.
  destruct (eqb k k0) eqn:E.
  - apply eqb_eq in E. subst k.
    assert (Hz : SpecLoad.soma_nat (map (fun k => if eqb k k0 then 1%nat else 0%nat) t)
                 = 0%nat).
    { clear IH Hnd Hnd' Hin. induction t as [|x t IH]; [reflexivity|]. simpl.
      destruct (eqb x k0) eqn:Ex.
      - apply eqb_eq in Ex. subst. exfalso. apply Hnotin. now left.
      - apply IH. intros H. apply Hnotin. now right. }
    rewrite Hz. reflexivity.
  - destruct Hin as [->|Hin].
    + assert (eqb k0 k0 = true) by now apply eqb_eq. congruence.
    + now rewrite IH.
Qed.

(** When [ks] lists, once each, the keys that occur, the sizes of the
    groups add up to the number of rows that have a key. *)
Lemma soma_grupos (ks : list K) (df : list A) :
  NoDup ks ->
  (forall r k, In r df -> key r = Some k -> In k ks) ->
  SpecLoad.soma_nat (map (fun k => List.length (Pandas.grupo_de eqb key k df)) ks)
  = List.length (Pandas.presentes key df).
Proof.
  intros Hnd. induction df as [|r df IH]; intros Hks.
  - simpl. apply soma_nat_zeros.
  - assert (IH' : SpecLoad.soma_nat
                    (map (fun k => List.length (Pandas.grupo_de eqb key k df)) ks)
                  = List.length (Pandas.presentes key df)).
    { apply IH. intros r' k Hr' Hk. apply (Hks r' k); [now right | assumption]. }
    unfold Pandas.grupo_de, Pandas.presentes in *. simpl.
    destruct (key r) as [k0|] eqn:Ek.
    + rewrite (map_ext _ (fun k => ((if eqb k k0 then 1 else 0)
                 + List.length (filter (fun r0 => match key r0 with
                                                  | Some k' => eqb k k'
                                                  | None => false
                                                  end) df))%nat)).
      * rewrite soma_nat_add, IH', soma_nat_indicador; [reflexivity | assumption |].
        apply (Hks r k0); [now left | assumption].
      * intros k. now destruct (eqb k k0).
    + exact IH'.
Qed.

Lemma groupby_total (leb : K -> K -> bool) (df : list A) :
  SpecLoad.soma_nat
    (map (fun kg => List.length (snd kg)) (Pandas.groupby eqb leb key df))
  = List.length (Pandas.presentes key df).
Proof.
  unfold Pandas.groupby. rewrite map_map. simpl.
  apply soma_grupos.
  - apply sorted_NoDup, unique_NoDup, eqb_eq.
  - intros r k Hr Hk. apply sorted_In, (unique_In eqb eqb_eq), presentes_In.
    now exists r.
Qed.

End SomaGrupos.

Lemma sumZ_of_nat (l : list nat) :
  Pandas.sumZ (map Z.of_nat l) = Z.of_nat (SpecLoad.soma_nat l).
Proof. induction l as [|x t IH]; simpl; [reflexivity|]. rewrite IH. lia. Qed.

Lemma presentes_Some {A K} (key : A -> K) (df : list A) :
  Pandas.presentes (fun r => Some (key r)) df = map key df.
Proof. induction df as [|r t IH]; simpl; [reflexivity|]. now rewrite IH. Qed.

Lemma presentes_length {A K} (key : A -> option K) (df : list A) :
  List.length (Pandas.presentes key df)
  = List.length (filter (fun r => match key r with Some _ => true | None => false end) df).
Proof.
  induction df as [|r t IH]; simpl; [reflexivity|].
  destruct (key r); simpl; now rewrite IH.
Qed.

(** ** Bounds on a mean *)

Lemma sumQ_inject (l : list Z) :
  (Pandas.sumQ (map inject_Z l) == inject_Z (Pandas.sumZ l))%Q.
Proof.
  induction l as [|x t IH]; [reflexivity|].
  simpl. rewrite IH, inject_Z_plus. reflexivity.
Qed.

Lemma sumZ_bounds (a b : Z) (l : list Z) :
  Forall (fun x => a <= x <= b) l ->
  a * Z.of_nat (List.length l) <= Pandas.sumZ l <= b * Z.of_nat (List.length l).
Proof.
  induction 1 as [|x t Hx _ IH]; [simpl; lia|].
  change (Pandas.sumZ (x :: t)) with (x + Pandas.sumZ t).
  change (List.length (x :: t)) with (S (List.length t)).
  rewrite Nat2Z.inj_succ. lia.
Qed.

(** The mean of a non-empty column lies between any two bounds of its
    values. *)
Lemma meanZ_bounds (a b : Z) (l : list Z) :
  l <> [] -> Forall (fun x => a <= x <= b) l ->
  (inject_Z a <= Pandas.meanZ l <= inject_Z b)%Q.
Proof.
  intros Hne Hall. apply sumZ_bounds in Hall.
  unfold Pandas.meanZ, Pandas.mean. rewrite length_map, sumQ_inject.
  set (n := Z.of_nat (List.length l)) in *.
  assert (Hn : 0 < n) by (destruct l; [congruence | unfold n; simpl; lia]).
  assert (HnQ : (0 < inject_Z n)%Q)
    by (change 0%Q with (inject_Z 0); now rewrite <- Zlt_Qlt).
  split.
  - apply Qle_shift_div_l; [exact HnQ|].
    rewrite <- inject_Z_mult, <- Zle_Qle. lia.
  - apply Qle_shift_div_r; [exact HnQ|].
    rewrite <- inject_Z_mult, <- Zle_Qle. lia.
Qed.

Lemma meanZ_ge (a : Z) (l : list Z) :
  l <> [] -> Forall (fun x => a <= x) l -> (inject_Z a <= Pandas.meanZ l)%Q.
Proof.
  intros Hne Hall.
  assert (Hs : a * Z.of_nat (List.length l) <= Pandas.sumZ l).
  { clear Hne. induction Hall as [|x t Hx _ IH]; [simpl; lia|].
    change (Pandas.sumZ (x :: t)) with (x + Pandas.sumZ t).
    change (List.length (x :: t)) with (S (List.length t)).
    rewrite Nat2Z.inj_succ. lia. }
  unfold Pandas.meanZ, Pandas.mean. rewrite length_map, sumQ_inject.
  set (n := Z.of_nat (List.length l)) in *.
  assert (Hn : 0 < n) by (destruct l; [congruence | unfold n; simpl; lia]).
  apply Qle_shift_div_l.
  - change 0%Q with (inject_Z 0). now rewrite <- Zlt_Qlt.
  - rewrite <- inject_Z_mult, <- Zle_Qle. lia.
Qed.

Lemma meanZ_le (b : Z) (l : list Z) :
  l <> [] -> Forall (fun x => x <= b) l -> (Pandas.meanZ l <= inject_Z b)%Q.
Proof.
  intros Hne Hall.
  assert (Hs : Pandas.sumZ l <= b * Z.of_nat (List.length l)).
  { clear Hne. induction Hall as [|x t Hx _ IH]; [simpl; lia|].
    change (Pandas.sumZ (x :: t)) with (x + Pandas.sumZ t).
    change (List.length (x :: t)) with (S (List.length t)).
    rewrite Nat2Z.inj_succ. lia. }
  unfold Pandas.meanZ, Pandas.mean. rewrite length_map, sumQ_inject.
  set (n := Z.of_nat (List.length l)) in *.
  assert (Hn : 0 < n) by (destruct l; [congruence | unfold n; simpl; lia]).
  apply Qle_shift_div_r.
  - change 0%Q with (inject_Z 0). now rewrite <- Zlt_Qlt.
  - rewrite <- inject_Z_mult, <- Zle_Qle. lia.
Qed.

(** The members of a group of [groupby] are rows of the frame. *)
Lemma groupby_membros {A} (key : A -> option string) (df : list A)
    (k : string) (g : list A) :
  In (k, g) (Pandas.groupby String.eqb String.leb key df) ->
  g <> [] /\ forall r, In r g -> In r df /\ key r = Some k.
Proof.
  intros Hin.
  pose proof (groupby_nonempty String.eqb String.leb string_eqb_eq _ _ _ _ Hin) as Hlen.
  apply (groupby_In String.eqb String.leb string_eqb_eq) in Hin.
  destruct Hin as [_ ->]. split.
  - intros E. rewrite E in Hlen. simpl in Hlen. lia.
  - intros r Hr. now apply (grupo_de_In String.eqb string_eqb_eq) in Hr.
Qed.

(** ** Time formatting *)

Lemma Qfloor_sub_Z (q : Q) (z : Z) : Qfloor (q - inject_Z z) = Qfloor q - z.
Proof.
  destruct q as [a b]. unfold Qfloor, Qminus, Qplus, Qopp, inject_Z. simpl.
  rewrite Pos.mul_1_r, Z.mul_1_r.
  replace (a + - z * Z.pos b) with (a + (- z) * Z.pos b) by lia.
  rewrite Z.div_add by lia. lia.
Qed.

Lemma Qfloor_div_pos (q : Q) (n : positive) :
  Qfloor (q / (Z.pos n # 1)) = Qfloor q / Z.pos n.
Proof.
  destruct q as [a b]. unfold Qfloor, Qdiv, Qmult, Qinv. simpl.
  rewrite Z.mul_1_r, Pos2Z.inj_mul, Z.div_div by lia. reflexivity.
Qed.

Lemma Qfloor_mul_pos_sub (q : Q) (n : positive) (z : Z) :
  Qfloor ((q - inject_Z z) * (Z.pos n # 1))
  = Qfloor (q * (Z.pos n # 1)) - Z.pos n * z.
Proof.
  rewrite <- (Qfloor_sub_Z (q * (Z.pos n # 1)) (Z.pos n * z)).
  apply Qfloor_comp. rewrite inject_Z_mult.
  change (inject_Z (Z.pos n)) with (Z.pos n # 1)%Q. ring.
Qed.

Lemma fmod_floor (x : Q) (m : positive) :
  Qfloor (Py.fmod x (Z.pos m # 1)) = Qfloor x mod Z.pos m.
Proof.
  unfold Py.fmod, Py.floordiv. rewrite Qfloor_div_pos.
  assert (E : ((Z.pos m # 1) * inject_Z (Qfloor x / Z.pos m)
               == inject_Z (Z.pos m * (Qfloor x / Z.pos m)))%Q).
  { rewrite inject_Z_mult. reflexivity. }
  rewrite (Qfloor_comp _ (x - inject_Z (Z.pos m * (Qfloor x / Z.pos m)))%Q)
    by (now rewrite E).
  rewrite Qfloor_sub_Z. rewrite Z.mod_eq by lia. reflexivity.
Qed.

Lemma Qfloor_neg (q : Q) : (q < 0)%Q -> Qfloor q < 0.
Proof.
  intros H. apply Z.lt_nge. intros Hge.
  apply (Qlt_irrefl 0). apply Qle_lt_trans with q; [|exact H].
  apply Qle_trans with (inject_Z (Qfloor q)); [|apply Qfloor_le].
  change 0%Q with (inject_Z 0). now rewrite <- Zle_Qle.
Qed.

(** [int()] of a float whose floor is not negative is that floor. *)
Lemma int_floor_nonneg (q : Q) : 0 <= Qfloor q -> Py.int q = Qfloor q.
Proof.
  intros H. unfold Py.int. destruct (Qlt_le_dec q 0) as [Hlt|_]; [|reflexivity].
  apply Qfloor_neg in Hlt. lia.
Qed.

(** X5.  [formatar_tempo] of the idleness tab splits a non-negative number
    of seconds into hours, minutes and seconds that add up to the whole
    seconds of its argument, with minutes and seconds between 0 and 59. *)
Theorem formatar_tempo_segundos_decomposes (segundos : Q) :
  (0 <= segundos)%Q ->
  let '(horas, minutos, segs) := OciosidadeAba.partes_tempo segundos in
  horas * 3600 + minutos * 60 + segs = Qfloor segundos /\
  0 <= horas /\ 0 <= minutos < 60 /\ 0 <= segs < 60.
Proof.
  intros Hpos. unfold OciosidadeAba.partes_tempo.
  assert (H0 : 0 <= Qfloor segundos).
  { change 0 with (Qfloor 0). now apply Qfloor_resp_le. }
  assert (Hh : Py.floordiv segundos 3600 = Qfloor segundos / 3600)
    by apply (Qfloor_div_pos segundos 3600).
  assert (Hmin : Py.floordiv (Py.fmod segundos 3600) 60
                 = Qfloor segundos mod 3600 / 60).
  { unfold Py.floordiv at 1.
    rewrite (Qfloor_div_pos (Py.fmod segundos 3600) 60).
    now rewrite (fmod_floor segundos 3600). }
  rewrite Hh, Hmin.
  pose proof (fmod_floor segundos 60) as Hs.
  pose proof (Z.mod_pos_bound (Qfloor segundos) 60 ltac:(lia)) as Hb60.
  rewrite int_floor_nonneg by (rewrite Hs; lia). rewrite Hs.
  set (F := Qfloor segundos) in *.
  pose proof (Z.mod_pos_bound F 3600 ltac:(lia)) as Hb.
  pose proof (Z.div_mod F 3600 ltac:(lia)) as Hd.
  pose proof (Z.div_mod (F mod 3600) 60 ltac:(lia)) as Hd2.
  assert (Hm : F mod 60 = (F mod 3600) mod 60).
  { rewrite Hd at 1. replace (3600 * (F / 3600)) with ((60 * (F / 3600)) * 60) by lia.
    rewrite Z.add_comm, Z.mod_add by lia. reflexivity. }
  pose proof (Z.mod_pos_bound (F mod 3600) 60 ltac:(lia)) as Hb2.
  assert (0 <= F mod 3600 / 60 < 60).
  { split; [apply Z.div_pos; lia | apply Z.div_lt_upper_bound; lia]. }
  assert (0 <= F / 3600) by (apply Z.div_pos; lia).
  repeat split; lia.
Qed.

Lemma formatar_tempo_segundos_decomposes_witness :
  OciosidadeAba.partes_tempo (7451 # 2) = (1, 2, 5) /\
  1 * 3600 + 2 * 60 + 5 = Qfloor (7451 # 2).
Proof.
  pose proof (formatar_tempo_segundos_decomposes (7451 # 2) ltac:(discriminate)) as H.
  split; [vm_compute; reflexivity|].
  replace (OciosidadeAba.partes_tempo (7451 # 2)) with (1, 2, 5) in H
    by (vm_compute; reflexivity).
  exact (proj1 H).
Defined.

Example formatar_tempo_segundos_examples :
  OciosidadeAba.formatar_tempo (3725 # 1) = "01:02:05 min" /\
  OciosidadeAba.formatar_tempo (119 # 2) = "00:00:59 min" /\
  OciosidadeAba.formatar_tempo (360000 # 1) = "100:00:00 min" /\
  OciosidadeAba.formatar_tempo (- 1 # 1) = "-1:59:59 min".
Proof. vm_compute. repeat split. Qed.

(** X6.  [formatar_tempo] of the wait-time tab prints, for a non-negative
    number of minutes, its whole minutes and a number of seconds between 0
    and 59. *)
Theorem formatar_tempo_minutos_shows_whole_minutes (minutos : Q) :
  (0 <= minutos)%Q ->
  let '(minutos_int, segundos) := EsperaInsights.partes_tempo minutos in
  minutos_int = Qfloor minutos /\ 0 <= segundos < 60.
Proof.
  intros Hpos. unfold EsperaInsights.partes_tempo.
  assert (H0 : 0 <= Qfloor minutos).
  { change 0 with (Qfloor 0). now apply Qfloor_resp_le. }
  rewrite (int_floor_nonneg minutos H0).
  set (M := Qfloor minutos) in *.
  assert (Hlo : (inject_Z (60 * M) <= minutos * (60 # 1))%Q).
  { assert (E : (inject_Z (60 * M) == inject_Z M * (60 # 1))%Q)
      by (rewrite inject_Z_mult; change (inject_Z 60) with (60 # 1)%Q; ring).
    rewrite E. apply Qmult_le_compat_r; [apply Qfloor_le | discriminate]. }
  assert (Hhi : (minutos * (60 # 1) < inject_Z (60 * M + 60))%Q).
  { assert (E : (inject_Z (60 * M + 60) == inject_Z (M + 1) * (60 # 1))%Q)
      by (replace (60 * M + 60) with (60 * (M + 1)) by lia;
          rewrite inject_Z_mult; change (inject_Z 60) with (60 # 1)%Q; ring).
    rewrite E. apply Qmult_lt_compat_r; [reflexivity | apply Qlt_floor]. }
  assert (Hf : 60 * M <= Qfloor (minutos * (60 # 1)) < 60 * M + 60).
  { split.
    - rewrite <- (Qfloor_Z (60 * M)). now apply Qfloor_resp_le.
    - apply Z.lt_nge. intros Hge. apply (Qlt_irrefl (minutos * (60 # 1))).
      eapply Qlt_le_trans; [exact Hhi|].
      apply Qle_trans with (inject_Z (Qfloor (minutos * (60 # 1)))); [|apply Qfloor_le].
      now rewrite <- Zle_Qle. }
  assert (Hseg : Qfloor ((minutos - inject_Z M) * (60 # 1))
                 = Qfloor (minutos * (60 # 1)) - 60 * M)
    by apply (Qfloor_mul_pos_sub minutos 60 M).
  rewrite int_floor_nonneg by (rewrite Hseg; lia).
  rewrite Hseg. repeat split; lia.
Qed.

Lemma formatar_tempo_minutos_shows_whole_minutes_witness :
  EsperaInsights.partes_tempo (7 # 2) = (3, 30) /\ 3 = Qfloor (7 # 2).
Proof.
  pose proof (formatar_tempo_minutos_shows_whole_minutes (7 # 2) ltac:(discriminate)) as H.
  split; [vm_compute; reflexivity|].
  replace (EsperaInsights.partes_tempo (7 # 2)) with (3, 30) in H
    by (vm_compute; reflexivity).
  exact (proj1 H).
Defined.

Example formatar_tempo_minutos_examples :
  EsperaInsights.formatar_tempo (7 # 2) = "03:30" /\
  EsperaInsights.formatar_tempo (125 # 1) = "125:00" /\
  EsperaInsights.formatar_tempo (- 3 # 2) = "-1:-30".
Proof. vm_compute. repeat split. Qed.

(** ** Idle time: what the computed values can be *)

Lemma intervalos_de_validos (l : list registro) :
  Forall (fun g => 0 < g <= 7200) (Ociosidade.intervalos_de l).
Proof.
  rewrite intervalos_de_gaps. apply Forall_forall. intros g Hg.
  apply filter_In in Hg. destruct Hg as [_ Hg].
  unfold SpecOcio.gap_valido in Hg. lia.
Qed.

Lemma remove_In (x y : Z) (l : list Z) :
  In y (Ociosidade.remove x l) -> In y l.
Proof.
  induction l as [|z t IH]; simpl; [auto|].
  destruct (z =? x); simpl; tauto.
Qed.

Lemma remove_length (x : Z) (l : list Z) :
  In x l -> S (List.length (Ociosidade.remove x l)) = List.length l.
Proof.
  induction l as [|z t IH]; simpl; [contradiction|].
  destruct (z =? x) eqn:E; [reflexivity|].
  intros [H|H]; [apply Z.eqb_neq in E; congruence|].
  simpl. now rewrite IH.
Qed.

(** Every entry appended by the loop has at least one counted gap, and an
    idle time of one second per counted gap at least and two hours per
    counted gap at most. *)
Lemma entrada_dia_limites (df : DataFrame) (u : string) (d : Z)
    (e : Ociosidade.entrada) :
  In e (Ociosidade.entrada_dia df u d) ->
  (1 <= Ociosidade.qtd_intervalos e)%nat /\
  Z.of_nat (Ociosidade.qtd_intervalos e) <= Ociosidade.tempo_ocioso e
    <= 7200 * Z.of_nat (Ociosidade.qtd_intervalos e).
Proof.
  unfold Ociosidade.entrada_dia.
  set (atend := filter _ df).
  destruct (0 <? List.length atend)%nat; [|contradiction].
  cbv zeta.
  pose proof (intervalos_de_validos
                (Pandas.sort_values Z.leb (fun r : registro => inicio r) atend)) as Hv.
  destruct (Ociosidade.intervalos_de _) as [|g gs] eqn:E; [contradiction|].
  set (l := if (1 <? List.length (g :: gs))%nat
            then Ociosidade.remove (Ociosidade.maximo (g :: gs)) (g :: gs)
            else g :: gs).
  intros [<-|[]]. cbn [Ociosidade.qtd_intervalos Ociosidade.tempo_ocioso].
  assert (Hl : Forall (fun x => 1 <= x <= 7200) l).
  { apply Forall_forall. intros x Hx. rewrite Forall_forall in Hv.
    assert (In x (g :: gs)).
    { unfold l in Hx. destruct (1 <? List.length (g :: gs))%nat; [|exact Hx].
      eapply remove_In; exact Hx. }
    specialize (Hv x H). lia. }
  assert (Hlen : (1 <= List.length l)%nat).
  { unfold l. destruct (1 <? List.length (g :: gs))%nat eqn:E1.
    - apply Nat.ltb_lt in E1.
      pose proof (remove_length (Ociosidade.maximo (g :: gs)) (g :: gs)
                    (maximo_In (g :: gs) ltac:(discriminate))). lia.
    - simpl. lia. }
  split; [exact Hlen|]. apply sumZ_bounds in Hl. lia.
Qed.

Lemma entradas_In (df : DataFrame) (e : Ociosidade.entrada) :
  In e (Ociosidade.entradas df) ->
  exists u d, In e (Ociosidade.entrada_dia df u d).
Proof.
  unfold Ociosidade.entradas. rewrite in_flat_map. intros [u [_ H]].
  apply in_flat_map in H. destruct H as [d [_ H]]. now exists u, d.
Qed.

Lemma ociosidade_valor_pos (df : DataFrame) (filtros : Filtros.t)
    (p : Filtros.nome_periodo) (u : string) (v : Q) :
  In (u, v) (Ociosidade.calcular_ociosidade_por_periodo df filtros p) ->
  (1 <= v)%Q.
Proof.
  rewrite calcular_ociosidade_unfold, in_map_iff.
  intros [[k g] [Heq Hin]]. simpl in Heq. inversion Heq; subst; clear Heq.
  pose proof (groupby_nonempty String.eqb String.leb string_eqb_eq _ _ _ _ Hin) as Hlen.
  apply (groupby_In String.eqb String.leb string_eqb_eq) in Hin.
  destruct Hin as [_ ->].
  set (g := Pandas.grupo_de _ _ _ _) in *.
  change 1%Q with (inject_Z 1). apply meanZ_ge.
  - destruct g; [simpl in Hlen; lia | discriminate].
  - apply Forall_forall. intros x Hx. apply in_map_iff in Hx.
    destruct Hx as [e [<- He]].
    apply (grupo_de_In String.eqb string_eqb_eq) in He. destruct He as [He _].
    apply entradas_In in He. destruct He as [u' [d He]].
    apply entrada_dia_limites in He. lia.
Qed.

(** X7.  An idleness value reported for a collaborator is never zero or
    negative: it is at least one second, the computation appending a day
    only when it has a gap of at least one second left to count. *)
Theorem reported_idle_time_is_at_least_one_second (df : DataFrame)
    (filtros : Filtros.t) (p : Filtros.nome_periodo) :
  Forall (fun linha => (1 <= snd linha)%Q)
         (Ociosidade.calcular_ociosidade_por_periodo df filtros p).
Proof.
  apply Forall_forall. intros [u v] H. simpl.
  eapply ociosidade_valor_pos; exact H.
Qed.

Lemma um_nao_zero (v : Q) : (1 <= v)%Q -> ~ (v == 0)%Q.
Proof.
  intros H E. rewrite E in H. revert H. unfold Qle. simpl. lia.
Qed.

(** X8.  In the idleness tables built from the two periods of the same
    data, the variation is always a finite number: exactly 100 for a
    collaborator without idle time in period 1 (whose cell is 0), -100 for
    one without idle time in period 2, and the relative change otherwise,
    with a period-1 value that is not zero.  No cell is NaN or infinite. *)
Theorem idleness_variation_is_always_finite (df : DataFrame) (filtros : Filtros.t) :
  let ocio_p1 := Ociosidade.calcular_ociosidade_por_periodo df filtros Filtros.periodo1 in
  let ocio_p2 := Ociosidade.calcular_ociosidade_por_periodo df filtros Filtros.periodo2 in
  Forall (fun row =>
            exists t1 t2 v,
              Ociosidade.tempo_ocioso_p1 row = Fin t1 /\
              Ociosidade.tempo_ocioso_p2 row = Fin t2 /\
              Ociosidade.variacao row = Fin v /\
              (In (Ociosidade.c_colaborador row) (map fst ocio_p1) ->
               (1 <= t1)%Q /\ v = SpecVar.variacao t1 t2) /\
              (~ In (Ociosidade.c_colaborador row) (map fst ocio_p1) ->
               t1 = 0%Q /\ (1 <= t2)%Q /\ v = (100 # 1)%Q) /\
              (~ In (Ociosidade.c_colaborador row) (map fst ocio_p2) ->
               t2 = 0%Q /\ (v == - (100 # 1))%Q))
         (Ociosidade.df_insights ocio_p1 ocio_p2).
Proof.
  intros p1 p2. apply Forall_forall. intros row Hrow.
  apply df_insights_rows in Hrow. destruct Hrow as [k [o1 [o2 [Hin ->]]]].
  apply merge_outer_In in Hin.
  assert (Hfst : forall k (l : list (string * Q)) v, In (k, v) l -> In k (map fst l)).
  { intros k' l v Hv. apply in_map_iff. now exists (k', v). }
  assert (Hnfst : forall k (l : list (string * Q)),
             (forall v, ~ In (k, v) l) -> ~ In k (map fst l)).
  { intros k' l Hno Hk. apply in_map_iff in Hk. destruct Hk as [[a b] [<- Hk]].
    exact (Hno b Hk). }
  cbn [Ociosidade.c_colaborador Ociosidade.tempo_ocioso_p1
       Ociosidade.tempo_ocioso_p2 Ociosidade.variacao].
  destruct o1 as [v1|]; destruct o2 as [v2|]; try contradiction;
    destruct Hin as [H1 H2].
  - pose proof (ociosidade_valor_pos _ _ _ _ _ H1) as P1.
    rewrite !preenchido_Some, (variacao_ociosidade_finite v1 v2 (um_nao_zero v1 P1)).
    exists v1, v2, (SpecVar.variacao v1 v2).
    repeat match goal with |- _ /\ _ => split end; try reflexivity.
    + intros _. now split.
    + intros Hno. exfalso. apply Hno. eapply Hfst; exact H1.
    + intros Hno. exfalso. apply Hno. eapply Hfst; exact H2.
  - pose proof (ociosidade_valor_pos _ _ _ _ _ H1) as P1.
    rewrite preenchido_Some, preenchido_None,
      (variacao_ociosidade_finite v1 0 (um_nao_zero v1 P1)).
    exists v1, 0%Q, (SpecVar.variacao v1 0).
    repeat match goal with |- _ /\ _ => split end; try reflexivity.
    + intros _. now split.
    + intros Hno. exfalso. apply Hno. eapply Hfst; exact H1.
    + intros _. split; [reflexivity|]. unfold SpecVar.variacao.
      field. now apply um_nao_zero.
  - pose proof (ociosidade_valor_pos _ _ _ _ _ H2) as P2.
    assert (Hpos : (0 < v2)%Q)
      by (eapply Qlt_le_trans; [|exact P2]; reflexivity).
    rewrite preenchido_Some, preenchido_None,
      (variacao_de_inf 0 v2 (Qeq_refl 0) Hpos).
    exists 0%Q, v2, (100 # 1)%Q.
    repeat match goal with |- _ /\ _ => split end; try reflexivity.
    + intros Hk. exfalso. revert Hk. now apply Hnfst.
    + intros _. now split.
    + intros Hno. exfalso. apply Hno. eapply Hfst; exact H2.
Qed.

(** ** Means of validated durations *)

Lemma minutos_limites (a b : Z) (m : Q) :
  (inject_Z (60 * a) <= m <= inject_Z (60 * b))%Q ->
  (inject_Z a <= m / (60 # 1) <= inject_Z b)%Q.
Proof.
  intros [H1 H2].
  assert (E : forall z, (inject_Z (60 * z) == inject_Z z * (60 # 1))%Q).
  { intros z. rewrite inject_Z_mult. change (inject_Z 60) with (60 # 1)%Q. ring. }
  rewrite E in H1, H2. split.
  - apply Qle_shift_div_l; [reflexivity | exact H1].
  - apply Qle_shift_div_r; [reflexivity | exact H2].
Qed.

Lemma tempo_atend_filtrado (df : DataFrame) (filtros : Filtros.t)
    (p : Filtros.nome_periodo) (g : grupo) (k : string) (t : tempos) :
  In (k, t) (TempoAtend.calcular_tempos_por_periodo df filtros p g) ->
  exists rows, rows <> [] /\ (forall r, In r rows -> In r df) /\
    t = mkTempos (Pandas.meanZ (map (fun r : registro => tpatend r) rows) / (60 # 1))%Q
                 (Z.of_nat (List.length rows)).
Proof.
  unfold TempoAtend.calcular_tempos_por_periodo. cbv zeta.
  match goal with
  | |- In _ (map _ (Pandas.groupby _ _ _ ?d)) -> _ => set (df_filtrado := d)
  end.
  assert (Hsub : forall r, In r df_filtrado -> In r df).
  { intros r. unfold df_filtrado.
    destruct (_ && _); rewrite ?filter_In; tauto. }
  rewrite in_map_iff. intros [[k' rows] [Heq Hin]]. simpl in Heq.
  inversion Heq; subst; clear Heq.
  apply groupby_membros in Hin. destruct Hin as [Hne Hmem].
  exists rows. split; [exact Hne|]. split; [|reflexivity].
  intros r Hr. apply Hsub. now apply Hmem.
Qed.

(** X9.  On validated records (service time between 60 and 1800 seconds)
    every mean service time reported per client or operation lies between
    1 and 30 minutes, and every reported group has at least one record. *)
Theorem service_time_means_stay_within_validated_range (df : DataFrame)
    (filtros : Filtros.t) (p : Filtros.nome_periodo) (g : grupo) :
  Forall (fun r : registro => Spec.registro_valido r) df ->
  Forall (fun linha => (1 <= media (snd linha) <= 30)%Q /\ 1 <= contagem (snd linha))
         (TempoAtend.calcular_tempos_por_periodo df filtros p g).
Proof.
  intros Hval. rewrite Forall_forall in Hval.
  apply Forall_forall. intros [k t] Hin.
  apply tempo_atend_filtrado in Hin. destruct Hin as [rows [Hne [Hsub ->]]].
  cbn [snd media contagem]. split.
  - change 1%Q with (inject_Z 1). change 30%Q with (inject_Z 30).
    apply minutos_limites. apply meanZ_bounds.
    + destruct rows; [congruence | discriminate].
    + apply Forall_forall. intros x Hx. apply in_map_iff in Hx.
      destruct Hx as [r [<- Hr]]. destruct (Hval r (Hsub r Hr)) as [H _]. lia.
  - destruct rows; [congruence | simpl; lia].
Qed.

Lemma service_time_means_stay_within_validated_range_witness :
  Forall (fun r : registro => Spec.registro_valido r) Exemplos.dois_dias /\
  Forall (fun linha => (1 <= media (snd linha) <= 30)%Q /\ 1 <= contagem (snd linha))
         (TempoAtend.calcular_tempos_por_periodo Exemplos.dois_dias Exemplos.filtros
            Filtros.periodo1 G_CLIENTE) /\
  List.length (TempoAtend.calcular_tempos_por_periodo Exemplos.dois_dias
                 Exemplos.filtros Filtros.periodo1 G_CLIENTE) = 2%nat.
Proof.
  assert (H : Forall (fun r : registro => Spec.registro_valido r) Exemplos.dois_dias).
  { repeat constructor; vm_compute; try discriminate; auto. }
  split; [exact H|]. split.
  - apply (service_time_means_stay_within_validated_range
             Exemplos.dois_dias Exemplos.filtros Filtros.periodo1 G_CLIENTE H).
  - vm_compute. reflexivity.
Defined.

(** X10.  On validated records the service-time comparison never divides
    by zero: every row has a period-1 mean of one minute at least, and its
    variation is the finite number (p2 - p1) / p1 * 100. *)
Theorem service_time_variation_is_finite_on_validated_data (df : DataFrame)
    (filtros : Filtros.t) (g : grupo)
    (dados_medias : option (list (string * option Q))) :
  Forall (fun r : registro => Spec.registro_valido r) df ->
  Forall (fun row =>
            (1 <= media_p1 row)%Q /\
            ct_variacao row
            = Fin ((media_p2 row - media_p1 row) / media_p1 row * (100 # 1))%Q)
         (TempoAtend.criar_grafico_comparativo
            (TempoAtend.calcular_tempos_por_periodo df filtros Filtros.periodo1 g)
            (TempoAtend.calcular_tempos_por_periodo df filtros Filtros.periodo2 g)
            dados_medias).
Proof.
  intros Hval. rewrite Forall_forall in Hval.
  apply Forall_forall. intros row Hrow.
  apply tempo_atend_rows in Hrow.
  destruct Hrow as [k [a [b [meta [H1 [_ [_ ->]]]]]]].
  cbn [media_p1 media_p2 ct_variacao].
  assert (Ha : (1 <= media a)%Q).
  { apply tempo_atend_filtrado in H1. destruct H1 as [rows [Hne [Hsub ->]]].
    cbn [media]. change 1%Q with (inject_Z 1).
    apply Qle_shift_div_l; [reflexivity|].
    change (inject_Z 1 * (60 # 1))%Q with (inject_Z 60).
    apply meanZ_ge; [destruct rows; [congruence | discriminate]|].
    apply Forall_forall. intros x Hx. apply in_map_iff in Hx.
    destruct Hx as [r [<- Hr]]. destruct (Hval r (Hsub r Hr)) as [H _]. lia. }
  split; [exact Ha|].
  apply variacao_pct_finite. now apply um_nao_zero.
Qed.

Lemma service_time_variation_is_finite_on_validated_data_witness :
  Forall (fun r : registro => Spec.registro_valido r) Exemplos.dois_dias /\
  Forall (fun row =>
            (1 <= media_p1 row)%Q /\
            ct_variacao row
            = Fin ((media_p2 row - media_p1 row) / media_p1 row * (100 # 1))%Q)
         (TempoAtend.criar_grafico_comparativo
            (TempoAtend.calcular_tempos_por_periodo Exemplos.dois_dias
               Exemplos.filtros Filtros.periodo1 G_CLIENTE)
            (TempoAtend.calcular_tempos_por_periodo Exemplos.dois_dias
               Exemplos.filtros Filtros.periodo2 G_CLIENTE)
            None).
Proof.
  assert (H : Forall (fun r : registro => Spec.registro_valido r) Exemplos.dois_dias).
  { repeat constructor; vm_compute; try discriminate; auto. }
  split; [exact H|].
  apply (service_time_variation_is_finite_on_validated_data
           Exemplos.dois_dias Exemplos.filtros G_CLIENTE None H).
Defined.

Lemma espera_filtrar_sub (df : DataFrame) (filtros : Filtros.t)
    (p : Filtros.nome_periodo) (r : registro) :
  In r (Espera.filtrar df filtros p) -> In r df.
Proof.
  unfold Espera.filtrar. cbv zeta.
  repeat match goal with
         | |- context [if ?b then _ else _] => destruct b
         end; rewrite ?filter_In; tauto.
Qed.

(** X11.  On validated records (waiting time of at most 14400 seconds)
    every mean waiting time reported per client or operation is of 240
    minutes at most, and every reported group has at least one record. *)
Theorem wait_time_means_stay_below_four_hours (df : DataFrame)
    (filtros : Filtros.t) (p : Filtros.nome_periodo) (g : grupo) :
  Forall (fun r : registro => Spec.registro_valido r) df ->
  Forall (fun linha => (media (snd linha) <= 240)%Q /\ 1 <= contagem (snd linha))
         (Espera.calcular_tempos_por_periodo df filtros p g).
Proof.
  intros Hval. rewrite Forall_forall in Hval.
  apply Forall_forall. intros [k t] Hin.
  unfold Espera.calcular_tempos_por_periodo in Hin. cbv zeta in Hin.
  destruct (_ =? _)%nat; [contradiction|].
  apply in_map_iff in Hin. destruct Hin as [[k' rows] [Heq Hin]].
  simpl in Heq. inversion Heq; subst; clear Heq.
  apply groupby_membros in Hin. destruct Hin as [Hne Hmem].
  cbn [snd media contagem]. split.
  - apply Qle_shift_div_r; [reflexivity|].
    change (240 * (60 # 1))%Q with (inject_Z 14400).
    apply meanZ_le; [destruct rows; [congruence | discriminate]|].
    apply Forall_forall. intros x Hx. apply in_map_iff in Hx.
    destruct Hx as [r [<- Hr]].
    destruct (Hval r (espera_filtrar_sub _ _ _ _ (proj1 (Hmem r Hr)))) as [_ [H _]].
    exact H.
  - destruct rows; [congruence | simpl; lia].
Qed.

Lemma wait_time_means_stay_below_four_hours_witness :
  Forall (fun r : registro => Spec.registro_valido r) Exemplos.dois_dias /\
  Forall (fun linha => (media (snd linha) <= 240)%Q /\ 1 <= contagem (snd linha))
         (Espera.calcular_tempos_por_periodo Exemplos.dois_dias Exemplos.filtros
            Filtros.periodo1 G_CLIENTE) /\
  List.length (Espera.calcular_tempos_por_periodo Exemplos.dois_dias
                 Exemplos.filtros Filtros.periodo1 G_CLIENTE) = 2%nat.
Proof.
  assert (H : Forall (fun r : registro => Spec.registro_valido r) Exemplos.dois_dias).
  { repeat constructor; vm_compute; try discriminate; auto. }
  split; [exact H|]. split.
  - apply (wait_time_means_stay_below_four_hours
             Exemplos.dois_dias Exemplos.filtros Filtros.periodo1 G_CLIENTE H).
  - vm_compute. reflexivity.
Defined.

(** ** The three performance columns of the idleness insights *)

Lemma iloc_length {A} (a b : nat) (l : list A) :
  (a <= b)%nat -> (b <= List.length l)%nat ->
  List.length (Py.iloc a b l) = (b - a)%nat.
Proof.
  intros Hab Hb. unfold Py.iloc. rewrite length_firstn, length_skipn. lia.
Qed.

Lemma firstn_soma {A} (n m : nat) (l : list A) :
  firstn (n + m) l = (firstn n l ++ firstn m (skipn n l))%list.
Proof.
  revert l. induction n as [|n IH]; intros l; [reflexivity|].
  destruct l as [|x t]; [simpl; now rewrite firstn_nil|].
  simpl. now rewrite IH.
Qed.

Lemma iloc_app {A} (a b c : nat) (l : list A) :
  (a <= b)%nat -> (b <= c)%nat ->
  (Py.iloc a b l ++ Py.iloc b c l)%list = Py.iloc a c l.
Proof.
  intros Hab Hbc. unfold Py.iloc.
  replace (c - a)%nat with ((b - a) + (c - b))%nat by lia.
  rewrite firstn_soma, skipn_skipn.
  replace (b - a + a)%nat with b by lia. reflexivity.
Qed.

Lemma iloc_tudo {A} (l : list A) : Py.iloc 0 (List.length l) l = l.
Proof. unfold Py.iloc. simpl. rewrite Nat.sub_0_r. apply firstn_all. Qed.

Lemma indices_valores (n : nat) :
  OciosidadeAba.indices n
  = [ (0, (n + 2) / 3); ((n + 2) / 3, (n + 2) / 3 + (n + 1) / 3);
      ((n + 2) / 3 + (n + 1) / 3, n) ]%nat
  /\ ((n + 2) / 3 + (n + 1) / 3 + n / 3 = n)%nat.
Proof.
  unfold OciosidadeAba.indices. cbv zeta.
  pose proof (Nat.div_mod_eq n 3) as Hn.
  pose proof (Nat.mod_upper_bound n 3 ltac:(lia)) as Hr.
  set (t := (n / 3)%nat) in *. set (r := (n mod 3)%nat) in *.
  clearbody t r.
  assert (H2 : ((n + 2) / 3 = t + (if (0 <? r) then 1 else 0))%nat).
  { symmetry.
    destruct r as [|[|[|r']]]; [| | |lia]; cbn [Nat.ltb Nat.leb].
    - apply (Nat.div_unique (n + 2) 3 _ 2); lia.
    - apply (Nat.div_unique (n + 2) 3 _ 0); lia.
    - apply (Nat.div_unique (n + 2) 3 _ 1); lia. }
  assert (H1 : ((n + 1) / 3 = t + (if (1 <? r) then 1 else 0))%nat).
  { symmetry.
    destruct r as [|[|[|r']]]; [| | |lia]; cbn [Nat.ltb Nat.leb].
    - apply (Nat.div_unique (n + 1) 3 _ 1); lia.
    - apply (Nat.div_unique (n + 1) 3 _ 2); lia.
    - apply (Nat.div_unique (n + 1) 3 _ 0); lia. }
  rewrite H2, H1.
  destruct r as [|[|[|r']]]; [| | |lia]; cbn [Nat.ltb Nat.leb].
  - replace (2 * t + 0)%nat with (t + 0 + (t + 0))%nat by lia. split; [reflexivity | lia].
  - replace (2 * t + 1)%nat with (t + 1 + (t + 0))%nat by lia. split; [reflexivity | lia].
  - replace (2 * t + 2)%nat with (t + 1 + (t + 1))%nat by lia. split; [reflexivity | lia].
Qed.

(** X12.  The three performance columns of the idleness insights show
    every row of the table exactly once and in order: laid end to end they
    are the table, and their sizes are the thirds of its length rounded so
    that no column has more than one row more than another. *)
Theorem idleness_columns_split_the_table (df_insights : list Ociosidade.comp) :
  let n := List.length df_insights in
  List.concat (OciosidadeAba.partes df_insights) = df_insights /\
  map (@List.length _) (OciosidadeAba.partes df_insights)
  = [ (n + 2) / 3; (n + 1) / 3; n / 3 ]%nat.
Proof.
  intros n. unfold OciosidadeAba.partes. fold n.
  destruct (indices_valores n) as [-> Hsum].
  set (a := ((n + 2) / 3)%nat) in *. set (b := ((n + 1) / 3)%nat) in *.
  cbn [map fst snd List.concat]. rewrite app_nil_r. split.
  - rewrite !iloc_app by lia. apply iloc_tudo.
  - set (c := (n / 3)%nat) in *. clearbody a b c.
    rewrite !iloc_length by (unfold n in *; lia).
    f_equal; [lia | f_equal; [lia | f_equal; lia]].
Qed.

(** ** Totals: grouping loses no record *)

(** X13.  The quantities of [calcular_movimentacao_por_periodo] add up to
    the number of records of the period that carry a client: every such
    record is counted for exactly one client, and a record without client
    (a prefixo missing from the code table) is counted for none. *)
Theorem client_quantities_add_up_to_the_period_records (df : DataFrame)
    (filtros : Filtros.t) (p : Filtros.nome_periodo) :
  Pandas.sumZ (map snd (MovCliente.calcular_movimentacao_por_periodo df filtros p))
  = Z.of_nat (List.length
      (filter (fun r : registro =>
                 match CLIENTE r with Some _ => true | None => false end)
              (filter (Filtros.mask_periodo filtros p) df))).
Proof.
  unfold MovCliente.calcular_movimentacao_por_periodo. cbv zeta.
  rewrite map_map. cbn [snd].
  rewrite (map_ext _ (fun kg : string * list registro =>
                        Z.of_nat ((fun kg => List.length (snd kg)) kg)))
    by (intros kg; now rewrite length_map).
  rewrite <- (map_map (fun kg : string * list registro => List.length (snd kg)) Z.of_nat).
  rewrite sumZ_of_nat, (groupby_total String.eqb string_eqb_eq), presentes_length.
  reflexivity.
Qed.

Lemma py_sum_of_Z_aux (zs : list Z) (s : Z) :
  fold_left Float.add (map Float.of_Z zs) (Float.of_Z s)
  = Float.of_Z (s + Pandas.sumZ zs).
Proof.
  revert s. induction zs as [|z t IH]; intros s.
  - simpl. now rewrite Z.add_0_r.
  - cbn [map fold_left].
    assert (E : Float.add (Float.of_Z s) (Float.of_Z z) = Float.of_Z (s + z)).
    { unfold Float.of_Z, Float.add, Qplus, inject_Z. simpl.
      now rewrite !Z.mul_1_r. }
    rewrite E, IH. f_equal. simpl. lia.
Qed.

(** The float sum of a column of whole numbers is their sum. *)
Lemma py_sum_of_Z (zs : list Z) :
  Py.sum (map Float.of_Z zs) = Float.of_Z (Pandas.sumZ zs).
Proof. apply (py_sum_of_Z_aux zs 0). Qed.

Lemma horas_do_dia_NoDup : NoDup (map Z.of_nat (seq 0 24)).
Proof.
  apply Finite.Injective_map_NoDup; [|apply seq_NoDup].
  intros a b. apply Nat2Z.inj.
Qed.

Lemma hora_em_horas_do_dia (t : Z) : In (Tempo.hour t) (map Z.of_nat (seq 0 24)).
Proof.
  pose proof (hour_range t) as H. apply in_map_iff.
  exists (Z.to_nat (Tempo.hour t)). split; [lia|]. apply in_seq. lia.
Qed.

Lemma atendimentos_da_hora (df_filtrado : DataFrame) (h : Z) :
  Float.fillna 0 (GatesHora.map_serie (GatesHora.atendimentos_hora df_filtrado) h)
  = Float.of_Z (Z.of_nat (List.length (GatesDetalhes.atendimentos_hora df_filtrado h))).
Proof.
  exact (proj1 (proj2 (metrica_da_hora df_filtrado h))).
Qed.

Lemma gates_da_hora (df_filtrado : DataFrame) (h : Z) :
  Float.fillna 0 (GatesHora.map_serie (GatesHora.gates_por_hora df_filtrado) h)
  = Float.of_Z (SpecGates.guiches_distintos
                  (GatesDetalhes.atendimentos_hora df_filtrado h)).
Proof.
  exact (proj1 (metrica_da_hora df_filtrado h)).
Qed.

Lemma atendimentos_hora_grupo (df_filtrado : DataFrame) (h : Z) :
  GatesDetalhes.atendimentos_hora df_filtrado h
  = Pandas.grupo_de Z.eqb (fun r : registro => Some (Tempo.hour (inicio r))) h df_filtrado.
Proof.
  unfold GatesDetalhes.atendimentos_hora, Pandas.grupo_de.
  apply filter_ext. intros r. apply Z.eqb_sym.
Qed.

(** X14.  The total of the insights panel, the sum of the [atendimentos]
    column over the 24 hourly rows, is the number of selected records:
    each record is counted in exactly one hour. *)
Theorem hourly_attendances_add_up_to_the_selected_records (df : DataFrame)
    (filtros : Filtros.t) (cliente operacao : option string)
    (data_especifica : option Z) :
  let res := GatesHora.calcular_gates_hora df filtros cliente operacao data_especifica in
  GatesInsights.total_atendimentos (fst res)
  = Float.of_Z (Z.of_nat (List.length (snd res))).
Proof.
  unfold GatesHora.calcular_gates_hora. cbv zeta. cbn [fst snd].
  set (df_filtrado := GatesHora.filtrar df filtros cliente operacao data_especifica).
  unfold GatesInsights.total_atendimentos.
  rewrite map_map. cbn [GatesHora.atendimentos].
  rewrite (map_ext _ (fun n => Float.of_Z (Z.of_nat (List.length
             (Pandas.grupo_de Z.eqb (fun r : registro => Some (Tempo.hour (inicio r)))
                (Z.of_nat n) df_filtrado)))))
    by (intros n; now rewrite atendimentos_da_hora, atendimentos_hora_grupo).
  rewrite <- (map_map (fun n => Z.of_nat (List.length
             (Pandas.grupo_de Z.eqb (fun r : registro => Some (Tempo.hour (inicio r)))
                (Z.of_nat n) df_filtrado))) Float.of_Z).
  rewrite py_sum_of_Z. f_equal.
  rewrite <- (map_map (fun n => List.length
             (Pandas.grupo_de Z.eqb (fun r : registro => Some (Tempo.hour (inicio r)))
                (Z.of_nat n) df_filtrado)) Z.of_nat).
  rewrite sumZ_of_nat. f_equal.
  rewrite <- (map_map Z.of_nat (fun k => List.length
             (Pandas.grupo_de Z.eqb (fun r : registro => Some (Tempo.hour (inicio r)))
                k df_filtrado))).
  rewrite (soma_grupos Z.eqb Z_eqb_eq').
  - now rewrite presentes_Some, length_map.
  - apply horas_do_dia_NoDup.
  - intros r k _ Hk. inversion Hk; subst. apply hora_em_horas_do_dia.
Qed.

(** The number of groups of a frame is the number of distinct keys. *)
Lemma groupby_length {A} (key : A -> Z) (df : list A) :
  List.length (Pandas.groupby Z.eqb Z.leb (fun r => Some (key r)) df)
  = List.length (Pandas.unique Z.eqb (map key df)).
Proof.
  unfold Pandas.groupby, Pandas.sorted. rewrite length_map, presentes_Some.
  apply Permutation_length. apply sort_values_perm.
Qed.

Lemma detalhes_gates_unfold (df_filtrado : DataFrame) (h : Z) :
  GatesDetalhes.detalhes_gates df_filtrado h
  = map GatesDetalhes.linha
        (GatesDetalhes.por_gate (GatesDetalhes.atendimentos_hora df_filtrado h)).
Proof.
  unfold GatesDetalhes.detalhes_gates. cbv zeta.
  destruct (GatesDetalhes.atendimentos_hora df_filtrado h); reflexivity.
Qed.

(** X15.  The per-gate details of an hour agree with the hourly metrics of
    the chart: the number of detail rows is [gates_ativos] of that hour and
    their [atendimentos] add up to [atendimentos] of that hour. *)
Theorem gate_details_agree_with_hourly_metrics (df : DataFrame)
    (filtros : Filtros.t) (cliente operacao : option string)
    (data_especifica : option Z) :
  let res := GatesHora.calcular_gates_hora df filtros cliente operacao data_especifica in
  Forall (fun row =>
            let detalhes := GatesDetalhes.detalhes_gates (snd res) (GatesHora.hora row) in
            GatesHora.gates_ativos row
            = Float.of_Z (Z.of_nat (GatesDetalhes.n_gates detalhes)) /\
            GatesHora.atendimentos row
            = Float.of_Z (GatesDetalhes.total_atend detalhes))
         (fst res).
Proof.
  unfold GatesHora.calcular_gates_hora. cbv zeta. cbn [fst snd].
  set (df_filtrado := GatesHora.filtrar df filtros cliente operacao data_especifica).
  apply Forall_forall. intros row Hrow. apply in_map_iff in Hrow.
  destruct Hrow as [n [<- _]].
  cbn [GatesHora.hora GatesHora.gates_ativos GatesHora.atendimentos].
  rewrite gates_da_hora, atendimentos_da_hora, detalhes_gates_unfold.
  set (recs := GatesDetalhes.atendimentos_hora df_filtrado (Z.of_nat n)).
  unfold GatesDetalhes.n_gates, GatesDetalhes.total_atend, GatesDetalhes.por_gate.
  split.
  - f_equal. unfold SpecGates.guiches_distintos. f_equal.
    rewrite length_map, groupby_length. symmetry. apply length_unique_nodup.
  - f_equal. rewrite map_map. cbn [GatesDetalhes.atendimentos GatesDetalhes.linha].
    rewrite (map_ext _ (fun kg : Z * list registro =>
                          Z.of_nat ((fun kg => List.length (snd kg)) kg)))
      by (intros kg; now rewrite length_map).
    rewrite <- (map_map (fun kg : Z * list registro => List.length (snd kg)) Z.of_nat).
    rewrite sumZ_of_nat, (groupby_total Z.eqb Z_eqb_eq'), presentes_Some, length_map.
    reflexivity.
Qed.

(** ** Gate details: operating time and hourly rate *)

Lemma rint_limites (x : Q) : Qfloor x <= Py.rint x <= Qfloor x + 1.
Proof.
  unfold Py.rint. cbv zeta.
  destruct (Qlt_le_dec _ _); [lia|].
  destruct (Qlt_le_dec _ _); [lia|].
  destruct (Z.even _); lia.
Qed.

Lemma Qfloor_minutos (n : Z) : Qfloor (inject_Z n / (60 # 1)) = n / 60.
Proof. now rewrite (Qfloor_div_pos (inject_Z n) 60), Qfloor_Z. Qed.

(** Rounding a span of [n] seconds to whole minutes gives 0 exactly up to
    30 seconds (the tie at 30 goes to the even 0). *)
Lemma rint_minutos (n : Z) :
  0 <= n ->
  0 <= Py.rint (inject_Z n / (60 # 1)) /\
  (Py.rint (inject_Z n / (60 # 1)) = 0 <-> n <= 30).
Proof.
  intros Hn.
  pose proof (rint_limites (inject_Z n / (60 # 1))) as Hb.
  rewrite Qfloor_minutos in Hb.
  assert (Hdiv : 0 <= n / 60) by (apply Z.div_pos; lia).
  split; [lia|].
  destruct (Z_lt_le_dec n 60) as [Hlt|Hge].
  - clear Hb. unfold Py.rint. cbv zeta. rewrite Qfloor_minutos.
    rewrite (Z.div_small n 60) by lia.
    destruct (Qlt_le_dec _ _) as [H|H].
    + split; [intros _|reflexivity].
      revert H. unfold Qlt, Qminus, Qplus, Qopp, Qdiv, Qmult, Qinv, inject_Z.
      simpl. lia.
    + destruct (Qlt_le_dec _ _) as [H'|H'].
      * split; [discriminate|]. intros Hle. exfalso.
        revert H'. unfold Qlt, Qminus, Qplus, Qopp, Qdiv, Qmult, Qinv, inject_Z.
        simpl. lia.
      * simpl. split; [intros _|reflexivity].
        revert H'. unfold Qle, Qminus, Qplus, Qopp, Qdiv, Qmult, Qinv, inject_Z.
        simpl. lia.
  - assert (1 <= n / 60) by (apply Z.div_le_lower_bound; lia).
    split; lia.
Qed.

Lemma fold_left_min_le (t : list Z) (x : Z) : fold_left Z.min t x <= x.
Proof.
  revert x. induction t as [|y t IH]; intros x; simpl; [lia|].
  specialize (IH (Z.min x y)). lia.
Qed.

Lemma minZ_le_maxZ (l : list Z) : Py.minZ l <= Py.maxZ l.
Proof.
  destruct l as [|x t]; simpl; [lia|].
  pose proof (fold_left_min_le t x).
  pose proof (proj1 (fold_left_max_ge t x)). lia.
Qed.

Lemma taxa_hora_zero (a : Z) : 1 <= a -> GatesDetalhes.taxa_hora a 0 = Inf.
Proof.
  intros Ha. unfold GatesDetalhes.taxa_hora, Float.of_Z.
  cbn [Float.div]. replace (Qeq_bool (60 # 1) 0) with false by reflexivity.
  cbn [Float.div]. replace (Qeq_bool (inject_Z 0 / (60 # 1)) 0) with true by reflexivity.
  unfold Float.inf_sinal.
  destruct (Qlt_le_dec 0 (inject_Z a)) as [_|H]; [reflexivity|].
  exfalso. revert H. unfold Qle, inject_Z. simpl. lia.
Qed.

Lemma taxa_hora_pos (a t : Z) :
  0 < t -> exists q, GatesDetalhes.taxa_hora a t = Fin q.
Proof.
  intros Ht. unfold GatesDetalhes.taxa_hora, Float.of_Z.
  cbn [Float.div]. replace (Qeq_bool (60 # 1) 0) with false by reflexivity.
  cbn [Float.div].
  rewrite (Qeq_bool_false (inject_Z t / (60 # 1))).
  - eexists. reflexivity.
  - intros E. revert E. unfold Qeq, Qdiv, Qmult, Qinv, inject_Z. simpl. lia.
Qed.

Lemma py_sum_inf_aux (l : list float64) (acc : float64) :
  Forall (fun x => x = Inf \/ exists q, x = Fin q) l ->
  (acc = Inf \/ ((exists q, acc = Fin q) /\ In Inf l)) ->
  fold_left Float.add l acc = Inf.
Proof.
  intros Hall. revert acc. induction Hall as [|x t Hx _ IH]; intros acc Hacc.
  - destruct Hacc as [->|[_ []]]. reflexivity.
  - cbn [fold_left]. apply IH.
    destruct Hacc as [->|[[q ->] Hin]].
    + left. destruct Hx as [->|[q ->]]; reflexivity.
    + destruct Hx as [->|[q' ->]].
      * now left.
      * right. split; [eexists; reflexivity|].
        destruct Hin as [Habs|Hin]; [discriminate | exact Hin].
Qed.

(** The mean of a column of finite values and positive infinities that
    holds an infinity is infinite. *)
Lemma py_mean_inf (l : list float64) :
  Forall (fun x => x = Inf \/ exists q, x = Fin q) l -> In Inf l ->
  Py.mean l = Inf.
Proof.
  intros Hall Hin. unfold Py.mean, Py.sum.
  rewrite (py_sum_inf_aux l (Fin 0) Hall)
    by (right; split; [eexists; reflexivity | exact Hin]).
  unfold Float.of_Z. cbn [Float.div].
  destruct (Qlt_le_dec _ _) as [H|_]; [|reflexivity].
  exfalso. revert H. unfold Qlt, inject_Z. simpl. lia.
Qed.

Lemma detalhe_limites (df_filtrado : DataFrame) (hora : Z) (d : GatesDetalhes.detalhe) :
  In d (GatesDetalhes.detalhes_gates df_filtrado hora) ->
  1 <= GatesDetalhes.atendimentos d /\
  GatesDetalhes.inicio d <= GatesDetalhes.fim d /\
  0 <= GatesDetalhes.tempo_operacao d /\
  (GatesDetalhes.tempo_operacao d = 0 <->
   GatesDetalhes.fim d - GatesDetalhes.inicio d <= 30) /\
  (GatesDetalhes.atendimentos d = 1 -> GatesDetalhes.tempo_operacao d = 0) /\
  (GatesDetalhes.tempo_operacao d = 0 -> GatesDetalhes.atend_por_hora d = Inf) /\
  (0 < GatesDetalhes.tempo_operacao d ->
   exists q, GatesDetalhes.atend_por_hora d = Fin q).
Proof.
  rewrite detalhes_gates_unfold, in_map_iff. intros [[k g] [<- Hin]].
  apply (groupby_nonempty Z.eqb Z.leb Z_eqb_eq') in Hin.
  unfold GatesDetalhes.linha. cbv zeta.
  cbn [fst snd GatesDetalhes.atendimentos GatesDetalhes.inicio GatesDetalhes.fim
       GatesDetalhes.tempo_operacao GatesDetalhes.atend_por_hora].
  rewrite length_map.
  pose proof (minZ_le_maxZ (map (fun r : registro => inicio r) g)) as Hmm.
  fold (GatesDetalhes.inicio_min g) in Hmm. fold (GatesDetalhes.inicio_max g) in Hmm.
  set (a := GatesDetalhes.inicio_min g) in *.
  set (b := GatesDetalhes.inicio_max g) in *.
  destruct (rint_minutos (b - a) ltac:(lia)) as [Hpos Hzero].
  fold (GatesDetalhes.minutos_operacao a b) in Hpos, Hzero.
  assert (Hone : Z.of_nat (List.length g) = 1 -> b - a = 0).
  { intros Hl. unfold a, b, GatesDetalhes.inicio_min, GatesDetalhes.inicio_max.
    destruct g as [|r [|r' g']]; simpl in *; lia. }
  repeat match goal with |- _ /\ _ => split end.
  - lia.
  - exact Hmm.
  - exact Hpos.
  - apply Hzero.
  - intros Hl. apply Hzero. specialize (Hone Hl). lia.
  - intros ->. apply taxa_hora_zero. lia.
  - intros Ht. now apply taxa_hora_pos.
Qed.

(** X16.  In the details of an hour every gate has at least one service
    and an operating time that is a whole, non-negative number of minutes:
    the span between its first and last start, rounded, so 0 exactly when
    the starts lie within 30 seconds, as for every gate with a single
    service.  Such a gate gets an infinite [atend_por_hora] (a division by
    zero), every other gate a finite one, and one such gate makes the mean
    rate shown for the hour infinite. *)
Theorem gate_rate_is_infinite_when_starts_are_close (df_filtrado : DataFrame)
    (hora : Z) :
  let detalhes := GatesDetalhes.detalhes_gates df_filtrado hora in
  Forall (fun d =>
            1 <= GatesDetalhes.atendimentos d /\
            GatesDetalhes.inicio d <= GatesDetalhes.fim d /\
            0 <= GatesDetalhes.tempo_operacao d /\
            (GatesDetalhes.tempo_operacao d = 0 <->
             GatesDetalhes.fim d - GatesDetalhes.inicio d <= 30) /\
            (GatesDetalhes.atendimentos d = 1 -> GatesDetalhes.tempo_operacao d = 0) /\
            (GatesDetalhes.tempo_operacao d = 0 ->
             GatesDetalhes.atend_por_hora d = Inf) /\
            (0 < GatesDetalhes.tempo_operacao d ->
             exists q, GatesDetalhes.atend_por_hora d = Fin q))
         detalhes /\
  (Exists (fun d => GatesDetalhes.tempo_operacao d = 0) detalhes ->
   GatesDetalhes.media_atend detalhes = Inf).
Proof.
  intros detalhes.
  assert (Hall : forall d, In d detalhes ->
             GatesDetalhes.atend_por_hora d = Inf \/
             exists q, GatesDetalhes.atend_por_hora d = Fin q).
  { intros d Hd. apply detalhe_limites in Hd.
    destruct Hd as [_ [_ [Hpos [_ [_ [Hz Hf]]]]]].
    destruct (Z.eq_dec (GatesDetalhes.tempo_operacao d) 0) as [E|E].
    - left. now apply Hz.
    - right. apply Hf. lia. }
  split.
  - apply Forall_forall. intros d Hd. now apply detalhe_limites in Hd.
  - intros Hex. apply Exists_exists in Hex. destruct Hex as [d [Hd Hz]].
    unfold GatesDetalhes.media_atend. apply py_mean_inf.
    + apply Forall_forall. intros x Hx. apply in_map_iff in Hx.
      destruct Hx as [d' [<- Hd']]. now apply Hall.
    + apply in_map_iff. exists d. split; [|exact Hd].
      apply detalhe_limites in Hd. now apply Hd.
Qed.

Example gate_details_example :
  let df := [ Exemplos.atendimento 1 "ana" 1 "ACME" "CARGA"
                (Exemplos.ts 20000 8 0 0) (Exemplos.ts 20000 8 5 0) (Exemplos.ts 20000 8 10 0);
              Exemplos.atendimento 2 "rui" 2 "ACME" "CARGA"
                (Exemplos.ts 20000 8 1 0) (Exemplos.ts 20000 8 20 0) (Exemplos.ts 20000 8 30 0);
              Exemplos.atendimento 3 "ana" 1 "BETA" "CARGA"
                (Exemplos.ts 20000 8 40 0) (Exemplos.ts 20000 8 50 0) (Exemplos.ts 20000 8 55 0) ] in
  map (fun d => (GatesDetalhes.gate d, GatesDetalhes.atendimentos d,
                 GatesDetalhes.tempo_operacao d, GatesDetalhes.atend_por_hora d))
      (GatesDetalhes.detalhes_gates df 8)
  = [ (1, 2, 45, Fin (inject_Z 27 / (10 # 1))%Q); (2, 1, 0, Inf) ] /\
  GatesDetalhes.media_atend (GatesDetalhes.detalhes_gates df 8) = Inf.
Proof. vm_compute. split; reflexivity. Qed.

(** ** Shifts, day periods and the hour picker *)

Lemma iloc_map {A B} (f : A -> B) (a b : nat) (l : list A) :
  map f (Py.iloc a b l) = Py.iloc a b (map f l).
Proof. unfold Py.iloc. now rewrite <- firstn_map, <- skipn_map. Qed.

Lemma horas_das_metricas (df : DataFrame) (filtros : Filtros.t)
    (cliente operacao : option string) (data_especifica : option Z) :
  map GatesHora.hora
      (fst (GatesHora.calcular_gates_hora df filtros cliente operacao data_especifica))
  = map Z.of_nat (seq 0 24).
Proof.
  unfold GatesHora.calcular_gates_hora. cbv zeta. cbn [fst].
  rewrite map_map. reflexivity.
Qed.

(** X17.  The three shift means of the gates insights are taken over these
    hourly rows: "Manhã" over the hours of TURNO A (7 to 14), "Tarde" over
    the hours of TURNO B (15 to 22), and "Noite" over hour 23 and the hours
    0 to 7, that is the eight hours of TURNO C and hour 7 once more: the
    slice [loc[0:7]] includes its end, so the row of hour 7 enters both the
    morning and the night mean. *)
Theorem night_shift_mean_includes_hour_seven (df : DataFrame) (filtros : Filtros.t)
    (cliente operacao : option string) (data_especifica : option Z) :
  let metricas :=
    fst (GatesHora.calcular_gates_hora df filtros cliente operacao data_especifica) in
  let horas := map Z.of_nat (seq 0 24) in
  let do_turno t :=
    filter (fun h => String.eqb (Espera.determinar_turno (Espera.Hora h)) t) horas in
  map GatesHora.hora (GatesInsights.linhas_manha metricas) = do_turno "TURNO A" /\
  map GatesHora.hora (GatesInsights.linhas_tarde metricas) = do_turno "TURNO B" /\
  map GatesHora.hora (GatesInsights.linhas_noite metricas) = [23; 0; 1; 2; 3; 4; 5; 6; 7] /\
  do_turno "TURNO C" = [0; 1; 2; 3; 4; 5; 6; 23].
Proof.
  intros metricas horas do_turno.
  pose proof (horas_das_metricas df filtros cliente operacao data_especifica) as H.
  fold metricas in H.
  unfold GatesInsights.linhas_manha, GatesInsights.linhas_tarde,
    GatesInsights.linhas_noite, GatesInsights.loc.
  rewrite map_app, !iloc_map, H.
  repeat match goal with |- _ /\ _ => split end; vm_compute; reflexivity.
Qed.

Lemma cor_da_faixa (t : Z) :
  (String.eqb (GatesDetalhes.get_color_by_duration t) "#ff6b6b" = (t <? 15)) /\
  (String.eqb (GatesDetalhes.get_color_by_duration t) "#ffd93d"
   = (15 <=? t) && (t <? 30)) /\
  (String.eqb (GatesDetalhes.get_color_by_duration t) "#51cf66"
   = (30 <=? t) && (t <? 45)) /\
  (String.eqb (GatesDetalhes.get_color_by_duration t) "#339af0" = (45 <=? t)).
Proof.
  unfold GatesDetalhes.get_color_by_duration.
  destruct (t <? 15) eqn:E1; [|destruct (t <? 30) eqn:E2; [|destruct (t <? 45) eqn:E3]];
    repeat match goal with |- _ /\ _ => split end;
    try (vm_compute; reflexivity);
    match goal with
    | |- String.eqb ?a ?b = _ =>
        let v := eval vm_compute in (String.eqb a b) in
        change (String.eqb a b) with v
    end;
    symmetry; rewrite ?andb_true_iff, ?andb_false_iff, ?Z.leb_le, ?Z.leb_gt, ?Z.ltb_lt,
      ?Z.ltb_ge;
    apply Z.ltb_lt in E1 || apply Z.ltb_ge in E1;
    try (apply Z.ltb_lt in E2 || apply Z.ltb_ge in E2);
    try (apply Z.ltb_lt in E3 || apply Z.ltb_ge in E3);
    lia.
Qed.

(** X18.  The pie chart of an hour and the progress bars use the same
    colour for a gate: each slice counts the gates whose bar
    [get_color_by_duration] paints in the colour of that slice, and the
    four slices together count every gate once. *)
Theorem pie_slices_count_the_gates_by_bar_colour (detalhes : list GatesDetalhes.detalhe) :
  GatesDetalhes.values detalhes
  = map (fun c =>
           List.length
             (filter (fun d =>
                        String.eqb (GatesDetalhes.get_color_by_duration
                                      (GatesDetalhes.tempo_operacao d)) c)
                     detalhes))
        GatesDetalhes.colors /\
  SpecLoad.soma_nat (GatesDetalhes.values detalhes) = List.length detalhes.
Proof.
  split.
  - unfold GatesDetalhes.values, GatesDetalhes.colors. cbn [map].
    repeat (apply (f_equal2 (@cons nat));
            [apply (f_equal (@List.length _)); apply filter_ext; intros d;
             destruct (cor_da_faixa (GatesDetalhes.tempo_operacao d))
               as [H1 [H2 [H3 H4]]]; congruence|]).
    reflexivity.
  - unfold GatesDetalhes.values. cbn [SpecLoad.soma_nat fold_right].
    induction detalhes as [|d t IH]; [reflexivity|].
    cbn [filter].
    destruct (GatesDetalhes.tempo_operacao d <? 15) eqn:E1;
      destruct (15 <=? GatesDetalhes.tempo_operacao d) eqn:E2;
      destruct (GatesDetalhes.tempo_operacao d <? 30) eqn:E3;
      destruct (30 <=? GatesDetalhes.tempo_operacao d) eqn:E4;
      destruct (GatesDetalhes.tempo_operacao d <? 45) eqn:E5;
      destruct (45 <=? GatesDetalhes.tempo_operacao d) eqn:E6;
      cbn [andb List.length]; try lia; exfalso;
      rewrite ?Z.leb_le, ?Z.leb_gt, ?Z.ltb_lt, ?Z.ltb_ge in *; lia.
Qed.

(** The label of an hour of the day reads back as that hour. *)
Lemma rotulo_da_hora (h : Z) :
  0 <= h <= 23 ->
  String.eqb (Py.fmt_02d h ++ ":00h") "" = false /\
  Relogio.int_str (Relogio.antes_dos_pontos (Py.fmt_02d h ++ ":00h")) = Some h.
Proof.
  intros Hh. rewrite <- (Z2Nat.id h) by lia.
  assert (Hn : (Z.to_nat h < 24)%nat) by lia.
  revert Hn. generalize (Z.to_nat h). clear Hh h. intros n Hn.
  do 24 (destruct n as [|n]; [vm_compute; split; reflexivity|]).
  lia.
Qed.

Lemma relogio_escolha (hs : list Z) (escolha : nat) :
  Forall (fun h => 0 <= h <= 23) hs ->
  match Relogio.opcoes_hora hs with
  | [] => Py.Retorna None
  | o :: os =>
      match nth_error (o :: os) escolha with
      | None => Py.Retorna None
      | Some hora_sel =>
          if String.eqb hora_sel "" then Py.Retorna None
          else match Relogio.int_str (Relogio.antes_dos_pontos hora_sel) with
               | Some h => Py.Retorna (Some h)
               | None => Py.Levanta "ValueError"
               end
      end
  end = Py.Retorna (nth_error hs escolha).
Proof.
  intros Hall.
  destruct (Relogio.opcoes_hora hs) as [|o os] eqn:Eo.
  - destruct hs; [|discriminate]. now destruct escolha.
  - rewrite <- Eo. clear Eo. unfold Relogio.opcoes_hora. rewrite nth_error_map.
    destruct (nth_error hs escolha) as [h|] eqn:En; [|reflexivity].
    cbn [option_map].
    assert (Hh : 0 <= h <= 23).
    { rewrite Forall_forall in Hall. apply Hall. eapply nth_error_In; eassumption. }
    destruct (rotulo_da_hora h Hh) as [-> ->]. reflexivity.
Qed.

(** X19.  The hour picker returns the hour that was chosen: for each of
    its four day periods and any list of active hours, choosing the n-th
    label of the period gives back the n-th active hour of that period,
    read from the label without error.  Its periods hold the active hours
    of the tabs of the insights panel with the same name. *)
Theorem hour_picker_returns_the_chosen_hour (horas_ativas : list Z) :
  Forall (fun kv =>
            forall escolha,
              Relogio.criar_relogio_interativo horas_ativas (fst kv) escolha
              = Py.Retorna (nth_error (snd kv) escolha))
         (GatesDetalhes.periodos_relogio horas_ativas) /\
  Forall2 (fun tab rel =>
             fst tab = fst rel /\
             forall h, In h (snd rel) <-> In h horas_ativas /\ In h (snd tab))
          GatesDetalhes.periodos (GatesDetalhes.periodos_relogio horas_ativas).
Proof.
  split.
  - unfold GatesDetalhes.periodos_relogio.
    repeat (apply Forall_cons || apply Forall_nil);
      intros escolha; unfold Relogio.criar_relogio_interativo,
        GatesDetalhes.periodos_relogio; cbn [fst snd find];
      repeat match goal with
             | |- context [String.eqb ?a ?b] =>
                 let v := eval vm_compute in (String.eqb a b) in
                 change (String.eqb a b) with v; cbv iota
             end;
      apply relogio_escolha; apply Forall_forall; intros h Hin;
      apply filter_In in Hin; destruct Hin as [_ Hin];
      apply andb_true_iff in Hin; rewrite !Z.leb_le in Hin; lia.
  - unfold GatesDetalhes.periodos, GatesDetalhes.periodos_relogio.
    repeat (apply Forall2_cons || apply Forall2_nil);
      (split; [reflexivity|]); intros h; cbn [snd];
      rewrite filter_In, andb_true_iff, !Z.leb_le;
      match goal with
      | |- context [Py.range ?a ?b] =>
          let v := eval vm_compute in (Py.range a b) in
          change (Py.range a b) with v
      end; simpl In; split; intros [H1 H2]; (split; [exact H1 | lia]).
Qed.

(** ** Movement per operation *)

Lemma fold_left_min_spec (t : list Z) (x : Z) :
  (fold_left Z.min t x = x \/ In (fold_left Z.min t x) t) /\
  Forall (fun y => fold_left Z.min t x <= y) t.
Proof.
  revert x. induction t as [|y t IH]; intros x; simpl.
  - split; [now left | constructor].
  - destruct (IH (Z.min x y)) as [H1 H2].
    pose proof (fold_left_min_le t (Z.min x y)) as Hle. split.
    + destruct H1 as [H|H]; [|now right; right].
      rewrite H. destruct (Z.min_spec x y) as [[_ ->]|[_ ->]]; auto.
    + constructor; [lia | exact H2].
Qed.

(** [min()] does not exceed [x] exactly when some value does not. *)
Lemma minZ_le_iff (l : list Z) (x : Z) :
  l <> [] -> (Py.minZ l <= x <-> exists y, In y l /\ y <= x).
Proof.
  destruct l as [|a t]; [congruence|]. intros _. simpl.
  destruct (fold_left_min_spec t a) as [Hin Hall].
  pose proof (fold_left_min_le t a) as Hle.
  rewrite Forall_forall in Hall. split.
  - intros H. exists (fold_left Z.min t a). split; [|exact H].
    destruct Hin as [->|Hin]; auto.
  - intros [y [[<-|Hy] Hyx]]; [lia|]. specialize (Hall y Hy). lia.
Qed.

(** [max()] reaches [x] exactly when some value does. *)
Lemma maxZ_ge_iff (l : list Z) (x : Z) :
  l <> [] -> (x <= Py.maxZ l <-> exists y, In y l /\ x <= y).
Proof.
  destruct l as [|a t]; [congruence|]. intros _. simpl.
  destruct (fold_left_max_ge t a) as [Hle Hall].
  rewrite Forall_forall in Hall. split.
  - intros H. exists (fold_left Z.max t a). split; [|exact H].
    destruct (fold_left_max_In t a) as [->|Hin]; auto.
  - intros [y [[<-|Hy] Hyx]]; [lia|]. specialize (Hall y Hy). lia.
Qed.

Lemma movop_filtrar_In (df : DataFrame) (filtros : Filtros.t)
    (p : Filtros.nome_periodo) (r : registro) :
  In r (MovOperacaoAba.filtrar df filtros p) <->
  In r df /\
  Filtros.inicio (Filtros.get filtros p) <= Tempo.date (retirada r)
    <= Filtros.fim (Filtros.get filtros p) /\
  (Filtros.cliente filtros <> ["Todos"] ->
   exists c, CLIENTE r = Some c /\ In c (Filtros.cliente filtros)) /\
  (Filtros.turno filtros <> ["Todos"] ->
   In (MovOperacao.get_turno (Tempo.hour (retirada r))) (Filtros.turno filtros)) /\
  (Filtros.operacao filtros <> ["Todas"] ->
   exists o, OPERACAO r = Some o /\ In o (Filtros.operacao filtros)).
Proof.
  unfold MovOperacaoAba.filtrar. cbv zeta.
  rewrite !filtro_opcional, filter_In.
  unfold Filtros.mask_periodo. rewrite andb_true_iff, !Z.leb_le.
  rewrite !lista_neq, !isin_opt_In, isin_In. unfold MovOperacao.turno_de. tauto.
Qed.

Lemma movop_calcular_unfold (df : DataFrame) (filtros : Filtros.t)
    (p : Filtros.nome_periodo) :
  df <> [] ->
  MovOperacaoAba.calcular_movimentacao_por_periodo df filtros p
  = if (Filtros.inicio (Filtros.get filtros p) <? Py.minZ (MovOperacaoAba.datas df))
       || (Py.maxZ (MovOperacaoAba.datas df) <? Filtros.fim (Filtros.get filtros p))
    then []
    else if (List.length (MovOperacaoAba.filtrar df filtros p) =? 0)%nat then []
    else map (fun kg : string * list registro =>
                (fst kg, Z.of_nat (List.length (map (fun r : registro => id r) (snd kg)))))
             (Pandas.groupby String.eqb String.leb OPERACAO
                (MovOperacaoAba.filtrar df filtros p)).
Proof. destruct df; [congruence | reflexivity]. Qed.

(** X20.  [calcular_movimentacao_por_periodo] of the operations tab gives
    data only for a period that lies inside the dates of the base: it has a
    row for an operation exactly when some record of the base is dated on
    or before the period's start, some record on or after its end, and the
    selection holds a record of that operation; the quantity is then the
    number of selected records of the operation.  Operations appear once. *)
Theorem operation_counts_need_a_period_inside_the_base_dates (df : DataFrame)
    (filtros : Filtros.t) (p : Filtros.nome_periodo) :
  let res := MovOperacaoAba.calcular_movimentacao_por_periodo df filtros p in
  let sel := MovOperacaoAba.filtrar df filtros p in
  (forall k q, In (k, q) res <->
     (exists r : registro, In r df /\
        Tempo.date (retirada r) <= Filtros.inicio (Filtros.get filtros p)) /\
     (exists r : registro, In r df /\
        Filtros.fim (Filtros.get filtros p) <= Tempo.date (retirada r)) /\
     (exists r, In r sel /\ OPERACAO r = Some k) /\
     q = Z.of_nat (List.length (filter (fun r => Pandas.eq_opt (OPERACAO r) k) sel))) /\
  NoDup (map fst res) /\
  (forall r, In r sel <->
     In r df /\
     Filtros.inicio (Filtros.get filtros p) <= Tempo.date (retirada r)
       <= Filtros.fim (Filtros.get filtros p) /\
     (Filtros.cliente filtros <> ["Todos"] ->
      exists c, CLIENTE r = Some c /\ In c (Filtros.cliente filtros)) /\
     (Filtros.turno filtros <> ["Todos"] ->
      In (MovOperacao.get_turno (Tempo.hour (retirada r))) (Filtros.turno filtros)) /\
     (Filtros.operacao filtros <> ["Todas"] ->
      exists o, OPERACAO r = Some o /\ In o (Filtros.operacao filtros))).
Proof.
  intros res sel.
  assert (Hgrp : forall k q,
    In (k, q) (map (fun kg : string * list registro =>
                      (fst kg, Z.of_nat (List.length
                                 (map (fun r : registro => id r) (snd kg)))))
                 (Pandas.groupby String.eqb String.leb OPERACAO sel)) <->
    (exists r, In r sel /\ OPERACAO r = Some k) /\
    q = Z.of_nat (List.length (filter (fun r => Pandas.eq_opt (OPERACAO r) k) sel))).
  { intros k q. rewrite in_map_iff.
    assert (Hg : Pandas.grupo_de String.eqb OPERACAO k sel
                 = filter (fun r => Pandas.eq_opt (OPERACAO r) k) sel).
    { unfold Pandas.grupo_de. apply filter_ext. intros x. unfold Pandas.eq_opt.
      destruct (OPERACAO x); [apply String.eqb_sym | reflexivity]. }
    split.
    - intros [[k' g] [Heq Hin]]. simpl in Heq. inversion Heq; subst.
      apply (groupby_In String.eqb String.leb string_eqb_eq) in Hin.
      destruct Hin as [Hex ->]. split; [exact Hex|].
      now rewrite length_map, Hg.
    - intros [Hex ->].
      exists (k, Pandas.grupo_de String.eqb OPERACAO k sel). split.
      + simpl. now rewrite length_map, Hg.
      + apply (groupby_In String.eqb String.leb string_eqb_eq). now split. }
  assert (Hdatas : forall P : Z -> Prop,
             (exists y, In y (MovOperacaoAba.datas df) /\ P y) <->
             (exists r : registro, In r df /\ P (Tempo.date (retirada r)))).
  { intros P. unfold MovOperacaoAba.datas. split.
    - intros [y [Hy HP]]. apply in_map_iff in Hy. destruct Hy as [r [<- Hr]].
      now exists r.
    - intros [r [Hr HP]]. exists (Tempo.date (retirada r)). split; [|exact HP].
      apply in_map_iff. now exists r. }
  repeat match goal with |- _ /\ _ => split end.
  - intros k q. unfold res.
    destruct df as [|r0 df'].
    + split; [contradiction|]. intros [[r [[] _]] _].
    + rewrite movop_calcular_unfold by discriminate.
      set (df := r0 :: df') in *.
      assert (Hne : MovOperacaoAba.datas df <> []) by discriminate.
      pose proof (minZ_le_iff (MovOperacaoAba.datas df)
                    (Filtros.inicio (Filtros.get filtros p)) Hne) as Hmin.
      pose proof (maxZ_ge_iff (MovOperacaoAba.datas df)
                    (Filtros.fim (Filtros.get filtros p)) Hne) as Hmax.
      rewrite Hdatas in Hmin, Hmax.
      destruct (_ || _) eqn:Efora.
      * split; [contradiction|]. intros [H1 [H2 _]].
        apply Hmin in H1. apply Hmax in H2.
        apply orb_true_iff in Efora. rewrite !Z.ltb_lt in Efora. lia.
      * apply orb_false_iff in Efora. rewrite !Z.ltb_ge in Efora.
        destruct Efora as [E1 E2]. apply Hmin in E1. apply Hmax in E2.
        fold sel. destruct (List.length sel =? 0)%nat eqn:El.
        -- apply Nat.eqb_eq in El. apply length_zero_iff_nil in El.
           split; [contradiction|]. intros [_ [_ [[r [Hr _]] _]]].
           rewrite El in Hr. contradiction.
        -- rewrite Hgrp. tauto.
  - unfold res.
    destruct df as [|r0 df']; [constructor|].
    rewrite movop_calcular_unfold by discriminate.
    destruct (_ || _); [constructor|].
    destruct (_ =? _)%nat; [constructor|].
    rewrite map_map. simpl.
    apply (groupby_keys_NoDup String.eqb String.leb string_eqb_eq).
  - intros r. apply movop_filtrar_In.
Qed.

Example operation_counts_example :
  let fora := Filtros.mkFiltros (Filtros.mkPeriodo 19999 20001) (Filtros.mkPeriodo 20000 20001)
                ["Todos"] ["Todas"] ["Todos"] None None in
  MovOperacaoAba.calcular_movimentacao_por_periodo Exemplos.dois_dias fora Filtros.periodo1
  = [] /\
  MovOperacaoAba.calcular_movimentacao_por_periodo Exemplos.dois_dias fora Filtros.periodo2
  = [("CARGA", 7)] /\
  MovCliente.calcular_movimentacao_por_periodo Exemplos.dois_dias fora Filtros.periodo1
  = [("ACME", 5); ("BETA", 2)].
Proof. vm_compute. repeat split. Qed.

Lemma movop_calcular_pos (df : DataFrame) (filtros : Filtros.t)
    (p : Filtros.nome_periodo) (k : string) (q : Z) :
  In (k, q) (MovOperacaoAba.calcular_movimentacao_por_periodo df filtros p) -> 1 <= q.
Proof.
  destruct df as [|r0 df']; [contradiction|].
  rewrite movop_calcular_unfold by discriminate.
  destruct (_ || _); [contradiction|].
  destruct (_ =? _)%nat; [contradiction|].
  rewrite in_map_iff. intros [[k' g] [Heq Hin]]. simpl in Heq.
  apply (groupby_nonempty String.eqb String.leb string_eqb_eq) in Hin.
  inversion Heq; subst. rewrite length_map. lia.
Qed.

Lemma movop_df_comp_rows (p1 p2 : list (string * Z)) (row : MovOperacaoAba.comp) :
  In row (MovOperacaoAba.df_comp p1 p2) <->
  exists k q1 q2,
    In (k, q1) p1 /\ In (k, q2) p2 /\
    row = MovOperacaoAba.mkComp k q1 q2
            (variacao_pct (inject_Z q1) (inject_Z q2)) (q1 + q2).
Proof.
  unfold MovOperacaoAba.df_comp. rewrite in_map_iff. split.
  - intros [[k [q1 q2]] [Heq Hin]]. apply merge_inner_In in Hin.
    exists k, q1, q2. simpl in Heq. now repeat split.
  - intros [k [q1 [q2 [H1 [H2 ->]]]]]. exists (k, (q1, q2)).
    split; [reflexivity|]. now apply merge_inner_In.
Qed.

Lemma sumZ_ge (a : Z) (l : list Z) :
  Forall (fun x => a <= x) l -> a * Z.of_nat (List.length l) <= Pandas.sumZ l.
Proof.
  induction 1 as [|x t Hx _ IH]; [simpl; lia|].
  change (Pandas.sumZ (x :: t)) with (x + Pandas.sumZ t).
  change (List.length (x :: t)) with (S (List.length t)).
  rewrite Nat2Z.inj_succ. lia.
Qed.

(** [int(Series.mean())] of a non-empty column of positive whole numbers is
    the integer quotient of the sum by the number of rows. *)
Lemma int_mean (l : list Z) :
  l <> [] -> 0 <= Pandas.sumZ l ->
  MovOperacaoAba.int_float (MovOperacaoAba.mean l)
  = Py.Retorna (Pandas.sumZ l / Z.of_nat (List.length l)) /\
  MovOperacaoAba.mean l
  = Fin (inject_Z (Pandas.sumZ l) / inject_Z (Z.of_nat (List.length l)))%Q.
Proof.
  intros Hne Hs. unfold MovOperacaoAba.mean, Float.of_Z. cbn [Float.div].
  destruct l as [|x t]; [congruence|].
  set (n := List.length (x :: t)).
  assert (Hn : Z.of_nat n = Z.pos (Pos.of_succ_nat (List.length t)))
    by (unfold n; simpl; reflexivity).
  rewrite (Qeq_bool_false (inject_Z (Z.of_nat n)))
    by (apply inject_Z_nonzero; lia).
  split; [|reflexivity].
  cbn [MovOperacaoAba.int_float]. f_equal.
  assert (Hfl : Qfloor (inject_Z (Pandas.sumZ (x :: t)) / inject_Z (Z.of_nat n))
                = Pandas.sumZ (x :: t) / Z.of_nat n).
  { rewrite Hn. change (inject_Z (Z.pos ?p)) with (Z.pos p # 1)%Q.
    now rewrite Qfloor_div_pos, Qfloor_Z. }
  rewrite int_floor_nonneg; [exact Hfl|].
  rewrite Hfl. apply Z.div_pos; lia.
Qed.

(** X21.  The insights of the operations tab, computed from the two period
    tables: without an operation present in both periods the means are NaN
    and printing [int(media_p1)] raises; with one, the call gets through,
    each total is at least the number of shared operations (so the total
    variation divides by a positive number and is finite), and the printed
    means are the integer quotients of the totals by that number. *)
Theorem operation_insights_need_a_shared_operation (df : DataFrame)
    (filtros : Filtros.t) :
  let mov_p1 := MovOperacaoAba.calcular_movimentacao_por_periodo df filtros Filtros.periodo1 in
  let mov_p2 := MovOperacaoAba.calcular_movimentacao_por_periodo df filtros Filtros.periodo2 in
  let df_comp := MovOperacaoAba.df_comp mov_p1 mov_p2 in
  let n := Z.of_nat (List.length df_comp) in
  (df_comp = [] <-> forall k, In k (map fst mov_p1) -> ~ In k (map fst mov_p2)) /\
  (df_comp = [] ->
   MovOperacaoAba.gerar_insights_operacao mov_p1 mov_p2 = Py.Levanta "ValueError") /\
  (df_comp <> [] ->
   exists ind,
     MovOperacaoAba.gerar_insights_operacao mov_p1 mov_p2 = Py.Retorna ind /\
     MovOperacaoAba.total_p1 ind
     = Pandas.sumZ (map MovOperacaoAba.quantidade_p1 df_comp) /\
     MovOperacaoAba.total_p2 ind
     = Pandas.sumZ (map MovOperacaoAba.quantidade_p2 df_comp) /\
     n <= MovOperacaoAba.total_p1 ind /\ n <= MovOperacaoAba.total_p2 ind /\
     MovOperacaoAba.media_p1 ind = MovOperacaoAba.total_p1 ind / n /\
     MovOperacaoAba.media_p2 ind = MovOperacaoAba.total_p2 ind / n /\
     MovOperacaoAba.variacao_total ind
     = Fin (inject_Z (MovOperacaoAba.total_p2 ind - MovOperacaoAba.total_p1 ind)
            / inject_Z (MovOperacaoAba.total_p1 ind) * (100 # 1))%Q).
Proof.
  intros mov_p1 mov_p2 df_comp n.
  assert (Hfst : forall k (l : list (string * Z)),
             In k (map fst l) <-> exists v, In (k, v) l).
  { intros k l. rewrite in_map_iff. split.
    - intros [[a b] [Hk Hin]]. simpl in Hk. subst. now exists b.
    - intros [v Hv]. now exists (k, v). }
  assert (Hq1 : Forall (fun x => 1 <= x) (map MovOperacaoAba.quantidade_p1 df_comp)).
  { apply Forall_forall. intros x Hx. apply in_map_iff in Hx.
    destruct Hx as [row [<- Hrow]]. apply movop_df_comp_rows in Hrow.
    destruct Hrow as [k [q1 [q2 [H1 [_ ->]]]]]. simpl.
    eapply movop_calcular_pos; exact H1. }
  assert (Hq2 : Forall (fun x => 1 <= x) (map MovOperacaoAba.quantidade_p2 df_comp)).
  { apply Forall_forall. intros x Hx. apply in_map_iff in Hx.
    destruct Hx as [row [<- Hrow]]. apply movop_df_comp_rows in Hrow.
    destruct Hrow as [k [q1 [q2 [_ [H2 ->]]]]]. simpl.
    eapply movop_calcular_pos; exact H2. }
  repeat match goal with |- _ /\ _ => split end.
  - split.
    + intros Hnil k H1 H2. apply Hfst in H1. apply Hfst in H2.
      destruct H1 as [q1 H1]. destruct H2 as [q2 H2].
      assert (Hin : In (MovOperacaoAba.mkComp k q1 q2
                          (variacao_pct (inject_Z q1) (inject_Z q2)) (q1 + q2)) df_comp)
        by (apply movop_df_comp_rows; exists k, q1, q2; auto).
      rewrite Hnil in Hin. contradiction.
    + intros Hno. destruct df_comp as [|row rest] eqn:E; [reflexivity|]. exfalso.
      assert (Hrow : In row (MovOperacaoAba.df_comp mov_p1 mov_p2))
        by (fold df_comp; rewrite E; now left).
      apply movop_df_comp_rows in Hrow. destruct Hrow as [k [q1 [q2 [H1 [H2 _]]]]].
      apply (Hno k); apply Hfst; eauto.
  - intros Hnil. unfold MovOperacaoAba.gerar_insights_operacao. cbv zeta.
    fold df_comp. rewrite Hnil. reflexivity.
  - intros Hne. unfold MovOperacaoAba.gerar_insights_operacao. cbv zeta.
    fold df_comp.
    set (l1 := map MovOperacaoAba.quantidade_p1 df_comp) in *.
    set (l2 := map MovOperacaoAba.quantidade_p2 df_comp) in *.
    pose proof (sumZ_ge 1 l1 Hq1) as Hs1. pose proof (sumZ_ge 1 l2 Hq2) as Hs2.
    assert (Hl1 : List.length l1 = List.length df_comp) by apply length_map.
    assert (Hl2 : List.length l2 = List.length df_comp) by apply length_map.
    assert (Hn : 0 < n).
    { unfold n. destruct df_comp; [congruence | simpl; lia]. }
    assert (Hne1 : l1 <> []) by (intros E; rewrite E in Hl1; simpl in Hl1; lia).
    assert (Hne2 : l2 <> []) by (intros E; rewrite E in Hl2; simpl in Hl2; lia).
    destruct (int_mean l1 Hne1 ltac:(lia)) as [Hi1 Hm1].
    destruct (int_mean l2 Hne2 ltac:(lia)) as [Hi2 Hm2].
    rewrite Hi1, Hi2. eexists. split; [reflexivity|].
    cbn [MovOperacaoAba.total_p1 MovOperacaoAba.total_p2 MovOperacaoAba.media_p1
         MovOperacaoAba.media_p2 MovOperacaoAba.variacao_total].
    rewrite Hl1, Hl2. fold n.
    repeat match goal with |- _ /\ _ => split end; try reflexivity; try lia.
    unfold Float.of_Z. cbn [Float.div].
    rewrite (Qeq_bool_false (inject_Z (Pandas.sumZ l1)))
      by (apply inject_Z_nonzero; lia).
    reflexivity.
Qed.

Example operation_insights_example :
  let mov := MovOperacaoAba.calcular_movimentacao_por_periodo
               Exemplos.dois_dias Exemplos.filtros in
  mov Filtros.periodo1 = [("CARGA", 7)] /\
  (exists v m,
     MovOperacaoAba.gerar_insights_operacao (mov Filtros.periodo1) (mov Filtros.periodo2)
     = Py.Retorna (MovOperacaoAba.mkIndicadores 7 7 (Fin v) 7 7 (Fin m))
     /\ (v == 0)%Q /\ (m == 0)%Q) /\
  MovOperacaoAba.gerar_insights_operacao [("CARGA", 7)] [("DESCARGA", 2)]
  = Py.Levanta "ValueError".
Proof.
  split; [vm_compute; reflexivity|]. split.
  - eexists. eexists. split; [vm_compute; reflexivity|]. split; reflexivity.
  - vm_compute. reflexivity.
Qed.

(** ** The comparison tables are sorted *)

(** X22.  Each comparison table comes out in the order its chart shows,
    whatever the two period tables hold: the client-movement and the
    operation-movement tables by increasing total, the wait-time and the
    service-time tables by decreasing total of the two means, and the
    idleness table by decreasing idle time of period 2. *)
Theorem comparison_tables_are_sorted_as_charted :
  (forall p1 p2,
     StronglySorted (fun a b => MovCliente.total a <= MovCliente.total b)
       (MovCliente.criar_grafico_comparativo p1 p2)) /\
  (forall p1 p2,
     StronglySorted (fun a b => MovOperacaoAba.total a <= MovOperacaoAba.total b)
       (MovOperacaoAba.criar_grafico_comparativo p1 p2)) /\
  (forall p1 p2,
     StronglySorted (fun a b => (ct_total b <= ct_total a)%Q)
       (Espera.criar_grafico_comparativo p1 p2)) /\
  (forall p1 p2 dados_medias,
     StronglySorted (fun a b => (ct_total b <= ct_total a)%Q)
       (TempoAtend.criar_grafico_comparativo p1 p2 dados_medias)) /\
  (forall p1 p2,
     StronglySorted
       (fun a b => (Ociosidade.valor (Ociosidade.tempo_ocioso_p2 b)
                    <= Ociosidade.valor (Ociosidade.tempo_ocioso_p2 a))%Q)
       (Ociosidade.criar_grafico_comparativo p1 p2)).
Proof.
  repeat match goal with |- _ /\ _ => split end.
  - intros p1 p2. unfold MovCliente.criar_grafico_comparativo. cbv zeta.
    eapply StronglySorted_impl;
      [|apply (sort_values_sorted Z.leb MovCliente.total Zleb_total Zleb_trans)].
    intros a b H. now apply Z.leb_le.
  - intros p1 p2. unfold MovOperacaoAba.criar_grafico_comparativo.
    eapply StronglySorted_impl;
      [|apply (sort_values_sorted Z.leb MovOperacaoAba.total Zleb_total Zleb_trans)].
    intros a b H. now apply Z.leb_le.
  - intros p1 p2. unfold Espera.criar_grafico_comparativo. cbv zeta.
    eapply StronglySorted_impl;
      [|apply (sort_values_sorted Qgeb ct_total Qgeb_total Qgeb_trans)].
    intros a b H. now apply Qle_bool_iff.
  - intros p1 p2 dados_medias. unfold TempoAtend.criar_grafico_comparativo. cbv zeta.
    eapply StronglySorted_impl;
      [|apply (sort_values_sorted Qgeb ct_total Qgeb_total Qgeb_trans)].
    intros a b H. now apply Qle_bool_iff.
  - intros p1 p2. unfold Ociosidade.criar_grafico_comparativo. cbv zeta.
    eapply StronglySorted_map;
      [|apply (sort_values_sorted Qgeb
                 (fun row : string * (float64 * float64) =>
                    Ociosidade.valor (snd (snd row)))
                 Qgeb_total Qgeb_trans)].
    intros a b H. cbn [Ociosidade.tempo_ocioso_p2]. now apply Qle_bool_iff.
Qed.

(** ** The peak hour *)

(** The scan of [idxmax]: the best entry so far is strictly above all
    entries before it and not below the entries after it. *)
Lemma idxmax_scan (t pre post : list (Z * Z)) (best : Z * Z) :
  Forall (fun x => snd x < snd best) pre ->
  Forall (fun x => snd x <= snd best) post ->
  exists pre' post',
    let b := fold_left (fun best x => if snd best <? snd x then x else best) t best in
    (pre ++ best :: post ++ t)%list = (pre' ++ b :: post')%list /\
    Forall (fun x => snd x < snd b) pre' /\
    Forall (fun x => snd x <= snd b) post'.
Proof.
  revert pre post best. induction t as [|x t IH]; intros pre post best Hpre Hpost.
  - exists pre, post. cbn [fold_left]. rewrite app_nil_r. auto.
  - cbn [fold_left]. destruct (snd best <? snd x) eqn:E.
    + apply Z.ltb_lt in E.
      destruct (IH (pre ++ best :: post)%list [] x) as [pre' [post' [H1 H2]]].
      * apply Forall_app. split.
        -- eapply Forall_impl; [|exact Hpre]. simpl. intros; lia.
        -- constructor; [exact E|].
           eapply Forall_impl; [|exact Hpost]. simpl. intros; lia.
      * constructor.
      * exists pre', post'. split; [|exact H2].
        rewrite <- H1. cbn [app]. now rewrite <- app_assoc.
    + apply Z.ltb_ge in E.
      destruct (IH pre (post ++ [x])%list best) as [pre' [post' [H1 H2]]].
      * exact Hpre.
      * apply Forall_app. split; [exact Hpost|]. constructor; [exact E | constructor].
      * exists pre', post'. split; [|exact H2].
        rewrite <- H1. now rewrite <- app_assoc.
Qed.

Lemma idxmax_spec (s : list (Z * Z)) (h : Z) :
  ComboioI.idxmax s = Some h ->
  exists c pre post,
    s = (pre ++ (h, c) :: post)%list /\
    Forall (fun x => snd x < c) pre /\ Forall (fun x => snd x <= c) post.
Proof.
  destruct s as [|kv t]; [discriminate|]. cbn [ComboioI.idxmax]. intros [= <-].
  destruct (idxmax_scan t [] [] kv) as [pre [post [H1 [H2 H3]]]];
    [constructor | constructor |].
  cbv zeta in H1, H2, H3. cbn [app] in H1.
  set (b := fold_left _ t kv) in *.
  exists (snd b), pre, post. rewrite H1. destruct b as [k c]. auto.
Qed.

Lemma StronglySorted_meio {A} (R : A -> A -> Prop) (l1 l2 : list A) (b : A) :
  StronglySorted R (l1 ++ b :: l2) -> Forall (R b) l2.
Proof.
  induction l1 as [|x l1 IH]; cbn [app]; intros H.
  - now apply StronglySorted_inv in H.
  - apply StronglySorted_inv in H. now apply IH.
Qed.

(** The per-hour counts are listed by increasing hour. *)
Lemma picos_sorted (df : DataFrame) :
  StronglySorted (fun a b => fst a <= fst b) (ComboioI.picos df).
Proof.
  unfold ComboioI.picos, ComboioI.contagem_por, Pandas.groupby.
  rewrite map_map. cbn [fst].
  eapply StronglySorted_map;
    [|apply (sort_values_sorted Z.leb (fun k : Z => k) Zleb_total Zleb_trans)].
  intros a b H. cbn [fst]. now apply Z.leb_le.
Qed.

Lemma pico_maximo (df : DataFrame) (pico : Z) :
  ComboioI.idxmax (ComboioI.picos df) = Some pico ->
  0 < SpecComboio.retiradas_na_hora pico df /\
  (forall h, SpecComboio.retiradas_na_hora h df
             <= SpecComboio.retiradas_na_hora pico df) /\
  (forall h, SpecComboio.retiradas_na_hora h df
             = SpecComboio.retiradas_na_hora pico df -> pico <= h).
Proof.
  intros Hidx. apply idxmax_spec in Hidx.
  destruct Hidx as [c [pre [post [Hs [Hpre Hpost]]]]].
  assert (Hpico : In (pico, c) (ComboioI.picos df))
    by (rewrite Hs; apply in_elt).
  apply picos_In in Hpico. destruct Hpico as [Hc Hcp]. rewrite <- Hcp.
  assert (Hin : forall h, 0 < SpecComboio.retiradas_na_hora h df ->
             In (h, SpecComboio.retiradas_na_hora h df) pre \/
             h = pico \/
             In (h, SpecComboio.retiradas_na_hora h df) post).
  { intros h Hh.
    assert (H : In (h, SpecComboio.retiradas_na_hora h df) (ComboioI.picos df))
      by (apply picos_In; now split).
    rewrite Hs in H. apply in_app_or in H. destruct H as [H|[H|H]]; auto.
    inversion H; subst. auto. }
  rewrite Forall_forall in Hpre, Hpost.
  split; [exact Hc|]. split.
  - intros h.
    destruct (Z_lt_le_dec 0 (SpecComboio.retiradas_na_hora h df)) as [Hh|Hh]; [|lia].
    destruct (Hin h Hh) as [H|[->|H]].
    + specialize (Hpre _ H). simpl in Hpre. lia.
    + lia.
    + specialize (Hpost _ H). simpl in Hpost. lia.
  - intros h Heq.
    destruct (Hin h ltac:(lia)) as [H|[->|H]].
    + specialize (Hpre _ H). simpl in Hpre. lia.
    + lia.
    + pose proof (picos_sorted df) as Hsorted. rewrite Hs in Hsorted.
      apply StronglySorted_meio in Hsorted. rewrite Forall_forall in Hsorted.
      apply (Hsorted _ H).
Qed.

(** X23.  When the comboio insights are produced, the peak hour is an hour
    with withdrawals that has the largest number of them, the earliest such
    hour when several tie; and whenever some hour is critical (above the
    mean plus one standard deviation) the peak hour is among the critical
    hours. *)
Theorem peak_hour_has_the_most_withdrawals (df : DataFrame) (ins : ComboioI.insights) :
  ComboioI.calcular_insights df = Some ins ->
  let pico := ComboioI.hora_pico ins in
  0 < SpecComboio.retiradas_na_hora pico df /\
  (forall h, SpecComboio.retiradas_na_hora h df
             <= SpecComboio.retiradas_na_hora pico df) /\
  (forall h, SpecComboio.retiradas_na_hora h df
             = SpecComboio.retiradas_na_hora pico df -> pico <= h) /\
  (ComboioI.horarios_criticos ins <> [] ->
   In (pico, SpecComboio.retiradas_na_hora pico df) (ComboioI.horarios_criticos ins)).
Proof.
  intros Hins pico. unfold ComboioI.calcular_insights in Hins.
  destruct (ComboioI.idxmax (ComboioI.picos df)) as [hp|] eqn:Hidx; [|discriminate].
  destruct (ComboioI.int_ _) as [t|]; [|discriminate].
  injection Hins as <-. cbn [ComboioI.hora_pico ComboioI.horarios_criticos] in *.
  unfold pico. clear pico.
  destruct (pico_maximo df hp Hidx) as [Hpos [Hmax Hfirst]].
  repeat match goal with |- _ /\ _ => split end; try assumption.
  intros Hne.
  destruct (filter _ (ComboioI.picos df)) as [|[h c] rest] eqn:Ef; [congruence|].
  rewrite <- Ef.
  assert (Hhc : In (h, c) (filter (fun kv => ComboioI.maior_que (inject_Z (snd kv))
                    (ComboioI.mean_mais_std
                       (map (fun kv => inject_Z (snd kv)) (ComboioI.picos df))))
                    (ComboioI.picos df)))
    by (rewrite Ef; now left).
  apply filter_In in Hhc. destruct Hhc as [Hin Hcrit]. cbn [snd] in Hcrit.
  apply filter_In. split; [apply picos_In; now split|]. cbn [snd].
  rewrite map_inject_snd in *.
  destruct (le_lt_dec (List.length (map snd (ComboioI.picos df))) 1) as [Hn|Hn].
  - rewrite (maior_que_false c _ Hn) in Hcrit. discriminate.
  - apply (maior_que_limiar _ _ Hn). apply (maior_que_limiar _ _ Hn) in Hcrit.
    apply picos_In in Hin. destruct Hin as [_ ->].
    specialize (Hmax h). apply IZR_le in Hmax. lra.
Qed.

Lemma peak_hour_has_the_most_withdrawals_witness :
  ComboioI.calcular_insights Exemplos.manha
  = Some (ComboioI.mkInsights 8 [(8, 5)] 2) /\
  0 < SpecComboio.retiradas_na_hora 8 Exemplos.manha /\
  SpecComboio.retiradas_na_hora 9 Exemplos.manha
  <= SpecComboio.retiradas_na_hora 8 Exemplos.manha.
Proof.
  assert (H : ComboioI.calcular_insights Exemplos.manha
              = Some (ComboioI.mkInsights 8 [(8, 5)] 2))
    by (vm_compute; reflexivity).
  split; [exact H|].
  pose proof (peak_hour_has_the_most_withdrawals Exemplos.manha _ H) as P.
  cbv zeta in P. cbn [ComboioI.hora_pico] in P.
  split; [exact (proj1 P) | exact (proj1 (proj2 P) 9)].
Defined.

(** ** The heat map counts every withdrawal once *)

(** Two lists in increasing order without repetition that hold the same
    values are the same list. *)
Lemma ordenadas_iguais (l1 l2 : list Z) :
  StronglySorted Z.le l1 -> NoDup l1 ->
  StronglySorted Z.le l2 -> NoDup l2 ->
  (forall x, In x l1 <-> In x l2) -> l1 = l2.
Proof.
  revert l2. induction l1 as [|a t1 IH]; intros l2 Hs1 Hn1 Hs2 Hn2 Heq.
  - destruct l2 as [|b t2]; [reflexivity|].
    exfalso. apply (Heq b). now left.
  - destruct l2 as [|b t2]; [exfalso; apply (Heq a); now left|].
    apply StronglySorted_inv in Hs1. destruct Hs1 as [Hs1 Ha].
    apply StronglySorted_inv in Hs2. destruct Hs2 as [Hs2 Hb].
    inversion Hn1 as [|? ? Hna Hn1']; subst.
    inversion Hn2 as [|? ? Hnb Hn2']; subst.
    rewrite Forall_forall in Ha, Hb.
    assert (Hab : a = b).
    { assert (H1 : In a (b :: t2)) by (apply Heq; now left).
      assert (H2 : In b (a :: t1)) by (apply Heq; now left).
      destruct H1 as [H1|H1]; [congruence|].
      destruct H2 as [H2|H2]; [congruence|].
      specialize (Ha _ H2). specialize (Hb _ H1). lia. }
    subst b. f_equal. apply IH; try assumption.
    intros x. split; intros Hx.
    + assert (H : In x (a :: t2)) by (apply Heq; now right).
      destruct H as [<-|H]; [contradiction | exact H].
    + assert (H : In x (a :: t1)) by (apply Heq; now right).
      destruct H as [<-|H]; [contradiction | exact H].
Qed.

Lemma sorted_Z_sorted (l : list Z) : StronglySorted Z.le (Pandas.sorted Z.leb l).
Proof.
  unfold Pandas.sorted.
  eapply StronglySorted_impl;
    [|apply (sort_values_sorted Z.leb (fun k : Z => k) Zleb_total Zleb_trans)].
  intros a b H. now apply Z.leb_le.
Qed.

Lemma range_In (a b x : Z) : In x (Py.range a b) <-> a <= x < b.
Proof.
  unfold Py.range. rewrite in_map_iff. split.
  - intros [n [<- Hn]]. apply in_seq in Hn. lia.
  - intros H. exists (Z.to_nat (x - a)). split; [lia|]. apply in_seq. lia.
Qed.

Lemma range_sorted (a b : Z) : StronglySorted Z.le (Py.range a b) /\ NoDup (Py.range a b).
Proof.
  unfold Py.range. generalize (Z.to_nat (b - a)). intros n.
  assert (H : forall s, StronglySorted Z.le (map (fun n => a + Z.of_nat n) (seq s n)) /\
                        NoDup (map (fun n => a + Z.of_nat n) (seq s n))).
  { induction n as [|n IH]; intros s; simpl.
    - split; constructor.
    - destruct (IH (S s)) as [H1 H2]. split.
      + constructor; [exact H1|]. apply Forall_forall. intros x Hx.
        apply in_map_iff in Hx. destruct Hx as [m [<- Hm]]. apply in_seq in Hm. lia.
      + constructor; [|exact H2]. intros Hx.
        apply in_map_iff in Hx. destruct Hx as [m [E Hm]]. apply in_seq in Hm. lia. }
  apply H.
Qed.

Lemma valor_em_map (f : Z -> Z) (cols : list Z) (c : Z) :
  In c cols -> ComboioMapa.valor_em cols (map f cols) c = f c.
Proof.
  unfold ComboioMapa.valor_em. induction cols as [|k t IH]; [contradiction|].
  intros Hin. cbn [combine map find fst]. destruct (k =? c) eqn:E.
  - apply Z.eqb_eq in E. now subst.
  - apply IH. destruct Hin as [->|H]; [rewrite Z.eqb_refl in E; discriminate | exact H].
Qed.

Section MapaFacts.
Variable strftime : Z -> string.
Variable df : DataFrame.

Let mapa_coerente := SpecMapa.mapa_coerente strftime df.

Lemma pivot_table_coerente : mapa_coerente (ComboioMapa.pivot_table strftime df).
Proof.
  unfold mapa_coerente, SpecMapa.mapa_coerente, ComboioMapa.pivot_table. cbn.
  split; [reflexivity|]. split.
  - apply sorted_NoDup, unique_NoDup, Z_eqb_eq'.
  - intros r Hr. apply sorted_In, (unique_In Z.eqb Z_eqb_eq'), in_map_iff.
    now exists r.
Qed.

Lemma celula_zero (cols : list Z) (d : string) (h : Z) :
  (forall r : registro, In r df -> In (Tempo.hour (retirada r)) cols) ->
  ~ In h cols -> ComboioMapa.celula strftime df d h = 0.
Proof.
  intros Hcols Hh. unfold ComboioMapa.celula.
  destruct (filter _ df) as [|r t] eqn:E; [reflexivity|]. exfalso.
  assert (Hr : In r (filter (fun r : registro =>
                               String.eqb (strftime (retirada r)) d
                               && (Tempo.hour (retirada r) =? h)) df))
    by (rewrite E; now left).
  apply filter_In in Hr. destruct Hr as [Hr Hb].
  apply andb_true_iff in Hb. destruct Hb as [_ Hb]. apply Z.eqb_eq in Hb.
  apply Hh. rewrite <- Hb. now apply Hcols.
Qed.

Lemma garantir_hora_coerente (pivot : ComboioMapa.pivot_t) (hora : Z) :
  mapa_coerente pivot ->
  mapa_coerente (ComboioMapa.garantir_hora pivot hora) /\
  ComboioMapa.index (ComboioMapa.garantir_hora pivot hora) = ComboioMapa.index pivot /\
  (forall h, In h (ComboioMapa.columns (ComboioMapa.garantir_hora pivot hora)) <->
             In h (ComboioMapa.columns pivot) \/ h = hora).
Proof.
  intros [Hv [Hnd Hcols]]. unfold ComboioMapa.garantir_hora.
  destruct (existsb _ _) eqn:E.
  - split; [now repeat split|]. split; [reflexivity|].
    intros h. split; [auto|]. intros [H | ->]; [exact H|].
    apply existsb_exists in E. destruct E as [x [Hx Hxe]].
    apply Z.eqb_eq in Hxe. now subst.
  - assert (Hno : ~ In hora (ComboioMapa.columns pivot)).
    { intros Hin. assert (existsb (Z.eqb hora) (ComboioMapa.columns pivot) = true).
      { apply existsb_exists. exists hora. split; [exact Hin | apply Z.eqb_refl]. }
      congruence. }
    cbn [ComboioMapa.index ComboioMapa.columns ComboioMapa.values].
    split; [|split; [reflexivity|]].
    + unfold mapa_coerente, SpecMapa.mapa_coerente.
      cbn [ComboioMapa.index ComboioMapa.columns ComboioMapa.values].
      split; [|split].
      * rewrite Hv, map_map. apply map_ext. intros d.
        rewrite map_app. cbn [map]. f_equal. f_equal. symmetry.
        now apply (celula_zero (ComboioMapa.columns pivot)).
      * apply NoDup_app; [exact Hnd | repeat constructor; intros [] | ].
        intros x Hx [<-|[]]. contradiction.
      * intros r Hr. apply in_or_app. left. now apply Hcols.
    + intros h. rewrite in_app_iff. simpl. intuition.
Qed.

Lemma garantir_horas_coerente (horas : list Z) (pivot : ComboioMapa.pivot_t) :
  mapa_coerente pivot ->
  mapa_coerente (fold_left ComboioMapa.garantir_hora horas pivot) /\
  ComboioMapa.index (fold_left ComboioMapa.garantir_hora horas pivot)
  = ComboioMapa.index pivot /\
  (forall h, In h (ComboioMapa.columns (fold_left ComboioMapa.garantir_hora horas pivot))
             <-> In h (ComboioMapa.columns pivot) \/ In h horas).
Proof.
  revert pivot. induction horas as [|hora t IH]; intros pivot Hc.
  - simpl. split; [exact Hc|]. split; [reflexivity|]. intros h. tauto.
  - cbn [fold_left].
    destruct (garantir_hora_coerente pivot hora Hc) as [Hc' [Hi' Hcols']].
    destruct (IH _ Hc') as [Hc'' [Hi'' Hcols'']].
    split; [exact Hc''|]. split; [congruence|].
    intros h. rewrite Hcols'', Hcols'. simpl. intuition.
Qed.

End MapaFacts.

Lemma filter_e {A} (a b : A -> bool) (l : list A) :
  filter (fun x => a x && b x) l = filter b (filter a l).
Proof.
  induction l as [|x t IH]; [reflexivity|]. cbn [filter].
  destruct (a x); cbn [andb filter]; [destruct (b x)|]; now rewrite IH.
Qed.

Lemma celula_grupo (strftime : Z -> string) (df : DataFrame) (d : string) (h : Z) :
  ComboioMapa.celula strftime df d h
  = Z.of_nat (List.length
      (Pandas.grupo_de Z.eqb (fun r : registro => Some (Tempo.hour (retirada r))) h
         (Pandas.grupo_de String.eqb
            (fun r : registro => Some (strftime (retirada r))) d df))).
Proof.
  unfold ComboioMapa.celula, Pandas.grupo_de.
  rewrite (filter_e (fun r : registro => String.eqb (strftime (retirada r)) d)
                    (fun r : registro => Tempo.hour (retirada r) =? h)).
  rewrite (filter_ext (fun r : registro => String.eqb (strftime (retirada r)) d)
                      (fun r : registro => String.eqb d (strftime (retirada r))))
    by (intros r; apply String.eqb_sym).
  rewrite (filter_ext (fun r : registro => Tempo.hour (retirada r) =? h)
                      (fun r : registro => h =? Tempo.hour (retirada r)))
    by (intros r; apply Z.eqb_sym).
  reflexivity.
Qed.

(** X24.  The pivot behind the heat map has the 24 hours 0..23 as columns,
    in order, and one row for each date label of the selected records,
    without repetition; each cell counts the selected records of its label
    and hour, and all cells together count each selected record once. *)
Theorem heat_map_counts_every_selected_withdrawal (strftime : Z -> string)
    (df : DataFrame) (filtros : Filtros.t) (cliente : option string) :
  let pivot := ComboioMapa.criar_mapa_calor strftime df filtros cliente in
  let df_filtrado := ComboioMapa.filtrar df filtros cliente in
  ComboioMapa.columns pivot = Py.range 0 24 /\
  NoDup (ComboioMapa.index pivot) /\
  (forall d, In d (ComboioMapa.index pivot) <->
     exists r : registro, In r df_filtrado /\ strftime (retirada r) = d) /\
  ComboioMapa.values pivot
  = map (fun d => map (ComboioMapa.celula strftime df_filtrado d) (Py.range 0 24))
        (ComboioMapa.index pivot) /\
  Pandas.sumZ (map Pandas.sumZ (ComboioMapa.values pivot))
  = Z.of_nat (List.length df_filtrado).
Proof.
  intros pivot df_filtrado.
  unfold pivot, ComboioMapa.criar_mapa_calor. cbv zeta. fold df_filtrado.
  destruct (garantir_horas_coerente strftime df_filtrado (Py.range 0 24)
              (ComboioMapa.pivot_table strftime df_filtrado)
              (pivot_table_coerente strftime df_filtrado))
    as [[Hv [Hnd Hhoras]] [Hidx Hcols]].
  set (pv := fold_left ComboioMapa.garantir_hora (Py.range 0 24)
               (ComboioMapa.pivot_table strftime df_filtrado)) in *.
  assert (Hsorted : Pandas.sorted Z.leb (ComboioMapa.columns pv) = Py.range 0 24).
  { apply ordenadas_iguais.
    - apply sorted_Z_sorted.
    - apply sorted_NoDup. exact Hnd.
    - apply range_sorted.
    - apply range_sorted.
    - intros x. rewrite sorted_In, Hcols, range_In.
      unfold ComboioMapa.pivot_table. cbn [ComboioMapa.columns].
      rewrite sorted_In, (unique_In Z.eqb Z_eqb_eq'), in_map_iff. split; [|tauto].
      intros [ [r [<- _] ] | H ]; [|exact H].
      pose proof (hour_range (retirada r)). lia. }
  assert (Hindex : ComboioMapa.index pv
                   = Pandas.sorted String.leb
                       (Pandas.unique String.eqb
                          (map (fun r : registro => strftime (retirada r)) df_filtrado)))
    by (rewrite Hidx; reflexivity).
  assert (Hvalues :
    ComboioMapa.values (ComboioMapa.reindex (Pandas.sorted Z.leb (ComboioMapa.columns pv)) pv)
    = map (fun d => map (ComboioMapa.celula strftime df_filtrado d) (Py.range 0 24))
          (ComboioMapa.index pv)).
  { unfold ComboioMapa.reindex. cbn [ComboioMapa.values].
    rewrite Hv, map_map, Hsorted. apply map_ext. intros d.
    apply map_ext_in. intros h Hh. apply valor_em_map.
    apply Hcols. right. exact Hh. }
  cbn [ComboioMapa.columns ComboioMapa.index ComboioMapa.reindex] in *.
  repeat match goal with |- _ /\ _ => split end.
  - exact Hsorted.
  - rewrite Hindex. apply sorted_NoDup, unique_NoDup, string_eqb_eq.
  - intros d. rewrite Hindex, sorted_In, (unique_In String.eqb string_eqb_eq), in_map_iff.
    split; intros [r [H1 H2]]; exists r; auto.
  - exact Hvalues.
  - rewrite Hvalues, map_map.
    set (porlabel := fun d =>
           Pandas.grupo_de String.eqb
             (fun r : registro => Some (strftime (retirada r))) d df_filtrado).
    rewrite (map_ext _ (fun d => Z.of_nat (List.length (porlabel d)))).
    + rewrite <- (map_map (fun d => List.length (porlabel d)) Z.of_nat), sumZ_of_nat.
      apply (f_equal Z.of_nat). unfold porlabel.
      rewrite (soma_grupos String.eqb string_eqb_eq).
      * rewrite presentes_Some, length_map. reflexivity.
      * rewrite Hindex. apply sorted_NoDup, unique_NoDup, string_eqb_eq.
      * intros r k Hr Hk. inversion Hk; subst.
        rewrite Hindex. apply sorted_In, (unique_In String.eqb string_eqb_eq), in_map_iff.
        exists r. split; [reflexivity | exact Hr].
    + intros d.
      rewrite (map_ext _ (fun h => Z.of_nat (List.length
                 (Pandas.grupo_de Z.eqb
                    (fun r : registro => Some (Tempo.hour (retirada r))) h (porlabel d)))))
        by (intros h; apply celula_grupo).
      rewrite <- (map_map (fun h => List.length
                 (Pandas.grupo_de Z.eqb
                    (fun r : registro => Some (Tempo.hour (retirada r))) h (porlabel d)))
               Z.of_nat), sumZ_of_nat.
      apply (f_equal Z.of_nat). rewrite (soma_grupos Z.eqb Z_eqb_eq').
      * rewrite presentes_Some, length_map. reflexivity.
      * apply range_sorted.
      * intros r k _ Hk. inversion Hk; subst. apply range_In.
        pose proof (hour_range (retirada r)). lia.
Qed.

Example heat_map_example :
  let rotulo := fun t => Py.fmt_02d (Tempo.date t - 19999) in
  let pivot := ComboioMapa.criar_mapa_calor rotulo Exemplos.dois_dias Exemplos.filtros None in
  ComboioMapa.index pivot = ["01"; "02"] /\
  map (fun linha => (nth 8 linha 0, nth 9 linha 0, nth 11 linha 0))
      (ComboioMapa.values pivot)
  = [ (4, 0, 1); (0, 2, 0) ].
Proof. vm_compute. split; reflexivity. Qed.

(** ** The overview of the wait-time insights *)

Section TabelasPorChave.
Context {V1 V2 : Type}.
Variable F1 : string -> V1.
Variable F2 : string -> V2.

Lemma com_chave_tabela (k : string) (ks : list string) :
  NoDup ks ->
  Pandas.com_chave k (map (fun k' => (k', F2 k')) ks)
  = if existsb (String.eqb k) ks then [F2 k] else [].
Proof.
  unfold Pandas.com_chave. induction ks as [|k' t IH]; intros Hnd; [reflexivity|].
  inversion Hnd as [|? ? Hnotin Hnd']; subst.
  cbn [map filter fst existsb]. rewrite (String.eqb_sym k' k).
  destruct (String.eqb k k') eqn:E.
  - apply String.eqb_eq in E. subst k'. cbn [map snd orb].
    rewrite (IH Hnd').
    destruct (existsb (String.eqb k) t) eqn:Ex; [|reflexivity].
    exfalso. apply existsb_exists in Ex. destruct Ex as [x [Hx Hxe]].
    apply String.eqb_eq in Hxe. subst x. contradiction.
  - cbn [orb]. apply (IH Hnd').
Qed.

(** The inner join of two tables with one row per key keeps the left keys
    that are right keys too. *)
Lemma merge_inner_tabelas (ks1 ks2 : list string) :
  NoDup ks2 ->
  Pandas.merge_inner (map (fun k => (k, F1 k)) ks1) (map (fun k => (k, F2 k)) ks2)
  = map (fun k => (k, (F1 k, F2 k)))
        (filter (fun k => existsb (String.eqb k) ks2) ks1).
Proof.
  intros Hnd. unfold Pandas.merge_inner.
  induction ks1 as [|k t IH]; [reflexivity|].
  cbn [map flat_map fst snd filter]. rewrite IH, (com_chave_tabela k ks2 Hnd).
  destruct (existsb (String.eqb k) ks2); reflexivity.
Qed.

End TabelasPorChave.

Lemma chaves_de_NoDup (key : registro -> option string) (df : DataFrame) :
  NoDup (SpecInsights.chaves_de key df).
Proof. apply sorted_NoDup, unique_NoDup, string_eqb_eq. Qed.

Lemma chaves_de_In (key : registro -> option string) (df : DataFrame) (k : string) :
  In k (SpecInsights.chaves_de key df) <-> exists r, In r df /\ key r = Some k.
Proof.
  unfold SpecInsights.chaves_de. now rewrite sorted_In, (unique_In String.eqb string_eqb_eq), presentes_In.
Qed.

Lemma espera_calcular_tabela (df : DataFrame) (filtros : Filtros.t)
    (p : Filtros.nome_periodo) (g : grupo) :
  Espera.calcular_tempos_por_periodo df filtros p g
  = map (fun k => (k, SpecInsights.tempos_espera (Espera.filtrar df filtros p) g k))
        (SpecInsights.chaves_de (coluna_grupo g) (Espera.filtrar df filtros p)).
Proof.
  unfold Espera.calcular_tempos_por_periodo. cbv zeta.
  destruct (Espera.filtrar df filtros p) as [|r t] eqn:E; [reflexivity|].
  cbn [List.length Nat.eqb]. unfold Pandas.groupby. rewrite map_map. reflexivity.
Qed.

Lemma existsb_string_In (k : string) (ks : list string) :
  existsb (String.eqb k) ks = true <-> In k ks.
Proof.
  rewrite existsb_exists. split.
  - intros [x [Hx Hxe]]. apply String.eqb_eq in Hxe. now subst.
  - intros H. exists k. split; [exact H | apply String.eqb_refl].
Qed.

(** The sizes of the groups of the keys that another frame has too add up
    to the number of rows whose key that frame has. *)
Lemma soma_grupos_comuns (key : registro -> option string) (df outras : DataFrame) :
  SpecLoad.soma_nat
    (map (fun k => List.length (Pandas.grupo_de String.eqb key k df))
         (filter (fun k => existsb (String.eqb k) (SpecInsights.chaves_de key outras))
                 (SpecInsights.chaves_de key df)))
  = List.length
      (filter (fun r => match key r with
                        | Some k => existsb (String.eqb k) (SpecInsights.chaves_de key outras)
                        | None => false
                        end) df).
Proof.
  set (P := fun r : registro => match key r with
                     | Some k => existsb (String.eqb k) (SpecInsights.chaves_de key outras)
                     | None => false
                     end).
  set (ks := filter _ (SpecInsights.chaves_de key df)).
  rewrite (map_ext_in _ (fun k => List.length (Pandas.grupo_de String.eqb key k (filter P df)))).
  - rewrite (soma_grupos String.eqb string_eqb_eq).
    + rewrite presentes_length. f_equal.
      rewrite <- filter_e. apply filter_ext. intros r. unfold P.
      destruct (key r); [apply andb_true_r | reflexivity].
    + apply NoDup_filter, chaves_de_NoDup.
    + intros r k Hr Hk. apply filter_In in Hr. destruct Hr as [Hr HP].
      apply filter_In. split.
      * apply chaves_de_In. now exists r.
      * unfold P in HP. now rewrite Hk in HP.
  - intros k Hk. apply filter_In in Hk. destruct Hk as [_ Hk].
    unfold Pandas.grupo_de. rewrite <- filter_e. f_equal.
    apply filter_ext. intros r. unfold P.
    destruct (key r) as [k'|]; [|reflexivity].
    destruct (String.eqb k k') eqn:E; [|now rewrite andb_false_r].
    apply String.eqb_eq in E. subst k'. now rewrite Hk.
Qed.

Lemma presente_em_tabela (df : DataFrame) (filtros : Filtros.t)
    (p : Filtros.nome_periodo) (g : grupo) (o : option string) :
  SpecInsights.presente_em (Espera.calcular_tempos_por_periodo df filtros p g) o
  = match o with
    | Some k => existsb (String.eqb k)
                  (SpecInsights.chaves_de (coluna_grupo g) (Espera.filtrar df filtros p))
    | None => false
    end.
Proof.
  unfold SpecInsights.presente_em. rewrite espera_calcular_tabela, map_map.
  cbn [fst]. now rewrite map_id.
Qed.

(** X25.  The totals of the wait-time overview count, in each period, only
    the selected records whose client (or operation) has records in the
    other period as well: a group missing from one period is left out of
    both totals, and so is every record without group. *)
Theorem wait_overview_totals_count_shared_groups_only (df : DataFrame)
    (filtros : Filtros.t) (g : grupo) :
  let tempos_p1 := Espera.calcular_tempos_por_periodo df filtros Filtros.periodo1 g in
  let tempos_p2 := Espera.calcular_tempos_por_periodo df filtros Filtros.periodo2 g in
  let visao := EsperaInsights.gerar_insights
                 (EsperaInsights.df_comp_insights tempos_p1 tempos_p2) in
  EsperaInsights.total_atendimentos_p1 visao
  = Z.of_nat (List.length
      (filter (fun r => SpecInsights.presente_em tempos_p2 (coluna_grupo g r))
              (Espera.filtrar df filtros Filtros.periodo1))) /\
  EsperaInsights.total_atendimentos_p2 visao
  = Z.of_nat (List.length
      (filter (fun r => SpecInsights.presente_em tempos_p1 (coluna_grupo g r))
              (Espera.filtrar df filtros Filtros.periodo2))).
Proof.
  intros tempos_p1 tempos_p2 visao.
  set (df1 := Espera.filtrar df filtros Filtros.periodo1).
  set (df2 := Espera.filtrar df filtros Filtros.periodo2).
  set (ks1 := SpecInsights.chaves_de (coluna_grupo g) df1).
  set (ks2 := SpecInsights.chaves_de (coluna_grupo g) df2).
  assert (Hcomp : EsperaInsights.df_comp_insights tempos_p1 tempos_p2
                  = map (fun k =>
                           let a := SpecInsights.tempos_espera df1 g k in
                           let b := SpecInsights.tempos_espera df2 g k in
                           mkCompTempos k (media a) (contagem a) (media b) (contagem b)
                             None (variacao_pct (media a) (media b))
                             (media a + media b)%Q)
                        (filter (fun k => existsb (String.eqb k) ks2) ks1)).
  { unfold EsperaInsights.df_comp_insights, tempos_p1, tempos_p2.
    rewrite !espera_calcular_tabela. fold df1 df2 ks1 ks2.
    rewrite (merge_inner_tabelas (SpecInsights.tempos_espera df1 g) (SpecInsights.tempos_espera df2 g) ks1 ks2)
      by apply chaves_de_NoDup.
    rewrite map_map. reflexivity. }
  unfold visao, EsperaInsights.gerar_insights. cbv zeta.
  cbn [EsperaInsights.total_atendimentos_p1 EsperaInsights.total_atendimentos_p2].
  rewrite Hcomp, !map_map. cbn [contagem_p1 contagem_p2 contagem SpecInsights.tempos_espera].
  split.
  - rewrite <- (map_map (fun k => List.length
                  (Pandas.grupo_de String.eqb (coluna_grupo g) k df1)) Z.of_nat).
    rewrite sumZ_of_nat. f_equal. unfold ks1, ks2.
    rewrite soma_grupos_comuns. f_equal. apply filter_ext. intros r.
    unfold tempos_p2. now rewrite presente_em_tabela.
  - rewrite <- (map_map (fun k => List.length
                  (Pandas.grupo_de String.eqb (coluna_grupo g) k df2)) Z.of_nat).
    rewrite sumZ_of_nat. f_equal.
    assert (Hperm : Permutation (filter (fun k => existsb (String.eqb k) ks2) ks1)
                                (filter (fun k => existsb (String.eqb k) ks1) ks2)).
    { apply NoDup_Permutation.
      - apply NoDup_filter, chaves_de_NoDup.
      - apply NoDup_filter, chaves_de_NoDup.
      - intros k. rewrite !filter_In, !existsb_string_In. tauto. }
    assert (Hsoma : forall (f : string -> nat) l1 l2, Permutation l1 l2 ->
               SpecLoad.soma_nat (map f l1) = SpecLoad.soma_nat (map f l2)).
    { intros f l1 l2 HP. induction HP; simpl; lia. }
    rewrite (Hsoma _ _ _ Hperm). unfold ks1, ks2.
    rewrite soma_grupos_comuns. f_equal. apply filter_ext. intros r.
    unfold tempos_p1. now rewrite presente_em_tabela.
Qed.

Example wait_overview_example :
  let df := [ Exemplos.atendimento 1 "ana" 1 "ACME" "CARGA"
                (Exemplos.ts 20000 8 0 0) (Exemplos.ts 20000 8 5 0) (Exemplos.ts 20000 8 10 0);
              Exemplos.atendimento 2 "rui" 2 "BETA" "CARGA"
                (Exemplos.ts 20000 8 1 0) (Exemplos.ts 20000 8 20 0) (Exemplos.ts 20000 8 30 0);
              Exemplos.atendimento 3 "ana" 1 "ACME" "CARGA"
                (Exemplos.ts 20001 8 40 0) (Exemplos.ts 20001 8 50 0) (Exemplos.ts 20001 8 55 0) ] in
  let filtros := Filtros.mkFiltros (Filtros.mkPeriodo 20000 20000) (Filtros.mkPeriodo 20001 20001)
                   ["Todos"] ["Todas"] ["Todos"] None None in
  let visao := EsperaInsights.gerar_insights
                 (EsperaInsights.df_comp_insights
                    (Espera.calcular_tempos_por_periodo df filtros Filtros.periodo1 G_CLIENTE)
                    (Espera.calcular_tempos_por_periodo df filtros Filtros.periodo2 G_CLIENTE)) in
  List.length (Espera.filtrar df filtros Filtros.periodo1) = 2%nat /\
  EsperaInsights.total_atendimentos_p1 visao = 1 /\
  EsperaInsights.total_atendimentos_p2 visao = 1.
Proof. vm_compute. repeat split. Qed.

(** ** The collaborator reported with the least idle time *)

Lemma melhor_scan (t : list Ociosidade.comp) (r : Ociosidade.comp) :
  let p2 := fun x => Ociosidade.valor (Ociosidade.tempo_ocioso_p2 x) in
  let m := fold_left (fun best x => if Qle_bool (p2 best) (p2 x) then best else x) t r in
  In m (r :: t) /\ forall x, In x (r :: t) -> (p2 m <= p2 x)%Q.
Proof.
  intros p2. revert r. induction t as [|y t IH]; intros r; cbn [fold_left].
  - split; [now left|]. intros x [<-|[]]. apply Qle_refl.
  - destruct (Qle_bool (p2 r) (p2 y)) eqn:E.
    + destruct (IH r) as [Hin Hmin]. cbv zeta in Hin, Hmin. split.
      * destruct Hin as [H|H]; [now left | now right; right].
      * intros x [<-|[<-|Hx]].
        -- apply Hmin. now left.
        -- apply Qle_bool_iff in E. eapply Qle_trans; [|exact E]. apply Hmin. now left.
        -- apply Hmin. now right.
    + destruct (IH y) as [Hin Hmin]. cbv zeta in Hin, Hmin. split.
      * now right.
      * assert (Hyr : (p2 y <= p2 r)%Q).
        { destruct (Qlt_le_dec (p2 y) (p2 r)) as [H|H]; [now apply Qlt_le_weak|].
          apply Qle_bool_iff in H. congruence. }
        intros x [<-|[<-|Hx]].
        -- eapply Qle_trans; [|exact Hyr]. apply Hmin. now left.
        -- apply Hmin. now left.
        -- apply Hmin. now right.
Qed.

(** The period-2 cell of a row of the idleness table is 0 for a
    collaborator without value in period 2 and at least one second
    otherwise. *)
Lemma celula_p2 (df : DataFrame) (filtros : Filtros.t) (row : Ociosidade.comp) :
  let ocio_p1 := Ociosidade.calcular_ociosidade_por_periodo df filtros Filtros.periodo1 in
  let ocio_p2 := Ociosidade.calcular_ociosidade_por_periodo df filtros Filtros.periodo2 in
  In row (Ociosidade.df_insights ocio_p1 ocio_p2) ->
  (Ociosidade.tempo_ocioso_p2 row = Fin 0 /\
   ~ In (Ociosidade.c_colaborador row) (map fst ocio_p2)) \/
  (exists v, Ociosidade.tempo_ocioso_p2 row = Fin v /\ (1 <= v)%Q /\
             In (Ociosidade.c_colaborador row) (map fst ocio_p2)).
Proof.
  intros p1 p2 Hrow. apply df_insights_rows in Hrow.
  destruct Hrow as [k [o1 [o2 [Hin ->]]]]. apply merge_outer_In in Hin.
  cbn [Ociosidade.tempo_ocioso_p2 Ociosidade.c_colaborador].
  destruct o2 as [v2|].
  - right. exists v2. rewrite preenchido_Some.
    assert (H2 : In (k, v2) p2) by (destruct o1; tauto).
    split; [reflexivity|]. split.
    + eapply ociosidade_valor_pos; exact H2.
    + apply in_map_iff. now exists (k, v2).
  - left. rewrite preenchido_None. split; [reflexivity|].
    destruct o1 as [v1|]; [|contradiction]. destruct Hin as [_ Hno].
    intros Hk. apply in_map_iff in Hk. destruct Hk as [[a b] [<- Hk]].
    exact (Hno b Hk).
Qed.

(** X26.  "Menor Ociosidade" names a row with the smallest period-2 cell of
    the idleness table.  As a collaborator without idle time in period 2
    has the cell 0 and every computed idle time is of one second at least,
    the collaborator named is one without period-2 value, shown with time
    0, as soon as some collaborator has a value in period 1 only. *)
Theorem least_idle_is_a_collaborator_absent_from_period2 (df : DataFrame)
    (filtros : Filtros.t) :
  let ocio_p1 := Ociosidade.calcular_ociosidade_por_periodo df filtros Filtros.periodo1 in
  let ocio_p2 := Ociosidade.calcular_ociosidade_por_periodo df filtros Filtros.periodo2 in
  let df_insights := Ociosidade.df_insights ocio_p1 ocio_p2 in
  match OciosidadeAba.melhor df_insights with
  | None => df_insights = []
  | Some melhor =>
      In melhor df_insights /\
      (forall row, In row df_insights ->
         (Ociosidade.valor (Ociosidade.tempo_ocioso_p2 melhor)
          <= Ociosidade.valor (Ociosidade.tempo_ocioso_p2 row))%Q) /\
      ((exists k, In k (map fst ocio_p1) /\ ~ In k (map fst ocio_p2)) ->
       Ociosidade.tempo_ocioso_p2 melhor = Fin 0 /\
       ~ In (Ociosidade.c_colaborador melhor) (map fst ocio_p2))
  end.
Proof.
  intros p1 p2 ins. unfold OciosidadeAba.melhor.
  destruct ins as [|r t] eqn:E; [reflexivity|].
  destruct (melhor_scan t r) as [Hin Hmin]. cbv zeta in Hin, Hmin.
  set (m := fold_left _ t r) in *.
  split; [exact Hin|]. split; [exact Hmin|].
  intros [k [Hk1 Hk2]].
  assert (Hrows : forall row, In row (r :: t) ->
            In row (Ociosidade.df_insights p1 p2))
    by (intros row Hrow; fold ins; now rewrite E).
  assert (Hzero : exists row, In row (r :: t) /\
                              Ociosidade.tempo_ocioso_p2 row = Fin 0).
  { apply in_map_iff in Hk1. destruct Hk1 as [[k' v1] [Hk' Hv1]]. simpl in Hk'. subst k'.
    exists (Ociosidade.mkComp k (Ociosidade.preenchido (Some v1))
              (Ociosidade.preenchido None)
              (Ociosidade.variacao_de (Ociosidade.preenchido (Some v1))
                                      (Ociosidade.preenchido None))).
    split; [|reflexivity].
    rewrite <- E. apply df_insights_rows. exists k, (Some v1), None.
    split; [|reflexivity]. apply merge_outer_In. split; [exact Hv1|].
    intros v2 Hv2. apply Hk2. apply in_map_iff. now exists (k, v2). }
  destruct Hzero as [z [Hz Hz0]].
  pose proof (Hmin z Hz) as Hle. rewrite Hz0 in Hle. cbn [Ociosidade.valor] in Hle.
  destruct (celula_p2 df filtros m (Hrows m Hin)) as [H|[v [Hv [Hv1 _]]]]; [exact H|].
  exfalso. rewrite Hv in Hle. cbn [Ociosidade.valor] in Hle.
  apply (Qlt_irrefl 0). eapply Qlt_le_trans; [|exact Hle].
  eapply Qlt_le_trans; [|exact Hv1]. reflexivity.
Qed.

Example least_idle_example :
  let df := Exemplos.dois_dias in
  let filtros := Filtros.mkFiltros (Filtros.mkPeriodo 20000 20000) (Filtros.mkPeriodo 20002 20002)
                   ["Todos"] ["Todas"] ["Todos"] None None in
  option_map (fun m => (Ociosidade.c_colaborador m, Ociosidade.tempo_ocioso_p2 m))
    (OciosidadeAba.melhor
       (Ociosidade.df_insights
          (Ociosidade.calcular_ociosidade_por_periodo df filtros Filtros.periodo1)
          (Ociosidade.calcular_ociosidade_por_periodo df filtros Filtros.periodo2)))
  = Some ("ana", Fin 0).
Proof. vm_compute. reflexivity. Qed.

(** ** The insights of the service-time tab *)

Lemma nomes_cliente (linhas : list comp_tempos) :
  TempoAtendInsights.nomes G_CLIENTE linhas = Py.Retorna (map ct_chave linhas).
Proof.
  induction linhas as [|row t IH]; [reflexivity|].
  cbn [TempoAtendInsights.nomes TempoAtendInsights.row_CLIENTE]. now rewrite IH.
Qed.

Lemma nomes_operacao (linhas : list comp_tempos) :
  TempoAtendInsights.nomes G_OPERACAO linhas
  = match linhas with [] => Py.Retorna [] | _ :: _ => Py.Levanta "KeyError" end.
Proof. destruct linhas; reflexivity. Qed.

Lemma firstn_3_nil {A} (l : list A) : firstn 3 l = [] <-> l = [].
Proof. destruct l; simpl; split; congruence. Qed.

Lemma sort_values_nil {A K} (leb : K -> K -> bool) (key : A -> K) (l : list A) :
  Pandas.sort_values leb key l = [] <-> l = [].
Proof.
  split.
  - intros H. destruct l as [|x t]; [reflexivity|]. exfalso.
    assert (Hin : In x (Pandas.sort_values leb key (x :: t)))
      by (apply sort_values_In; now left).
    rewrite H in Hin. contradiction.
  - intros ->. reflexivity.
Qed.

Lemma filter_nil {A} (f : A -> bool) (l : list A) :
  filter f l = [] <-> forall x, In x l -> f x = false.
Proof.
  split.
  - intros H x Hx. destruct (f x) eqn:E; [|reflexivity]. exfalso.
    assert (Hin : In x (filter f l)) by (apply filter_In; now split).
    rewrite H in Hin. contradiction.
  - intros H. destruct (filter f l) as [|x t] eqn:E; [reflexivity|]. exfalso.
    assert (Hin : In x (filter f l)) by (rewrite E; now left).
    apply filter_In in Hin. destruct Hin as [Hx Hf]. rewrite (H x Hx) in Hf. discriminate.
Qed.

(** X27.  The insights of the service-time tab read [row['CLIENTE']] for
    each listed variation.  Grouped by client they always get through;
    grouped by operation, where the key column is named OPERAÇÃO, they
    raise KeyError as soon as one row has a variation below or above zero,
    and get through, listing nothing, exactly when none has. *)
Theorem service_time_insights_raise_when_grouped_by_operation :
  (forall df_comp, exists r,
     TempoAtendInsights.gerar_insights G_CLIENTE df_comp = Py.Retorna r) /\
  (forall df_comp,
     (exists row, In row df_comp /\
        (TempoAtendInsights.negativo (ct_variacao row)
         || TempoAtendInsights.positivo (ct_variacao row)) = true) ->
     TempoAtendInsights.gerar_insights G_OPERACAO df_comp = Py.Levanta "KeyError") /\
  (forall df_comp,
     (forall row, In row df_comp ->
        (TempoAtendInsights.negativo (ct_variacao row)
         || TempoAtendInsights.positivo (ct_variacao row)) = false) ->
     exists m1 m2 v,
       TempoAtendInsights.gerar_insights G_OPERACAO df_comp
       = Py.Retorna (m1, m2, v, [], [])).
Proof.
  assert (Hmel : forall df_comp,
            firstn 3 (TempoAtendInsights.melhorias df_comp) = [] <->
            forall row, In row df_comp ->
              TempoAtendInsights.negativo (ct_variacao row) = false).
  { intros df_comp. unfold TempoAtendInsights.melhorias.
    now rewrite firstn_3_nil, sort_values_nil, filter_nil. }
  assert (Hpio : forall df_comp,
            firstn 3 (TempoAtendInsights.pioras df_comp) = [] <->
            forall row, In row df_comp ->
              TempoAtendInsights.positivo (ct_variacao row) = false).
  { intros df_comp. unfold TempoAtendInsights.pioras.
    now rewrite firstn_3_nil, sort_values_nil, filter_nil. }
  repeat match goal with |- _ /\ _ => split end.
  - intros df_comp. unfold TempoAtendInsights.gerar_insights. cbv zeta.
    rewrite !nomes_cliente. eexists. reflexivity.
  - intros df_comp [row [Hrow Hvar]].
    unfold TempoAtendInsights.gerar_insights. cbv zeta. rewrite !nomes_operacao.
    destruct (firstn 3 (TempoAtendInsights.melhorias df_comp)) as [|m ms] eqn:Em;
      [|reflexivity].
    destruct (firstn 3 (TempoAtendInsights.pioras df_comp)) as [|q qs] eqn:Ep;
      [|reflexivity].
    exfalso. apply orb_true_iff in Hvar.
    pose proof (proj1 (Hmel df_comp) Em row Hrow) as H1.
    pose proof (proj1 (Hpio df_comp) Ep row Hrow) as H2.
    destruct Hvar; congruence.
  - intros df_comp Hnone.
    unfold TempoAtendInsights.gerar_insights. cbv zeta. rewrite !nomes_operacao.
    assert (Em : firstn 3 (TempoAtendInsights.melhorias df_comp) = []).
    { apply Hmel. intros row Hrow. specialize (Hnone row Hrow).
      now apply orb_false_iff in Hnone. }
    assert (Ep : firstn 3 (TempoAtendInsights.pioras df_comp) = []).
    { apply Hpio. intros row Hrow. specialize (Hnone row Hrow).
      now apply orb_false_iff in Hnone. }
    rewrite Em, Ep. do 3 eexists. reflexivity.
Qed.
